(** * Tip jar on Shardeum: the wallet-to-chain tip pipeline

    A shallow embedding of the tip pipeline of the repository:

    - [client/src/services/web3Service.ts]   (class [ShardeumAPI], ethers based),
    - the second service implementation      (class [Web3Service], web3.js based),
    - [client/src/services/apiService.ts]    (class [ApiService]),
    - [client/src/components/TipModal.tsx]   ([validateForm], [handleSendTip]),
    - [server/index.js]                      (the Express tip store and RPC helper).

    JavaScript values are modelled as a small dynamic value type, JavaScript
    numbers as IEEE-754 binary64 values ([spec_float] with precision 53 and
    maximal exponent 1024), asynchronous calls to the outside world (the
    injected wallet provider, the chain RPC endpoint, the tip store) as
    entries of a call trace answered by an oracle, and exceptions as an
    error outcome of a state-passing monad. *)

From stdpp Require Import base strings gmap list.
From Stdlib Require Import ZArith Lia SpecFloat Ascii String List Bool.
Import ListNotations.
Local Open Scope Z_scope.

(* ====================================================================== *)
(** * Digit strings                                                        *)
(* ====================================================================== *)

Module Digits.

Definition code (c : ascii) : Z := Z.of_N (N_of_ascii c).

Definition in_range (lo hi : Z) (c : ascii) : bool :=
  (lo <=? code c) && (code c <=? hi).

(** [0-9] *)
Definition is_digit (c : ascii) : bool := in_range 48 57 c.

(** [0-9a-fA-F] *)
Definition is_hex (c : ascii) : bool :=
  is_digit c || in_range 97 102 c || in_range 65 70 c.

(** Value of one digit character, in any base up to 16. *)
Definition digit_val (c : ascii) : Z :=
  if is_digit c then code c - 48
  else if in_range 97 102 c then code c - 87
  else if in_range 65 70 c then code c - 55
  else 0.

(** The (lower-case) character of a digit below 16. *)
Definition digit_char (d : Z) : ascii :=
  ascii_of_N (Z.to_N (if d <? 10 then 48 + d else 87 + d)).

Fixpoint value_acc (base acc : Z) (cs : list ascii) : Z :=
  match cs with
  | [] => acc
  | c :: r => value_acc base (acc * base + digit_val c) r
  end.

(** The number a digit string denotes, most significant digit first. *)
Definition value (base : Z) (cs : list ascii) : Z := value_acc base 0 cs.

(** The [k] least significant digits of [n], most significant first. *)
Fixpoint fixed (base : Z) (k : nat) (n : Z) : list ascii :=
  match k with
  | O => []
  | S k' => fixed base k' (n / base) ++ [digit_char (n mod base)]
  end.

Fixpoint strip_zeros (cs : list ascii) : list ascii :=
  match cs with
  | "0"%char :: r => strip_zeros r
  | _ => cs
  end.

(** The numeral of a natural number, without leading zeros. *)
Definition numeral (base : Z) (n : Z) : list ascii :=
  match strip_zeros (fixed base (S (Z.to_nat (Z.log2 n))) n) with
  | [] => ["0"%char]
  | ds => ds
  end.

(** [BigInt.prototype.toString(base)] and the decimal print of an integer. *)
Definition signed_numeral (base : Z) (z : Z) : list ascii :=
  if z <? 0 then "-"%char :: numeral base (- z) else numeral base z.

(** Longest prefix of characters satisfying [p], and the rest. *)
Fixpoint span (p : ascii -> bool) (cs : list ascii) : list ascii * list ascii :=
  match cs with
  | c :: r => if p c then let '(a, b) := span p r in (c :: a, b) else ([], cs)
  | [] => ([], [])
  end.

Fixpoint starts_with (pre cs : list ascii) : bool :=
  match pre, cs with
  | [], _ => true
  | p :: pre', c :: cs' => Ascii.eqb p c && starts_with pre' cs'
  | _ :: _, [] => false
  end.

Definition is_nil {A} (l : list A) : bool :=
  match l with [] => true | _ => false end.

End Digits.

(* ====================================================================== *)
(** * JavaScript numbers and the built-in conversions the code calls       *)
(* ====================================================================== *)

Module JS.

(** A JavaScript Number is an IEEE-754 binary64 value. *)
Abbreviation number := spec_float.

Definition prec : Z := 53.
Definition emax : Z := 1024.

Definition NaN : number := S754_nan.

(** Rounding to nearest, ties to even, of the rational [p / q]
    ([0 <= p], [0 < q]) with the given sign.  The quotient is computed
    with at least 64 significant bits and a sticky bit, which the final
    rounding to 53 bits absorbs. *)
Definition round_ratio (neg : bool) (p q : Z) : number :=
  if p =? 0 then S754_zero neg
  else
    let s := Z.max 0 (Z.log2 q - Z.log2 p + 64) in
    let n := p * 2 ^ s in
    let m := 2 * (n / q) + (if n mod q =? 0 then 0 else 1) in
    binary_normalize prec emax (if neg then - m else m) (- (s + 1)) false.

(** The Number value of [m * 10^e] ([0 <= m]). *)
Definition of_decimal (neg : bool) (m e : Z) : number :=
  if 0 <=? e then round_ratio neg (m * 10 ^ e) 1
  else round_ratio neg m (10 ^ (- e)).

(** The Number value of an integer: [Number(bigint)], and the result of
    [parseInt] on its digits. *)
Definition of_Z (z : Z) : number := binary_normalize prec emax z 0 false.

(** The integer a Number denotes, when it denotes one. *)
Definition to_Z (x : number) : option Z :=
  match x with
  | S754_zero _ => Some 0
  | S754_finite s m e =>
      let v :=
        if 0 <=? e then Some (Z.pos m * 2 ^ e)
        else if Z.pos m mod 2 ^ (- e) =? 0 then Some (Z.pos m / 2 ^ (- e))
        else None in
      option_map (fun z => if s then - z else z) v
  | _ => None
  end.

Definition add (x y : number) : number := SFadd prec emax x y.
Definition leb (x y : number) : bool := SFleb x y.
Definition ltb (x y : number) : bool := SFltb x y.
Definition eqb (x y : number) : bool := SFeqb x y.
(** [x > y] is [y < x]; [x !== y] on numbers is the negation of [==]. *)
Definition gtb (x y : number) : bool := SFltb y x.
Definition neqb (x y : number) : bool := negb (SFeqb x y).

(** ** Strings

    A string is its sequence of bytes; white space and letters are the
    ASCII ones. *)

Definition is_space (c : ascii) : bool :=
  Digits.in_range 9 13 c || (Digits.code c =? 32).

Fixpoint trim_start (cs : list ascii) : list ascii :=
  match cs with
  | c :: r => if is_space c then trim_start r else cs
  | [] => []
  end.

Definition take_sign (cs : list ascii) : bool * list ascii :=
  match cs with
  | "-"%char :: r => (true, r)
  | "+"%char :: r => (false, r)
  | _ => (false, cs)
  end.

(** [parseFloat]: the longest prefix that is a decimal literal, after
    leading white space; [NaN] when there is none. *)
Definition parseFloat (s : string) : number :=
  let '(neg, cs) := take_sign (trim_start (list_ascii_of_string s)) in
  if Digits.starts_with (list_ascii_of_string "Infinity") cs
  then S754_infinity neg
  else
    let '(ip, r1) := Digits.span Digits.is_digit cs in
    let '(fp, r2) :=
      match r1 with
      | "."%char :: r => Digits.span Digits.is_digit r
      | _ => ([], r1)
      end in
    if Digits.is_nil ip && Digits.is_nil fp then NaN
    else
      let ex :=
        match r2 with
        | c :: r =>
            if Ascii.eqb c "e" || Ascii.eqb c "E" then
              let '(eneg, r') := take_sign r in
              let '(ed, _) := Digits.span Digits.is_digit r' in
              if Digits.is_nil ed then 0
              else if eneg then - Digits.value 10 ed else Digits.value 10 ed
            else 0
        | [] => 0
        end in
      of_decimal neg (Digits.value 10 (ip ++ fp)) (ex - Z.of_nat (length fp)).

(** [parseInt(s, 16)]: optional sign, optional [0x] prefix, then the
    longest prefix of hexadecimal digits. *)
Definition parseInt16 (s : string) : number :=
  let '(neg, cs) := take_sign (trim_start (list_ascii_of_string s)) in
  let body :=
    match cs with
    | "0"%char :: x :: r =>
        if Ascii.eqb x "x" || Ascii.eqb x "X" then r else cs
    | _ => cs
    end in
  let '(ds, _) := Digits.span Digits.is_hex body in
  if Digits.is_nil ds then NaN
  else
    let v := Digits.value 16 ds in
    if v =? 0 then S754_zero neg else of_Z (if neg then - v else v).

(** ** [Number.prototype.toString] (radix 10) *)

(** [10^n <= p / q], for [p, q > 0]. *)
Definition ge_pow10 (p q n : Z) : bool :=
  if 0 <=? n then 10 ^ n * q <=? p else q <=? p * 10 ^ (- n).

(** The [n] with [10^(n-1) <= p / q < 10^n], searched from an estimate. *)
Fixpoint find_n (fuel : nat) (p q n : Z) : Z :=
  match fuel with
  | O => n
  | S f =>
      if negb (ge_pow10 p q (n - 1)) then find_n f p q (n - 1)
      else if ge_pow10 p q n then find_n f p q (n + 1)
      else n
  end.

Definition magnitude (p q : Z) : Z :=
  find_n 16 p q ((Z.log2 p - Z.log2 q) * 30103 / 100000 + 1).

(** The [k]-digit decimals around [p / q] (whose magnitude is [n]) that
    read back as [x]: the closer one, the even one on a tie. *)
Definition digits_at (x : number) (p q n : Z) (k : Z) : option Z :=
  let '(num, den) :=
    if 0 <=? k - n then (p * 10 ^ (k - n), q) else (p, q * 10 ^ (n - k)) in
  let lo := num / den in
  let hi := lo + 1 in
  let ok_lo := eqb (of_decimal false lo (n - k)) x in
  let ok_hi := eqb (of_decimal false hi (n - k)) x in
  match ok_lo, ok_hi with
  | true, true =>
      match 2 * (num - lo * den) ?= den with
      | Lt => Some lo
      | Gt => Some hi
      | Eq => Some (if Z.even lo then lo else hi)
      end
  | true, false => Some lo
  | false, true => Some hi
  | false, false => None
  end.

(** The shortest digit string [s] (with its length [k]) that reads back
    as [x]. *)
Fixpoint shortest (fuel : nat) (x : number) (p q n k : Z) : Z * Z :=
  match fuel with
  | O => (p * 10 ^ (17 - n) / q, 17)
  | S f =>
      match digits_at x p q n k with
      | Some s => (s, k)
      | None => shortest f x p q n (k + 1)
      end
  end.

Definition zeros (n : Z) : list ascii := repeat "0"%char (Z.to_nat n).

(** Layout of the digits [ds] of a number of magnitude [n]. *)
Definition layout (ds : list ascii) (n : Z) : list ascii :=
  let k := Z.of_nat (length ds) in
  if (k <=? n) && (n <=? 21) then ds ++ zeros (n - k)
  else if (0 <? n) && (n <=? 21) then
    firstn (Z.to_nat n) ds ++ "."%char :: skipn (Z.to_nat n) ds
  else if (-6 <? n) && (n <=? 0) then
    "0"%char :: "."%char :: zeros (- n) ++ ds
  else
    let e := n - 1 in
    let etxt :=
      "e"%char :: (if e <? 0 then "-"%char else "+"%char)
               :: Digits.numeral 10 (Z.abs e) in
    match ds with
    | [d] => d :: etxt
    | d :: rest => d :: "."%char :: rest ++ etxt
    | [] => etxt
    end.

Definition positive_toString (x : number) (m : positive) (e : Z) : list ascii :=
  let '(p, q) := if 0 <=? e then (Z.pos m * 2 ^ e, 1) else (Z.pos m, 2 ^ (- e)) in
  let n := magnitude p q in
  let '(s, k) := shortest 17 x p q n 1 in
  (* both candidates at one length may be the power of ten above *)
  let '(s, k, n) := if s =? 10 ^ k then (1, 1, n + 1) else (s, k, n) in
  layout (Digits.fixed 10 (Z.to_nat k) s) n.

Definition Number_toString (x : number) : string :=
  match x with
  | S754_nan => "NaN"
  | S754_zero _ => "0"
  | S754_infinity s => if s then "-Infinity" else "Infinity"
  | S754_finite s m e =>
      string_of_list_ascii
        ((if s then ["-"%char] else [])
           ++ positive_toString (S754_finite false m e) m e)
  end.

(** ** [String.prototype.toLowerCase], on the ASCII letters *)

Definition lower (c : ascii) : ascii :=
  if Digits.in_range 65 90 c then ascii_of_N (N_of_ascii c + 32) else c.

Definition toLowerCase (s : string) : string :=
  string_of_list_ascii (map lower (list_ascii_of_string s)).

Definition decimal_string (z : Z) : string :=
  string_of_list_ascii (Digits.signed_numeral 10 z).

Definition hex_string (z : Z) : string :=
  string_of_list_ascii (Digits.signed_numeral 16 z).

(** ** [String.prototype.slice], as the code calls it *)

(** [s.slice(0, n)] *)
Definition slice_to (n : nat) (s : list ascii) : list ascii := firstn n s.

(** [s.slice(-n)] *)
Definition slice_last (n : nat) (s : list ascii) : list ascii :=
  skipn (length s - n) s.

End JS.

(* ====================================================================== *)
(** * JavaScript values                                                    *)
(* ====================================================================== *)

#[local] Set Warnings "-register-all".

Inductive value : Type :=
| VUndefined
| VNull
| VBool (b : bool)
| VNum (x : JS.number)
| VBigInt (z : Z)
| VStr (s : string)
| VArr (items : list value)
| VObj (fields : list (string * value)).

(** What a rejected promise or a [throw] carries: the [code] and the
    [message] of the error object. *)
Record js_error : Type := JsError {
  err_code : option Z;
  err_message : string
}.

Definition Error (msg : string) : js_error := JsError None msg.

Module Val.

(** [!!v] *)
Definition truthy (v : value) : bool :=
  match v with
  | VUndefined | VNull => false
  | VBool b => b
  | VNum x =>
      match x with
      | S754_zero _ | S754_nan => false
      | _ => true
      end
  | VBigInt z => negb (z =? 0)
  | VStr s => negb (String.eqb s "")
  | VArr _ | VObj _ => true
  end.

Fixpoint assoc (k : string) (fields : list (string * value)) : value :=
  match fields with
  | [] => VUndefined
  | (k', v) :: r => if String.eqb k k' then v else assoc k r
  end.

(** [v.k]: a property read; [None] is the TypeError of reading a
    property of [undefined] or [null]. *)
Definition get (k : string) (v : value) : option value :=
  match v with
  | VUndefined | VNull => None
  | VObj fields => Some (assoc k fields)
  | _ => Some VUndefined
  end.

(** Destructuring [const { k } = body] of a request body. *)
Definition field (k : string) (v : value) : value :=
  match get k v with Some x => x | None => VUndefined end.

(** [v === s] for a string [s]. *)
Definition is_string (s : string) (v : value) : bool :=
  match v with VStr s' => String.eqb s' s | _ => false end.

(** The abstract operation ToString, as [parseFloat] and [parseInt]
    apply it to their argument. *)
Fixpoint ToString (v : value) : string :=
  match v with
  | VUndefined => "undefined"
  | VNull => "null"
  | VBool b => if b then "true" else "false"
  | VNum x => JS.Number_toString x
  | VBigInt z => JS.decimal_string z
  | VStr s => s
  | VArr items =>
      (fix join (l : list value) : string :=
         match l with
         | [] => ""
         | x :: r =>
             let e := match x with
                      | VUndefined | VNull => ""
                      | _ => ToString x
                      end in
             match r with
             | [] => e
             | _ => e +:+ "," +:+ join r
             end
         end) items
  | VObj _ => "[object Object]"
  end.

Definition parseFloat (v : value) : JS.number := JS.parseFloat (ToString v).
Definition parseInt16 (v : value) : JS.number := JS.parseInt16 (ToString v).

(** [v.toLowerCase()]: [None] is the TypeError on a value that has no
    such method. *)
Definition toLowerCase (v : value) : option string :=
  match v with VStr s => Some (JS.toLowerCase s) | _ => None end.

End Val.

(* ====================================================================== *)
(** * Token amounts and addresses                                          *)
(* ====================================================================== *)

Module Units.

Definition decimals : nat := 18.
Definition unit : Z := 10 ^ Z.of_nat decimals.

Fixpoint strip_trailing_zeros (cs : list ascii) : list ascii :=
  match cs with
  | [] => []
  | c :: r =>
      match strip_trailing_zeros r with
      | [] => if Ascii.eqb c "0" then [] else [c]
      | r' => c :: r'
      end
  end.

Definition pad_right (k : nat) (cs : list ascii) : list ascii :=
  cs ++ repeat "0"%char (k - length cs).

(** Modelled from the spec: the conversion of a decimal amount to base
    units that the services delegate to the libraries
    ([ethers.parseEther], [web3.utils.toWei(_, 'ether')]), which are not
    part of the repository: "the decimal amount scaled by 10^decimals",
    as an exact integer; [None] is the error on a string that is not a
    decimal amount with at most 18 fractional digits.  First the
    unsigned amounts, then the sign. *)
Definition unsigned_units (cs : list ascii) : option Z :=
  let '(ip, r1) := Digits.span Digits.is_digit cs in
  let '(fp, r2) :=
    match r1 with
    | "."%char :: r => Digits.span Digits.is_digit r
    | _ => ([], r1)
    end in
  if (Digits.is_nil ip && Digits.is_nil fp)
     || negb (Digits.is_nil r2)
     || (decimals <? length fp)%nat
  then None
  else Some (Digits.value 10 ip * unit
             + Digits.value 10 (pad_right decimals fp)).

(** Modelled from the spec: [ethers.parseEther(a)] and
    [web3.utils.toWei(a, 'ether')], with the optional sign in front of
    the unsigned amount. *)
Definition toBaseUnits (a : string) : option Z :=
  match list_ascii_of_string a with
  | c :: r =>
      if Ascii.eqb c "-" then option_map Z.opp (unsigned_units r)
      else unsigned_units (c :: r)
  | [] => None
  end.

(** Modelled from the spec: the conversion back
    ([ethers.formatEther], [web3.utils.fromWei(_, 'ether')]): the exact
    decimal string of [w / 10^decimals], with at least one fractional
    digit. *)
Definition fromBaseUnits (w : Z) : string :=
  let a := Z.abs w in
  let frac :=
    match strip_trailing_zeros (Digits.fixed 10 decimals (a mod unit)) with
    | [] => ["0"%char]
    | ds => ds
    end in
  string_of_list_ascii
    ((if w <? 0 then ["-"%char] else [])
       ++ Digits.numeral 10 (a / unit) ++ "."%char :: frac).

(** Modelled from the spec: [web3.utils.fromWei(q, 'ether')] applied to
    a quantity as the chain returns it, a [0x]-prefixed hexadecimal
    string (or a [bigint]): the quantity is read as an exact integer.
    [None] is the error on anything else. *)
Definition fromWei (q : value) : option string :=
  match q with
  | VBigInt z => Some (fromBaseUnits z)
  | VStr s =>
      match list_ascii_of_string s with
      | "0"%char :: "x"%char :: ds =>
          if negb (Digits.is_nil ds) && forallb Digits.is_hex ds
          then Some (fromBaseUnits (Digits.value 16 ds))
          else None
      | _ => None
      end
  | _ => None
  end.

(** Modelled from the spec: the address check the services delegate to
    the libraries ([ethers.isAddress], [web3.utils.isAddress]): the
    canonical format is the prefix [0x] followed by 40 hexadecimal
    digits of either case ("checksum-agnostic length/prefix
    validation"). *)
Definition address_chars (cs : list ascii) : bool :=
  match cs with
  | c0 :: c1 :: ds =>
      Ascii.eqb c0 "0" && Ascii.eqb c1 "x"
      && (length ds =? 40)%nat && forallb Digits.is_hex ds
  | _ => false
  end.

(** Modelled from the spec: [ethers.isAddress(x)] and
    [web3.utils.isAddress(x)], the canonical format on the characters of
    [x]. *)
Definition isAddress (x : string) : bool :=
  address_chars (list_ascii_of_string x).

(** The letters [A-F] folded to [a-f]: two strings with the same image
    differ only in the case of hexadecimal digits. *)
Definition fold_hex_case (c : ascii) : ascii :=
  if Digits.in_range 65 70 c then JS.lower c else c.

End Units.

(* ====================================================================== *)
(** * The outside world: calls, answers, and the effect monad              *)
(* ====================================================================== *)

(** An asynchronous call that leaves the program.  Each [await] of one of
    these appends it to the trace of the world. *)
Inductive call : Type :=
| EthRequest (method : string) (params : list value)
    (** [window.ethereum.request({ method, params })] *)
| GetSigner
    (** [provider.getSigner()] of the ethers [BrowserProvider] *)
| SignerGetAddress
    (** [signer.getAddress()] *)
| SignerSendTransaction (tx : value)
    (** [signer.sendTransaction(tx)] *)
| Web3GetBalance (address : value)
| Web3EstimateGas (tx : value)
| Web3GetGasPrice
| Web3GetChainId
| Web3GetBlockNumber
    (** [web3.eth.getBalance], [estimateGas], [getGasPrice], ... *)
| Http (verb url : string) (body : value).
    (** [fetch(url, { method: verb, body: JSON.stringify(body) })] followed
        by [response.json()], and [axios.post(url, body)] *)

Inductive response : Type :=
| Resolve (v : value)
| Reject (e : js_error).

(** Identity of a callback registered as an event listener. *)
Definition handler : Type := nat.

Module Store.

(** [name] and [description] are stored as the request gave them. *)
Record creator : Type := Creator {
  id : string;
  name : value;
  address : string;
  description : value;
  avatar : string;
  totalTips : string;
  tipCount : JS.number
}.

Record tip : Type := Tip {
  tip_id : string;
  fromAddress : string;
  toAddress : string;
  amount : value;
  txHash : value;
  creatorId : value;
  timestamp : string;
  status : string
}.

(** [let creators = [...]] and [let transactions = []] of the server. *)
Record state : Type := State {
  creators : list creator;
  transactions : list tip
}.

Definition initial : state :=
  State
    [ Creator "1" (VStr "Tushar Pamnani") "<ADDRESS_HERE>"
        (VStr "Digital artist creating amazing NFT collections")
        "https://api.dicebear.com/7.x/avataaars/svg?seed=Alice"
        "0" (JS.of_Z 0);
      Creator "2" (VStr "Bob Developer") "0x26d6a3805cbae5d5a510443a15129bec456cacff"
        (VStr "Full-stack developer building on Shardeum")
        "https://api.dicebear.com/7.x/avataaars/svg?seed=Bob"
        "0" (JS.of_Z 0) ]
    [].

End Store.

Record world : Type := World {
  ethereum : bool;
    (** [window.ethereum] is defined *)
  oracle : list call -> call -> response;
    (** how the outside answers a call, given the calls made before it *)
  trace : list call;
    (** the calls made so far, oldest first *)
  listeners : gmap string (list handler);
    (** the event registry of the injected provider *)
  api_provider : bool;
  api_signer : bool;
    (** [this.provider] and [this.signer] of [ShardeumAPI] are set *)
  web3 : bool;
    (** [this.web3] of [Web3Service] is set *)
  store : Store.state;
    (** the in-memory state of the server *)
  date_now : Z;
  date_iso : string
    (** [Date.now()] and [new Date().toISOString()] *)
}.

Definition with_trace (t : list call) (w : world) : world :=
  World (ethereum w) (oracle w) t (listeners w) (api_provider w)
        (api_signer w) (web3 w) (store w) (date_now w) (date_iso w).

Definition with_listeners (l : gmap string (list handler)) (w : world) : world :=
  World (ethereum w) (oracle w) (trace w) l (api_provider w)
        (api_signer w) (web3 w) (store w) (date_now w) (date_iso w).

Definition with_api_provider (b : bool) (w : world) : world :=
  World (ethereum w) (oracle w) (trace w) (listeners w) b
        (api_signer w) (web3 w) (store w) (date_now w) (date_iso w).

Definition with_api_signer (b : bool) (w : world) : world :=
  World (ethereum w) (oracle w) (trace w) (listeners w) (api_provider w)
        b (web3 w) (store w) (date_now w) (date_iso w).

Definition with_store (s : Store.state) (w : world) : world :=
  World (ethereum w) (oracle w) (trace w) (listeners w) (api_provider w)
        (api_signer w) (web3 w) s (date_now w) (date_iso w).

Inductive outcome (A : Type) : Type :=
| Ret (a : A)
| Throw (e : js_error).
Arguments Ret {A} a.
Arguments Throw {A} e.

(** An [async] function: it reads and changes the world and either
    returns or throws. *)
Definition M (A : Type) : Type := world -> outcome A * world.

Definition ret {A} (a : A) : M A := fun w => (Ret a, w).

Definition throw {A} (e : js_error) : M A := fun w => (Throw e, w).

Definition bind {A B} (m : M A) (k : A -> M B) : M B :=
  fun w =>
    match m w with
    | (Ret a, w') => k a w'
    | (Throw e, w') => (Throw e, w')
    end.

(** [try { m } catch (error) { h error }] *)
Definition try_catch {A} (m : M A) (h : js_error -> M A) : M A :=
  fun w =>
    match m w with
    | (Ret a, w') => (Ret a, w')
    | (Throw e, w') => h e w'
    end.

Notation "'let*' x ':=' m 'in' k" := (bind m (fun x => k))
  (at level 10, x name, m at level 100, k at level 200).

(** [await] of a call: it is recorded, and the oracle decides whether the
    promise resolves or rejects. *)
Definition await (c : call) : M value :=
  fun w =>
    let w' := with_trace (trace w ++ [c]) w in
    match oracle w (trace w) c with
    | Resolve v => (Ret v, w')
    | Reject e => (Throw e, w')
    end.

Definition TypeError (msg : string) : js_error := JsError None msg.

(** [await window.ethereum.request({ method, params })]; a TypeError when
    [window.ethereum] is undefined. *)
Definition ethereum_request (method : string) (params : list value) : M value :=
  fun w =>
    if ethereum w then await (EthRequest method params) w
    else (Throw (TypeError "Cannot read properties of undefined (reading 'request')"), w).

(** [v.k] inside an [async] function. *)
Definition prop (k : string) (v : value) : M value :=
  match Val.get k v with
  | Some x => ret x
  | None => throw (TypeError ("Cannot read properties of undefined (reading '" +:+ k +:+ "')"))
  end.

(** A library call whose declared result is a [bigint]. *)
Definition await_bigint (c : call) : M Z :=
  let* v := await c in
  match v with
  | VBigInt z => ret z
  | _ => throw (Error "invalid number value")
  end.

(** Calls made by a run: the part of the trace after the first [n]
    entries. *)
Definition calls_since (w w' : world) : list call :=
  skipn (length (trace w)) (trace w').

(** ** The event registry of the injected provider *)

Module Provider.

(** Modelled from the spec: the event registry of the injected wallet
    provider ([window.ethereum.on], [removeAllListeners]), which is not
    part of the repository.  Registering adds one more listener for the
    event ("unsubscribing before re-subscribing is mandatory to avoid
    duplicate handler invocation"), [removeAllListeners(e)] drops every
    listener of [e], and an event calls every registered listener, in
    registration order. *)
Definition on (event : string) (cb : handler) (w : world) : world :=
  with_listeners
    (<[ event := default [] (listeners w !! event) ++ [cb] ]> (listeners w)) w.

Definition removeAllListeners (event : string) (w : world) : world :=
  with_listeners (delete event (listeners w)) w.

(** The listeners an event of this kind invokes. *)
Definition emit (event : string) (w : world) : list handler :=
  default [] (listeners w !! event).

End Provider.

(* ====================================================================== *)
(** * The server ([server/index.js])                                       *)
(* ====================================================================== *)

Module Server.
Import Store.

Definition SHARDEUM_RPC : string := "https://api-testnet.shardeum.org".

Definition num (z : Z) : value := VNum (JS.of_Z z).

(** What [res.status(s).json(body)] sends. *)
Definition http_response : Type := Z * value.

(** [async function shardeumRPC(method, params = [])].  The oracle's
    answer to the POST is [response.data]; axios rejects on a transport
    failure and on a status outside 2xx. *)
Definition shardeumRPC (method : string) (params : list value) : M value :=
  try_catch
    (let* data :=
       await (Http "POST" SHARDEUM_RPC
                (VObj [ ("jsonrpc", VStr "2.0");
                        ("method", VStr method);
                        ("params", VArr params);
                        ("id", num 1) ])) in
     prop "result" data)
    (fun error => (* console.error('RPC Error:', error.message) *)
       throw error).

Definition failed (msg : string) : http_response :=
  (500, VObj [("error", VStr msg)]).

(** What [JSON.stringify] makes of a number: [null] when it is not
    finite, and [0] of [-0]. *)
Definition json_number (x : JS.number) : value :=
  match x with
  | S754_nan | S754_infinity _ => VNull
  | S754_zero _ => VNum (S754_zero false)
  | S754_finite _ _ _ => VNum x
  end.

(** [res.json({ ... })]: a property whose value is [undefined] is left
    out. *)
Definition json_object (fields : list (string * value)) : value :=
  VObj (List.filter
          (fun kv => match snd kv with VUndefined => false | _ => true end)
          fields).

(** [app.get('/api/network')] *)
Definition get_network : M http_response :=
  try_catch
    (let* chainId := shardeumRPC "eth_chainId" [] in
     let* blockNumber := shardeumRPC "eth_blockNumber" [] in
     let* gasPrice := shardeumRPC "eth_gasPrice" [] in
     ret (200, json_object
                 [ ("chainId", chainId);
                   ("blockNumber", json_number (Val.parseInt16 blockNumber));
                   ("gasPrice", json_number (Val.parseInt16 gasPrice)) ]))
    (fun _ => ret (failed "Failed to fetch network info")).

(** [app.get('/api/balance/:address')] *)
Definition get_balance (address : string) : M http_response :=
  try_catch
    (let* balance := shardeumRPC "eth_getBalance" [VStr address; VStr "latest"] in
     match Units.fromWei balance with
     | Some balanceInSHM =>
         ret (200, VObj [ ("address", VStr address);
                          ("balance", VStr balanceInSHM);
                          ("balanceWei", balance) ])
     | None => throw (Error "invalid number value")
     end)
    (fun _ => ret (failed "Failed to fetch balance")).

(** [app.get('/api/nonce/:address')] *)
Definition get_nonce (address : string) : M http_response :=
  try_catch
    (let* nonce := shardeumRPC "eth_getTransactionCount" [VStr address; VStr "latest"] in
     ret (200, VObj [ ("address", VStr address);
                      ("nonce", json_number (Val.parseInt16 nonce)) ]))
    (fun _ => ret (failed "Failed to fetch nonce")).

(** [res.json(transaction)]: JSON drops the properties that are
    [undefined]. *)
Definition tip_json (t : tip) : value :=
  VObj (List.filter
          (fun kv => match snd kv with VUndefined => false | _ => true end)
          [ ("id", VStr (tip_id t));
            ("fromAddress", VStr (fromAddress t));
            ("toAddress", VStr (toAddress t));
            ("amount", amount t);
            ("txHash", txHash t);
            ("creatorId", creatorId t);
            ("timestamp", VStr (timestamp t));
            ("status", VStr (status t)) ]).

(** The two assignments to the creator found:
    [creator.totalTips = (parseFloat(creator.totalTips) + parseFloat(amount)).toString()]
    and [creator.tipCount += 1]. *)
Definition credit (amount : value) (c : creator) : creator :=
  Creator (id c) (name c) (address c) (description c) (avatar c)
    (JS.Number_toString
       (JS.add (JS.parseFloat (totalTips c)) (Val.parseFloat amount)))
    (JS.add (tipCount c) (JS.of_Z 1)).

(** [app.post('/api/tips')].  A TypeError in the handler (a
    [toLowerCase] on something that is not a string) reaches the default
    error handler, which answers 500; it happens before the first
    assignment. *)
Definition post_tips (body : value) (w : world) : http_response * world :=
  let fromAddress := Val.field "fromAddress" body in
  let toAddress := Val.field "toAddress" body in
  let amount := Val.field "amount" body in
  let txHash := Val.field "txHash" body in
  let creatorId := Val.field "creatorId" body in
  if negb (Val.truthy fromAddress) || negb (Val.truthy toAddress)
     || negb (Val.truthy amount) || negb (Val.truthy txHash)
  then ((400, VObj [("error", VStr "Missing required fields")]), w)
  else
    match Val.toLowerCase fromAddress, Val.toLowerCase toAddress with
    | Some from, Some to =>
        let transaction :=
          Tip (JS.decimal_string (date_now w)) from to amount txHash creatorId
              (date_iso w) "pending" in
        let transactions' := transactions (store w) ++ [transaction] in
        let creators' :=
          if Val.truthy creatorId then
            match list_find (fun c => Is_true (Val.is_string (id c) creatorId))
                            (creators (store w)) with
            | Some (i, creator) =>
                <[ i := credit amount creator ]> (creators (store w))
            | None => creators (store w)
            end
          else creators (store w) in
        ((201, tip_json transaction),
         with_store (State creators' transactions') w)
    | _, _ => ((500, VStr "Internal Server Error"), w)
    end.

(** ** The routes of the creators *)

(** [res.json(creator)] *)
Definition creator_json (c : creator) : value :=
  VObj [ ("id", VStr (id c));
         ("name", name c);
         ("address", VStr (address c));
         ("description", description c);
         ("avatar", VStr (avatar c));
         ("totalTips", VStr (totalTips c));
         ("tipCount", json_number (tipCount c)) ].

Definition not_found : http_response :=
  (404, VObj [("error", VStr "Creator not found")]).

Definition missing_fields : http_response :=
  (400, VObj [("error", VStr "Missing required fields")]).

(** [app.get('/api/creators')] *)
Definition get_creators (w : world) : http_response :=
  (200, VArr (map creator_json (creators (store w)))).

(** [app.get('/api/creators/:id')] *)
Definition get_creator (id : string) (w : world) : http_response :=
  match List.find (fun c => String.eqb (Store.id c) id) (creators (store w)) with
  | Some creator => (200, creator_json creator)
  | None => not_found
  end.

(** [app.post('/api/creators')].  [name] and [description] are stored as
    they come; a TypeError in the handler ([address.toLowerCase] on
    something that is not a string) reaches the default error handler,
    which answers 500, before the creator is pushed. *)
Definition post_creators (body : value) (w : world) : http_response * world :=
  let name := Val.field "name" body in
  let address := Val.field "address" body in
  let description := Val.field "description" body in
  if negb (Val.truthy name) || negb (Val.truthy address)
     || negb (Val.truthy description)
  then (missing_fields, w)
  else
    match Val.toLowerCase address with
    | Some lower =>
        let newCreator :=
          Creator (JS.decimal_string (date_now w)) name lower description
            ("https://api.dicebear.com/7.x/avataaars/svg?seed="
               +:+ Val.ToString name)
            "0" (JS.of_Z 0) in
        ((201, creator_json newCreator),
         with_store (State (creators (store w) ++ [newCreator])
                       (transactions (store w))) w)
    | None => ((500, VStr "Internal Server Error"), w)
    end.

(** ** The transaction route and the histories *)

(** [app.get('/api/transaction/:hash')] *)
Definition get_transaction (hash : string) : M http_response :=
  try_catch
    (let* transaction := shardeumRPC "eth_getTransactionByHash" [VStr hash] in
     let* receipt := shardeumRPC "eth_getTransactionReceipt" [VStr hash] in
     ret (200, json_object
                 [ ("transaction", transaction); ("receipt", receipt) ]))
    (fun _ => ret (failed "Failed to fetch transaction")).

Section History.

(** The time value of [new Date(s)]: a number, [NaN] for a string that
    is not a date. *)
Variable Date_value : string -> JS.number.

(** [(a, b) => new Date(b.timestamp) - new Date(a.timestamp)] *)
Definition newest_first (a b : tip) : JS.number :=
  SFsub JS.prec JS.emax (Date_value (timestamp b)) (Date_value (timestamp a)).

(** [Array.prototype.sort(compare)] is stable, and a result of [compare]
    that is not a positive number leaves the pair in place; for a
    consistent [compare] this is the order a stable insertion gives. *)
Fixpoint insert_by (compare : tip -> tip -> JS.number) (x : tip) (l : list tip)
  : list tip :=
  match l with
  | [] => [x]
  | y :: r =>
      if JS.gtb (compare x y) (JS.of_Z 0) then y :: insert_by compare x r
      else x :: y :: r
  end.

Definition sort (compare : tip -> tip -> JS.number) (l : list tip) : list tip :=
  fold_right (insert_by compare) [] l.

(** [tx.fromAddress === address.toLowerCase() || tx.toAddress === address.toLowerCase()] *)
Definition involves (address : string) (tx : tip) : bool :=
  String.eqb (fromAddress tx) (JS.toLowerCase address)
  || String.eqb (toAddress tx) (JS.toLowerCase address).

(** [app.get('/api/history/:address')]: [filter] makes a new array, which
    is then sorted. *)
Definition get_history (address : string) (w : world) : http_response :=
  (200, VArr (map tip_json
                (sort newest_first
                   (List.filter (involves address) (transactions (store w)))))).

(** [app.get('/api/transactions')]: [sort] sorts the array of the server
    itself, in place. *)
Definition get_transactions (w : world) : http_response * world :=
  let sorted := sort newest_first (transactions (store w)) in
  ((200, VArr (map tip_json sorted)),
   with_store (State (creators (store w)) sorted) w).

End History.

End Server.

(* ====================================================================== *)
(** * [ShardeumAPI] ([client/src/services/web3Service.ts])                 *)
(* ====================================================================== *)

Module ShardeumAPI.

Definition SHARDEUM_CHAIN_ID : string := "0x1f93".
Definition rpcUrl : string := "https://api-testnet.shardeum.org".

Definition num (z : Z) : value := VNum (JS.of_Z z).

(** The parameter of [wallet_addEthereumChain]. *)
Definition chain_params : value :=
  VObj [ ("chainId", VStr SHARDEUM_CHAIN_ID);
         ("chainName", VStr "Shardeum Testnet");
         ("nativeCurrency",
           VObj [ ("name", VStr "Shardeum"); ("symbol", VStr "SHM");
                  ("decimals", num 18) ]);
         ("rpcUrls", VArr [VStr rpcUrl]);
         ("blockExplorerUrls", VArr [VStr "https://explorer-testnet.shardeum.org"]);
         ("iconUrls", VArr [VStr "https://shardeum.org/favicon.ico"]) ].

Definition switch_call : call :=
  EthRequest "wallet_switchEthereumChain"
    [VObj [("chainId", VStr SHARDEUM_CHAIN_ID)]].

Definition add_call : call :=
  EthRequest "wallet_addEthereumChain" [chain_params].

(** [async switchToShardeum()] *)
Definition switchToShardeum : M unit :=
  fun w =>
    if negb (ethereum w) then (Throw (Error "MetaMask is not installed"), w)
    else
      try_catch
        (let* _ := await switch_call in ret tt)
        (fun switchError =>
           if bool_decide (err_code switchError = Some 4902) then
             try_catch
               (let* _ := await add_call in ret tt)
               (fun addError =>
                  throw (Error ("Failed to add Shardeum network: "
                                  +:+ err_message addError)))
           else
             throw (Error ("Failed to switch to Shardeum network: "
                             +:+ err_message switchError)))
        w.

(** [onAccountsChanged(callback)], [onChainChanged(callback)] *)
Definition onAccountsChanged (callback : handler) (w : world) : world :=
  if ethereum w then Provider.on "accountsChanged" callback w else w.

Definition onChainChanged (callback : handler) (w : world) : world :=
  if ethereum w then Provider.on "chainChanged" callback w else w.

(** [removeAllListeners()] *)
Definition removeAllListeners (w : world) : world :=
  if ethereum w then
    Provider.removeAllListeners "chainChanged"
      (Provider.removeAllListeners "accountsChanged" w)
  else w.

(** [isValidAddress(address)] *)
Definition isValidAddress (address : string) : bool :=
  Units.isAddress address.

(** [async verifyNetwork()] *)
Definition verifyNetwork : M bool :=
  try_catch
    (let* chainId := ethereum_request "eth_chainId" [] in
     ret (Val.is_string SHARDEUM_CHAIN_ID chainId))
    (fun _ => ret false).

(** The body that every RPC method of the class repeats: one [fetch]
    with method POST and the JSON envelope, [response.json()],
    [return data.result], and a [catch] that logs and rethrows.  The
    oracle's answer to the POST is the parsed [data]. *)
Definition post (envelope : value) : M value :=
  try_catch
    (let* data := await (Http "POST" rpcUrl envelope) in
     prop "result" data)
    (fun error => (* console.error(...) *) throw error).

Definition envelope (method : string) (params : option (list value)) : value :=
  VObj ([("method", VStr method)]
          ++ match params with
             | Some ps => [("params", VArr ps)]
             | None => []
             end
          ++ [("id", num 1); ("jsonrpc", VStr "2.0")]).

Definition getChainId : M value :=
  post (envelope "eth_chainId" None).

Definition getGasPrice : M value :=
  post (envelope "eth_gasPrice" None).

Definition getShardeumBalance (address : value) : M value :=
  post (envelope "eth_getBalance" (Some [address; VStr "latest"])).

Definition getTransactionCount (address : value) : M value :=
  post (envelope "eth_getTransactionCount" (Some [address; VStr "latest"])).

Definition estimateGas (transactionObject : value) : M value :=
  post (envelope "eth_estimateGas" (Some [transactionObject; VStr "latest"])).

Definition getTransactionReceipt (txHash : value) : M value :=
  post (envelope "eth_getTransactionReceipt" (Some [txHash])).

Definition getTransactionByHash (txHash : value) : M value :=
  post (envelope "eth_getTransactionByHash" (Some [txHash])).

Definition getBlockNumber : M value :=
  post (envelope "eth_blockNumber" None).

Definition getNetworkAccount : M value :=
  post (envelope "shardeum_getNetworkAccount" (Some [])).

Definition getNodeList (page limit : value) : M value :=
  post (envelope "shardeum_getNodeList"
          (Some [VObj [("page", page); ("limit", limit)]])).

(** [if (!this.provider && window.ethereum) this.provider = new ethers.BrowserProvider(window.ethereum)] *)
Definition init_provider : M unit :=
  fun w =>
    if negb (api_provider w) && ethereum w
    then (Ret tt, with_api_provider true w)
    else (Ret tt, w).

(** [if (!this.signer && this.provider) this.signer = await this.provider.getSigner()] *)
Definition init_signer : M unit :=
  fun w =>
    if negb (api_signer w) && api_provider w then
      match await GetSigner w with
      | (Ret _, w') => (Ret tt, with_api_signer true w')
      | (Throw e, w') => (Throw e, w')
      end
    else (Ret tt, w).

Definition not_connected : js_error :=
  Error "Wallet not connected. Please connect your wallet first.".

Definition wrong_network : js_error :=
  Error "Please switch to Shardeum Testnet before sending transactions".

(** [async sendTransaction(to, amount, gasLimit = null)].  [gasLimit] is
    a whole number when given. *)
Definition sendTransaction (to amount : string) (gasLimit : option Z) : M value :=
  try_catch
    (let* _ := init_provider in
     let* _ := init_signer in
     fun w =>
       if negb (api_signer w) then (Throw not_connected, w)
       else
         (let* isCorrectNetwork := verifyNetwork in
          if negb isCorrectNetwork then throw wrong_network
          else
            let* fromAddress := await SignerGetAddress in
            match Units.toBaseUnits amount with
            | None => throw (Error "invalid FixedNumber string value")
            | Some value =>
                let* gasPrice := getGasPrice in
                let transactionObject :=
                  VObj [ ("from", fromAddress);
                         ("to", VStr to);
                         ("value", VStr ("0x" +:+ JS.hex_string value));
                         ("gasPrice", gasPrice) ] in
                let* finalGasLimit :=
                  match gasLimit with
                  | None | Some 0 => estimateGas transactionObject
                  | Some g => ret (VStr ("0x" +:+ JS.hex_string g))
                  end in
                let* txResponse :=
                  await (SignerSendTransaction
                           (VObj [ ("to", VStr to);
                                   ("value", VBigInt value);
                                   ("gasPrice", gasPrice);
                                   ("gasLimit", finalGasLimit) ])) in
                prop "hash" txResponse
            end) w)
    (fun error => (* console.error(...) *) throw error).

(** [async sendTip(toAddress, amount)] *)
Definition sendTip (toAddress amount : string) : M value :=
  sendTransaction toAddress amount None.

(** [formatSHM(weiAmount)] and [parseSHM(shmAmount)] *)
Definition formatSHM (weiAmount : Z) : string :=
  Units.fromBaseUnits weiAmount.

Definition parseSHM (shmAmount : string) : option Z :=
  Units.toBaseUnits shmAmount.

(** [accounts.length > 0] on what a provider answers, a list or a
    primitive; [None] is the TypeError on [undefined]. *)
Definition not_empty (accounts : value) : option bool :=
  match accounts with
  | VUndefined | VNull => None
  | VArr l => Some (negb (Digits.is_nil l))
  | VStr s => Some (negb (String.eqb s ""))
  | _ => Some false
  end.

(** [async isWalletConnected()] *)
Definition isWalletConnected : M bool :=
  try_catch
    (fun w =>
       if negb (ethereum w) then (Ret false, w)
       else
         (let* accounts := ethereum_request "eth_accounts" [] in
          match not_empty accounts with
          | Some b => ret b
          | None =>
              throw (TypeError "Cannot read properties of undefined (reading 'length')")
          end) w)
    (fun _ => ret false).

(** [async getCurrentAddress()] *)
Definition getCurrentAddress : M value :=
  fun w =>
    if negb (api_signer w) then (Throw (Error "Wallet not connected"), w)
    else await SignerGetAddress w.

(** [formatAddress(address)] *)
Definition formatAddress (address : string) : string :=
  if String.eqb address "" then ""
  else
    let cs := list_ascii_of_string address in
    string_of_list_ascii
      (JS.slice_to 6 cs ++ list_ascii_of_string "..." ++ JS.slice_last 4 cs).

End ShardeumAPI.

(* ====================================================================== *)
(** * [Web3Service] (the web3.js implementation of the service)            *)
(* ====================================================================== *)

Module Web3Service.

Definition SHARDEUM_CHAIN_ID : string := "0x1f93".
Definition SHARDEUM_RPC : string := "https://api-testnet.shardeum.org".

Definition chain_params : value :=
  VObj [ ("chainId", VStr SHARDEUM_CHAIN_ID);
         ("chainName", VStr "Shardeum Testnet");
         ("nativeCurrency",
           VObj [ ("name", VStr "Shardeum"); ("symbol", VStr "SHM");
                  ("decimals", VNum (JS.of_Z 18)) ]);
         ("rpcUrls", VArr [VStr SHARDEUM_RPC]);
         ("blockExplorerUrls", VArr [VStr "https://explorer-testnet.shardeum.org"]);
         ("iconUrls", VArr [VStr "https://shardeum.org/favicon.ico"]) ].

Definition switch_call : call :=
  EthRequest "wallet_switchEthereumChain"
    [VObj [("chainId", VStr SHARDEUM_CHAIN_ID)]].

Definition add_call : call :=
  EthRequest "wallet_addEthereumChain" [chain_params].

(** [async switchToShardeum()] *)
Definition switchToShardeum : M unit :=
  fun w =>
    if negb (ethereum w) then (Throw (Error "MetaMask is not installed"), w)
    else
      try_catch
        (let* _ := await switch_call in ret tt)
        (fun switchError =>
           if bool_decide (err_code switchError = Some 4902) then
             try_catch
               (let* _ := await add_call in ret tt)
               (fun addError =>
                  throw (Error ("Failed to add Shardeum network: "
                                  +:+ err_message addError)))
           else
             throw (Error ("Failed to switch to Shardeum network: "
                             +:+ err_message switchError)))
        w.

(** [async verifyNetwork()] *)
Definition verifyNetwork : M bool :=
  try_catch
    (let* chainId := ethereum_request "eth_chainId" [] in
     ret (Val.is_string SHARDEUM_CHAIN_ID chainId))
    (fun _ => ret false).

Definition not_initialized : js_error := Error "Web3 not initialized".

Definition wrong_network : js_error :=
  Error "Please switch to Shardeum Testnet before sending tips".

(** [async getBalance(address)] *)
Definition getBalance (address : value) : M string :=
  fun w =>
    if negb (web3 w) then (Throw not_initialized, w)
    else
      try_catch
        (let* balanceWei := await_bigint (Web3GetBalance address) in
         ret (Units.fromBaseUnits balanceWei))
        (fun error =>
           throw (Error ("Failed to get balance: " +:+ err_message error)))
        w.

(** [/^\d*\.?\d+$/.test(amount)] *)
Definition amount_pattern (amount : string) : bool :=
  let '(ip, r1) := Digits.span Digits.is_digit (list_ascii_of_string amount) in
  match r1 with
  | [] => negb (Digits.is_nil ip)
  | "."%char :: r =>
      let '(fp, r2) := Digits.span Digits.is_digit r in
      negb (Digits.is_nil fp) && Digits.is_nil r2
  | _ => false
  end.

(** [accounts.length === 0] and [accounts[0]] on the answer to
    [eth_accounts]. *)
Definition first_account (accounts : value) : M value :=
  match accounts with
  | VUndefined | VNull =>
      throw (TypeError "Cannot read properties of undefined (reading 'length')")
  | VArr [] => throw (Error "No connected accounts")
  | VArr (a :: _) => ret a
  | VStr s =>
      match s with
      | EmptyString => throw (Error "No connected accounts")
      | String c _ => ret (VStr (String c EmptyString))
      end
  | _ => ret VUndefined
  end.

(** [async sendTip(toAddress, amount)] *)
Definition sendTip (toAddress amount : string) : M value :=
  fun w =>
    if negb (web3 w) || negb (ethereum w) then (Throw not_initialized, w)
    else
      (let* isCorrectNetwork := verifyNetwork in
       if negb isCorrectNetwork then throw wrong_network
       else
         try_catch
           (let* accounts := ethereum_request "eth_accounts" [] in
            let* fromAddress := first_account accounts in
            let numAmount := JS.parseFloat amount in
            if negb (amount_pattern amount) then throw (Error "Invalid tip amount")
            else
              match Units.toBaseUnits amount with
              | None => throw (Error "invalid number value")
              | Some wei =>
                  let amountWei := JS.decimal_string wei in
                  let backToEther := Units.fromBaseUnits wei in
                  if JS.neqb (JS.parseFloat backToEther) numAmount
                  then throw (Error "Amount conversion error. Please try again.")
                  else
                    let* balance := getBalance fromAddress in
                    if JS.ltb (JS.parseFloat balance) numAmount
                    then throw (Error ("Insufficient balance. You have " +:+ balance
                                         +:+ " SHM but trying to send " +:+ amount
                                         +:+ " SHM"))
                    else
                      let* gasEstimate :=
                        await_bigint
                          (Web3EstimateGas
                             (VObj [ ("from", fromAddress);
                                     ("to", VStr toAddress);
                                     ("value", VStr amountWei) ])) in
                      let* gasPrice := await_bigint Web3GetGasPrice in
                      let transactionParams :=
                        VObj [ ("from", fromAddress);
                               ("to", VStr toAddress);
                               ("value", VStr amountWei);
                               ("gas", VStr ("0x" +:+ JS.hex_string gasEstimate));
                               ("gasPrice", VStr ("0x" +:+ JS.hex_string gasPrice)) ] in
                      ethereum_request "eth_sendTransaction" [transactionParams]
              end)
           (fun error =>
              throw (Error ("Failed to send tip: " +:+ err_message error))))
        w.

(** [async getNetworkInfo()] *)
Definition getNetworkInfo : M value :=
  fun w =>
    if negb (web3 w) then (Throw not_initialized, w)
    else
      try_catch
        (let* chainId := await_bigint Web3GetChainId in
         let* blockNumber := await_bigint Web3GetBlockNumber in
         let* gasPrice := await_bigint Web3GetGasPrice in
         ret (VObj [ ("chainId", VStr ("0x" +:+ JS.hex_string chainId));
                     ("blockNumber", VNum (JS.of_Z blockNumber));
                     ("gasPrice", VNum (JS.of_Z gasPrice)) ]))
        (fun error =>
           throw (Error ("Failed to get network info: " +:+ err_message error)))
        w.

Definition onAccountsChanged (callback : handler) (w : world) : world :=
  if ethereum w then Provider.on "accountsChanged" callback w else w.

Definition onChainChanged (callback : handler) (w : world) : world :=
  if ethereum w then Provider.on "chainChanged" callback w else w.

Definition removeAllListeners (w : world) : world :=
  if ethereum w then
    Provider.removeAllListeners "chainChanged"
      (Provider.removeAllListeners "accountsChanged" w)
  else w.

(** [isValidAddress(address)] *)
Definition isValidAddress (address : string) (w : world) : bool :=
  if negb (web3 w) then false else Units.isAddress address.

(** [isMetaMaskInstalled()] *)
Definition isMetaMaskInstalled (w : world) : bool := ethereum w.

(** [accounts.length === 0] and [accounts[0]] on the answer to
    [eth_requestAccounts], a list or a primitive. *)
Definition requested_account (accounts : value) : M value :=
  match accounts with
  | VUndefined | VNull =>
      throw (TypeError "Cannot read properties of undefined (reading 'length')")
  | VArr [] => throw (Error "No accounts found")
  | VArr (a :: _) => ret a
  | VStr s =>
      match s with
      | EmptyString => throw (Error "No accounts found")
      | String c _ => ret (VStr (String c EmptyString))
      end
  | _ => ret VUndefined
  end.

(** [async connectWallet()] *)
Definition connectWallet : M value :=
  fun w =>
    if negb (isMetaMaskInstalled w) then (Throw (Error "MetaMask is not installed"), w)
    else
      try_catch
        (let* accounts := ethereum_request "eth_requestAccounts" [] in
         let* address := requested_account accounts in
         let* chainId := ethereum_request "eth_chainId" [] in
         let* balance := getBalance address in
         ret (VObj [ ("isConnected", VBool true);
                     ("address", address);
                     ("balance", VStr balance);
                     ("chainId", chainId) ]))
        (fun error =>
           throw (Error ("Failed to connect wallet: " +:+ err_message error)))
        w.

(** [formatAddress(address)] *)
Definition formatAddress (address : string) : string :=
  if String.eqb address "" then ""
  else
    let cs := list_ascii_of_string address in
    string_of_list_ascii
      (JS.slice_to 6 cs ++ list_ascii_of_string "..." ++ JS.slice_last 4 cs).

End Web3Service.

(* ====================================================================== *)
(** * [ApiService] and the tip dialog                                      *)
(* ====================================================================== *)

Module ApiService.

Definition API_BASE_URL : string := "http://localhost:5000/api".

Definition statusText (status : Z) : string :=
  if status =? 400 then "Bad Request"
  else if status =? 404 then "Not Found"
  else if status =? 500 then "Internal Server Error"
  else "".

Definition tips_url : string := API_BASE_URL +:+ "/tips".

(** [async recordTip(tipData)]: [api.post('/tips', tipData)] through the
    response interceptor.  The oracle decides whether the request
    reaches the server; when it does, the server's handler answers. *)
Definition recordTip (tipData : value) : M value :=
  fun w =>
    match await (Http "POST" tips_url tipData) w with
    | (Throw _, w1) =>
        (Throw (Error "Network Error: Unable to connect to server"), w1)
    | (Ret _, w1) =>
        let '((status, data), w2) := Server.post_tips tipData w1 in
        if (200 <=? status) && (status <? 300) then (Ret data, w2)
        else
          let message :=
            if Val.truthy (Val.field "error" data)
            then Val.ToString (Val.field "error" data)
            else statusText status in
          (Throw (Error ("API Error: " +:+ message)), w2)
    end.

Definition creators_url : string := API_BASE_URL +:+ "/creators".

(** The response interceptor, on what the server answered: a status
    outside 2xx becomes an error that carries the [error] property of the
    answer, or the status text when there is none. *)
Definition intercept (answer : Server.http_response) : outcome value :=
  let '(status, data) := answer in
  if (200 <=? status) && (status <? 300) then Ret data
  else
    let message :=
      if Val.truthy (Val.field "error" data)
      then Val.ToString (Val.field "error" data)
      else statusText status in
    Throw (Error ("API Error: " +:+ message)).

(** [async createCreator(creator)]: [api.post('/creators', creator)]
    with the three fields of the form. *)
Definition createCreator (name address description : string) : M value :=
  fun w =>
    let creator := VObj [ ("name", VStr name);
                          ("address", VStr address);
                          ("description", VStr description) ] in
    match await (Http "POST" creators_url creator) w with
    | (Throw _, w1) =>
        (Throw (Error "Network Error: Unable to connect to server"), w1)
    | (Ret _, w1) =>
        let '(answer, w2) := Server.post_creators creator w1 in
        (intercept answer, w2)
    end.

(** [async getCreators()]: [api.get('/creators')] *)
Definition getCreators : M value :=
  fun w =>
    match await (Http "GET" creators_url VUndefined) w with
    | (Throw _, w1) =>
        (Throw (Error "Network Error: Unable to connect to server"), w1)
    | (Ret _, w1) => (intercept (Server.get_creators w1), w1)
    end.

End ApiService.

Module TipModal.

(** [WalletState] of [types.ts]; [null] is [None]. *)
Record wallet_state : Type := WalletState {
  isConnected : bool;
  address : option string;
  balance : string;
  chainId : option string
}.

(** The React state of the dialog, and whether [onTipSent] was called. *)
Record ui_state : Type := Ui {
  error : option string;
  txHash : option value;
  isLoading : bool;
  tipSent : bool
}.

(** [validateForm()]: the error it sets, [None] when it returns [true]. *)
Definition validateForm (amount : string) (walletState : wallet_state)
    (creator : Store.creator) : option string :=
  if negb (Val.truthy (VStr amount))
     || JS.leb (JS.parseFloat amount) (JS.of_Z 0)
  then Some "Please enter a valid amount"
  else if JS.gtb (JS.parseFloat amount) (JS.parseFloat (balance walletState))
  then Some "Insufficient balance"
  else if negb (ShardeumAPI.isValidAddress (Store.address creator))
  then Some "Invalid creator address"
  else None.

Definition tipData (amount : string) (walletState : wallet_state)
    (creator : Store.creator) (txHash : value) : value :=
  VObj [ ("fromAddress",
           match address walletState with Some a => VStr a | None => VNull end);
         ("toAddress", VStr (Store.address creator));
         ("amount", VStr amount);
         ("txHash", txHash);
         ("creatorId", VStr (Store.id creator)) ].

(** [async handleSendTip()] *)
Definition handleSendTip (amount : string) (walletState : wallet_state)
    (creator : Store.creator) (ui : ui_state) (w : world) : ui_state * world :=
  match validateForm amount walletState creator with
  | Some e => (Ui (Some e) (txHash ui) (isLoading ui) (tipSent ui), w)
  | None =>
      match ShardeumAPI.sendTip (Store.address creator) amount w with
      | (Throw err, w1) =>
          (Ui (Some (err_message err)) (txHash ui) false (tipSent ui), w1)
      | (Ret hash, w1) =>
          match ApiService.recordTip
                  (tipData amount walletState creator hash) w1 with
          | (Throw err, w2) =>
              (Ui (Some (err_message err)) (Some hash) false (tipSent ui), w2)
          | (Ret _, w2) =>
              (Ui None (Some hash) false true, w2)
          end
      end
  end.

End TipModal.

Module TransactionHistory.

Inductive transaction_type : Type := sent | received.

(** [getTransactionType(tx)]:
    [tx.fromAddress.toLowerCase() === walletState.address?.toLowerCase()] *)
Definition getTransactionType (tx : Store.tip)
    (walletState : TipModal.wallet_state) : transaction_type :=
  match TipModal.address walletState with
  | Some a =>
      if String.eqb (JS.toLowerCase (Store.fromAddress tx)) (JS.toLowerCase a)
      then sent else received
  | None => received
  end.

End TransactionHistory.

Module NetworkStatus.

Definition EXPECTED_CHAIN_ID : string := "0x1f93".
Definition EXPECTED_NETWORK : string := "Shardeum Testnet".

(** The [networkInfo] state of the component. *)
Record network_info : Type := NetworkInfo {
  chainId : value;
  isCorrect : bool;
  networkName : string
}.

(** [useState] starts it with [chainId: null]. *)
Definition initial : network_info := NetworkInfo VNull false "Unknown".

(** The chain of [if]s that names the network. *)
Definition network_name (chainId : value) : string :=
  if Val.is_string "0x1" chainId then "Ethereum Mainnet"
  else if Val.is_string "0x5" chainId then "Goerli Testnet"
  else if Val.is_string "0x89" chainId then "Polygon Mainnet"
  else if Val.is_string EXPECTED_CHAIN_ID chainId then EXPECTED_NETWORK
  else "Unknown (" +:+ Val.ToString chainId +:+ ")".

(** [checkNetwork()]: the state it leaves.  A failed request is logged and
    leaves the state as it was. *)
Definition checkNetwork (networkInfo : network_info) : M network_info :=
  try_catch
    (fun w =>
       if ethereum w then
         (let* chainId := await (EthRequest "eth_chainId" []) in
          ret (NetworkInfo chainId (Val.is_string EXPECTED_CHAIN_ID chainId)
                 (network_name chainId))) w
       else (Ret networkInfo, w))
    (fun _ => ret networkInfo).

End NetworkStatus.

Module WalletConnect.

(** [setupEventListeners()]: the two callbacks the component registers
    when it mounts. *)
Definition setupEventListeners (onAccounts onChain : handler) (w : world) : world :=
  ShardeumAPI.onChainChanged onChain (ShardeumAPI.onAccountsChanged onAccounts w).

(** The cleanup of the effect, run when the component unmounts. *)
Definition cleanup (w : world) : world := ShardeumAPI.removeAllListeners w.

End WalletConnect.

(** Classification of the calls of a trace. *)
Definition is_submission (c : call) : bool :=
  match c with
  | SignerSendTransaction _ => true
  | EthRequest method _ => String.eqb method "eth_sendTransaction"
  | _ => false
  end.

Definition is_gas_estimation (c : call) : bool :=
  match c with
  | Web3EstimateGas _ | Web3GetGasPrice => true
  | Http _ _ envelope =>
      Val.is_string "eth_gasPrice" (Val.field "method" envelope)
      || Val.is_string "eth_estimateGas" (Val.field "method" envelope)
  | _ => false
  end.

Definition is_add_chain (c : call) : bool :=
  match c with
  | EthRequest method _ => String.eqb method "wallet_addEthereumChain"
  | _ => false
  end.

Definition is_switch_chain (c : call) : bool :=
  match c with
  | EthRequest method _ => String.eqb method "wallet_switchEthereumChain"
  | _ => false
  end.

Definition count (p : call -> bool) (l : list call) : nat :=
  length (List.filter p l).

(** [window.ethereum.request({ method: 'eth_chainId' })] *)
Definition chain_id_call : call := EthRequest "eth_chainId" [].

(** The calls a send makes before it estimates gas: at most the request
    for a signer and the request for the chain id. *)
Definition before_estimation (cs : list call) : Prop :=
  cs = [] \/ cs = [GetSigner] \/ cs = [chain_id_call]
  \/ cs = [GetSigner; chain_id_call].

(** A computation of the client: it may call out, but it leaves the
    oracle and the state of the server alone. *)
Definition client {A} (m : M A) : Prop :=
  forall w, oracle (snd (m w)) = oracle w /\ store (snd (m w)) = store w.

(** The chain RPC calls of the repository: the ten methods of
    [ShardeumAPI] that post to the RPC endpoint, and the helper of the
    server. *)
Inductive rpc : Type :=
| GetChainId
| GetGasPrice
| GetShardeumBalance (address : value)
| GetTransactionCount (address : value)
| EstimateGas (transactionObject : value)
| GetTransactionReceipt (txHash : value)
| GetTransactionByHash (txHash : value)
| GetBlockNumber
| GetNetworkAccount
| GetNodeList (page limit : value)
| ServerRPC (method : string) (params : list value).

Definition rpc_run (c : rpc) : M value :=
  match c with
  | GetChainId => ShardeumAPI.getChainId
  | GetGasPrice => ShardeumAPI.getGasPrice
  | GetShardeumBalance a => ShardeumAPI.getShardeumBalance a
  | GetTransactionCount a => ShardeumAPI.getTransactionCount a
  | EstimateGas tx => ShardeumAPI.estimateGas tx
  | GetTransactionReceipt h => ShardeumAPI.getTransactionReceipt h
  | GetTransactionByHash h => ShardeumAPI.getTransactionByHash h
  | GetBlockNumber => ShardeumAPI.getBlockNumber
  | GetNetworkAccount => ShardeumAPI.getNetworkAccount
  | GetNodeList page limit => ShardeumAPI.getNodeList page limit
  | ServerRPC method params => Server.shardeumRPC method params
  end.

(** The JSON-RPC method each of them names. *)
Definition rpc_method (c : rpc) : string :=
  match c with
  | GetChainId => "eth_chainId"
  | GetGasPrice => "eth_gasPrice"
  | GetShardeumBalance _ => "eth_getBalance"
  | GetTransactionCount _ => "eth_getTransactionCount"
  | EstimateGas _ => "eth_estimateGas"
  | GetTransactionReceipt _ => "eth_getTransactionReceipt"
  | GetTransactionByHash _ => "eth_getTransactionByHash"
  | GetBlockNumber => "eth_blockNumber"
  | GetNetworkAccount => "shardeum_getNetworkAccount"
  | GetNodeList _ _ => "shardeum_getNodeList"
  | ServerRPC method _ => method
  end.

(** Whether the source writes a [params] property in the envelope. *)
Definition rpc_sends_params (c : rpc) : bool :=
  match c with
  | GetChainId | GetGasPrice | GetBlockNumber => false
  | _ => true
  end.

(** The address and the envelope each of them posts. *)
Definition rpc_request (c : rpc) : string * value :=
  match c with
  | GetChainId => (ShardeumAPI.rpcUrl, ShardeumAPI.envelope "eth_chainId" None)
  | GetGasPrice => (ShardeumAPI.rpcUrl, ShardeumAPI.envelope "eth_gasPrice" None)
  | GetShardeumBalance a =>
      (ShardeumAPI.rpcUrl,
       ShardeumAPI.envelope "eth_getBalance" (Some [a; VStr "latest"]))
  | GetTransactionCount a =>
      (ShardeumAPI.rpcUrl,
       ShardeumAPI.envelope "eth_getTransactionCount" (Some [a; VStr "latest"]))
  | EstimateGas tx =>
      (ShardeumAPI.rpcUrl,
       ShardeumAPI.envelope "eth_estimateGas" (Some [tx; VStr "latest"]))
  | GetTransactionReceipt h =>
      (ShardeumAPI.rpcUrl,
       ShardeumAPI.envelope "eth_getTransactionReceipt" (Some [h]))
  | GetTransactionByHash h =>
      (ShardeumAPI.rpcUrl,
       ShardeumAPI.envelope "eth_getTransactionByHash" (Some [h]))
  | GetBlockNumber => (ShardeumAPI.rpcUrl, ShardeumAPI.envelope "eth_blockNumber" None)
  | GetNetworkAccount =>
      (ShardeumAPI.rpcUrl,
       ShardeumAPI.envelope "shardeum_getNetworkAccount" (Some []))
  | GetNodeList page limit =>
      (ShardeumAPI.rpcUrl,
       ShardeumAPI.envelope "shardeum_getNodeList"
         (Some [VObj [("page", page); ("limit", limit)]]))
  | ServerRPC method params =>
      (Server.SHARDEUM_RPC,
       VObj [ ("jsonrpc", VStr "2.0"); ("method", VStr method);
              ("params", VArr params); ("id", Server.num 1) ])
  end.

(** The POST that [shardeumRPC(method, params)] makes. *)
Definition server_call (method : string) (params : list value) : call :=
  Http "POST" Server.SHARDEUM_RPC
    (VObj [ ("jsonrpc", VStr "2.0"); ("method", VStr method);
            ("params", VArr params); ("id", Server.num 1) ]).

(** A JSON-RPC answer that carries [result]. *)
Definition rpc_success (result : value) : response :=
  Resolve (VObj [ ("jsonrpc", VStr "2.0"); ("id", VNum (JS.of_Z 1));
                  ("result", result) ]).

(** [eth_estimateGas] posted to the chain endpoint. *)
Definition is_estimate_gas (c : call) : bool :=
  match c with
  | Http _ _ envelope => Val.is_string "eth_estimateGas" (Val.field "method" envelope)
  | _ => false
  end.

(** [provider.getSigner()] *)
Definition is_signer_request (c : call) : bool :=
  match c with
  | GetSigner => true
  | _ => false
  end.

(** [web3.eth.getBalance(address)] *)
Definition is_balance_request (c : call) : bool :=
  match c with
  | Web3GetBalance _ => true
  | _ => false
  end.

(** A POST of a tip to the server. *)
Definition is_tip_record (c : call) : bool :=
  match c with
  | Http verb url _ => String.eqb verb "POST" && String.eqb url ApiService.tips_url
  | _ => false
  end.

(** The three checks [sendTip] of [Web3Service] makes on the amount
    alone: the pattern, the conversion to base units, and the conversion
    back. *)
Definition amount_passes (amount : string) (wei : Z) : Prop :=
  Web3Service.amount_pattern amount = true
  /\ Units.toBaseUnits amount = Some wei
  /\ JS.neqb (JS.parseFloat (Units.fromBaseUnits wei)) (JS.parseFloat amount) = false.

(** A run of [m] from [w] appends [cs] to the trace, and [P] holds of the
    outcome and of [cs]. *)
Definition run_shape {A} (m : M A) (w : world)
    (P : outcome A -> list call -> Prop) : Prop :=
  exists cs, trace (snd (m w)) = trace w ++ cs /\ P (fst (m w)) cs.

(** A computation that makes at most [n] calls of the kind [q]. *)
Definition at_most (n : nat) (q : call -> bool) {A} (m : M A) : Prop :=
  forall w, run_shape m w (fun _ cs => (count q cs <= n)%nat).

(** The same, for the runs that start in a world of [C], which the
    computation does not leave. *)
Definition guarded (C : world -> Prop) (n : nat) (q : call -> bool) {A}
    (m : M A) : Prop :=
  forall w, C w ->
    C (snd (m w)) /\ run_shape m w (fun _ cs => (count q cs <= n)%nat).

(** [this.signer] of [ShardeumAPI] is set. *)
Definition has_signer (w : world) : Prop := api_signer w = true.

(** The routes of the server that ask the chain. *)
Inductive chain_route : Type :=
| NetworkRoute
| BalanceRoute (address : string)
| NonceRoute (address : string)
| TransactionRoute (hash : string).

Definition chain_route_run (r : chain_route) : M Server.http_response :=
  match r with
  | NetworkRoute => Server.get_network
  | BalanceRoute address => Server.get_balance address
  | NonceRoute address => Server.get_nonce address
  | TransactionRoute hash => Server.get_transaction hash
  end.

(** The RPC calls each of them makes when none fails, in order. *)
Definition chain_route_calls (r : chain_route) : list call :=
  match r with
  | NetworkRoute =>
      [ server_call "eth_chainId" []; server_call "eth_blockNumber" [];
        server_call "eth_gasPrice" [] ]
  | BalanceRoute address =>
      [ server_call "eth_getBalance" [VStr address; VStr "latest"] ]
  | NonceRoute address =>
      [ server_call "eth_getTransactionCount" [VStr address; VStr "latest"] ]
  | TransactionRoute hash =>
      [ server_call "eth_getTransactionByHash" [VStr hash];
        server_call "eth_getTransactionReceipt" [VStr hash] ]
  end.

(** The message of its 500 answer. *)
Definition chain_route_failure (r : chain_route) : string :=
  match r with
  | NetworkRoute => "Failed to fetch network info"
  | BalanceRoute _ => "Failed to fetch balance"
  | NonceRoute _ => "Failed to fetch nonce"
  | TransactionRoute _ => "Failed to fetch transaction"
  end.

(** An answer of the chain endpoint on which [shardeumRPC] throws: the
    request is rejected, or [response.data] is [undefined] or [null] and
    reading its [result] is a TypeError. *)
Definition rpc_throws (answer : response) : bool :=
  match answer with
  | Reject _ => true
  | Resolve data =>
      match Val.get "result" data with
      | Some _ => false
      | None => true
      end
  end.

(** The calls of [todo] made one after the other from the history [h],
    up to and with the first on which [shardeumRPC] throws, and whether
    there is one. *)
Fixpoint calls_until_failure (o : list call -> call -> response)
    (h todo : list call) : list call * bool :=
  match todo with
  | [] => ([], false)
  | c :: rest =>
      if rpc_throws (o h c) then ([c], true)
      else
        let '(cs, thrown) := calls_until_failure o (h ++ [c]) rest in
        (c :: cs, thrown)
  end.

(* ====================================================================== *)
(** * Concrete worlds                                                      *)
(* ====================================================================== *)

Module Scenario.

Definition bob_address : string := "0x26d6a3805cbae5d5a510443a15129bec456cacff".
Definition alice_address : string := "0xAAAAAAAAAAAAAAAAAAAAAAAAAAAAAAAAAAAAAAAA".

Definition bob : Store.creator :=
  Store.Creator "2" (VStr "Bob Developer") bob_address
    (VStr "Full-stack developer building on Shardeum")
    "https://api.dicebear.com/7.x/avataaars/svg?seed=Bob"
    "0" (JS.of_Z 0).

Definition rpc_error : response :=
  Resolve (VObj [ ("jsonrpc", VStr "2.0"); ("id", VNum (JS.of_Z 1));
                  ("error", VObj [ ("code", VNum (JS.of_Z (-32601)));
                                   ("message", VStr "Method not found") ]) ]).

(** A wallet on the chain [chain], a chain endpoint that answers, and a
    provider that signs and broadcasts everything. *)
Definition cooperative (chain : string) (h : list call) (c : call) : response :=
  match c with
  | EthRequest method _ =>
      if String.eqb method "eth_chainId" then Resolve (VStr chain)
      else if String.eqb method "eth_accounts" then Resolve (VArr [VStr alice_address])
      else if String.eqb method "eth_sendTransaction" then Resolve (VStr "0xabc123")
      else Resolve VNull
  | GetSigner => Resolve (VObj [])
  | SignerGetAddress => Resolve (VStr alice_address)
  | SignerSendTransaction _ => Resolve (VObj [("hash", VStr "0xabc123")])
  | Web3GetBalance _ => Resolve (VBigInt 50000000000000000)
  | Web3EstimateGas _ => Resolve (VBigInt 21000)
  | Web3GetGasPrice => Resolve (VBigInt 1000000000)
  | Web3GetChainId => Resolve (VBigInt 8083)
  | Web3GetBlockNumber => Resolve (VBigInt 9007199254740993)
  | Http _ _ (VObj (("method", VStr m) :: _)) =>
      if String.eqb m "eth_gasPrice" then rpc_success (VStr "0x3b9aca00")
      else if String.eqb m "eth_estimateGas" then rpc_success (VStr "0x5208")
      else rpc_error
  | Http _ _ (VObj (("jsonrpc", _) :: ("method", VStr m) :: _)) =>
      if String.eqb m "eth_chainId" then rpc_success (VStr chain)
      else if String.eqb m "eth_blockNumber" then rpc_success (VStr "0x20000000000001")
      else if String.eqb m "eth_gasPrice" then rpc_success (VStr "0x3b9aca00")
      else if String.eqb m "eth_getBalance" then rpc_success (VStr "0x20000000000001")
      else rpc_error
  | Http _ _ _ => Resolve VNull
  end.

(** A provider that does not know the chain: the switch is rejected
    with [code]. *)
Definition unknown_chain (code : Z) (h : list call) (c : call) : response :=
  match c with
  | EthRequest method _ =>
      if String.eqb method "wallet_switchEthereumChain"
      then Reject (JsError (Some code) "Unrecognized chain ID")
      else Resolve VNull
  | _ => Resolve VNull
  end.

Definition start (answers : list call -> call -> response) : world :=
  World true answers [] ∅ false false true Store.initial
        1700000000000 "2023-11-14T22:13:20.000Z".

(** The same page without a wallet extension. *)
Definition no_wallet : world :=
  World false (cooperative "0x1f93") [] ∅ false false false Store.initial
        1700000000000 "2023-11-14T22:13:20.000Z".

Definition on_shardeum : world := start (cooperative "0x1f93").
Definition on_mainnet : world := start (cooperative "0x1").

Definition session (balance : string) : TipModal.wallet_state :=
  TipModal.WalletState true (Some alice_address) balance (Some "0x1f93").

Definition fresh_dialog : TipModal.ui_state := TipModal.Ui None None false false.

(** A chain endpoint that answers [n] calls and then refuses the
    connection. *)
Definition goes_down_after (n : nat) (chain : string) (h : list call) (c : call)
  : response :=
  if (length h <? n)%nat then cooperative chain h c
  else Reject (Error "connect ECONNREFUSED").

(** The same wallet, which also hands out its account when asked for
    access. *)
Definition unlocked (chain : string) (h : list call) (c : call) : response :=
  match c with
  | EthRequest method _ =>
      if String.eqb method "eth_requestAccounts"
      then Resolve (VArr [VStr alice_address])
      else cooperative chain h c
  | _ => cooperative chain h c
  end.

End Scenario.

(* ====================================================================== *)
(** * Properties                                                           *)
(* ====================================================================== *)

(** ** Traces *)

Lemma calls_since_app (w w' : world) (cs : list call) :
  trace w' = trace w ++ cs -> calls_since w w' = cs.
Proof.
  intros H. unfold calls_since. rewrite H.
  generalize (trace w) as l. clear. intros l.
  induction l as [|c l IH]; simpl; auto.
Qed.

Lemma calls_since_refl (w : world) : calls_since w w = [].
Proof.
  apply calls_since_app. now rewrite app_nil_r.
Qed.

(** ** Network switch (C6) *)

Lemma switch_same :
  Web3Service.switchToShardeum = ShardeumAPI.switchToShardeum.
Proof. reflexivity. Qed.

Lemma switch_steps (w : world) (e : js_error) :
  ethereum w = true ->
  oracle w (trace w) ShardeumAPI.switch_call = Reject e ->
  ShardeumAPI.switchToShardeum w =
    if bool_decide (err_code e = Some 4902) then
      (match oracle w (trace w ++ [ShardeumAPI.switch_call]) ShardeumAPI.add_call with
       | Resolve _ => Ret tt
       | Reject addError =>
           Throw (Error ("Failed to add Shardeum network: " +:+ err_message addError))
       end,
       with_trace (trace w ++ [ShardeumAPI.switch_call; ShardeumAPI.add_call]) w)
    else
      (Throw (Error ("Failed to switch to Shardeum network: " +:+ err_message e)),
       with_trace (trace w ++ [ShardeumAPI.switch_call]) w).
Proof.
  intros Heth Hsw. unfold ShardeumAPI.switchToShardeum.
  rewrite Heth. cbn [negb]. unfold try_catch at 1. unfold bind at 1.
  unfold await at 1. rewrite Hsw.
  destruct (bool_decide (err_code e = Some 4902)); [|reflexivity].
  unfold try_catch, bind, await, ret, throw. cbn [oracle with_trace trace].
  rewrite <- app_assoc. cbn [app].
  destruct (oracle w (trace w ++ [ShardeumAPI.switch_call]) ShardeumAPI.add_call);
    reflexivity.
Qed.

(** C6. When the provider rejects the switch request with code 4902, the
    operation issues exactly one add-chain request after the one switch
    request and does not switch again; it succeeds exactly when the
    add-chain request does.  When the switch is rejected with any other
    code, the whole operation fails and no add-chain request is made.
    Both service implementations behave so. *)
Theorem switch_unrecognized_chain_adds_once
    (w : world) (e : js_error) (r : outcome unit) (w' : world) :
  ethereum w = true ->
  oracle w (trace w) ShardeumAPI.switch_call = Reject e ->
  ShardeumAPI.switchToShardeum w = (r, w') ->
  Web3Service.switchToShardeum w = (r, w')
  /\ (err_code e = Some 4902 ->
        calls_since w w' = [ShardeumAPI.switch_call; ShardeumAPI.add_call]
        /\ count is_add_chain (calls_since w w') = 1%nat
        /\ count is_switch_chain (calls_since w w') = 1%nat
        /\ match oracle w (trace w ++ [ShardeumAPI.switch_call])
                         ShardeumAPI.add_call with
           | Resolve _ => r = Ret tt
           | Reject addError =>
               r = Throw (Error ("Failed to add Shardeum network: "
                                   +:+ err_message addError))
           end)
  /\ (err_code e <> Some 4902 ->
        r = Throw (Error ("Failed to switch to Shardeum network: "
                            +:+ err_message e))
        /\ calls_since w w' = [ShardeumAPI.switch_call]
        /\ count is_add_chain (calls_since w w') = 0%nat).
Proof.
  intros Heth Hsw Hrun. split; [now rewrite switch_same|].
  rewrite (switch_steps w e Heth Hsw) in Hrun.
  split; intros Hcode.
  - rewrite bool_decide_eq_true_2 in Hrun by exact Hcode.
    injection Hrun as Hr Hw. subst w'.
    rewrite (calls_since_app w _ [ShardeumAPI.switch_call; ShardeumAPI.add_call])
      by reflexivity.
    repeat split; try reflexivity.
    destruct (oracle w (trace w ++ [ShardeumAPI.switch_call]) ShardeumAPI.add_call);
      now subst r.
  - rewrite bool_decide_eq_false_2 in Hrun by exact Hcode.
    injection Hrun as Hr Hw. subst w' r.
    rewrite (calls_since_app w _ [ShardeumAPI.switch_call]) by reflexivity.
    repeat split; reflexivity.
Qed.

Lemma switch_unrecognized_chain_adds_once_witness :
  let w := Scenario.start (Scenario.unknown_chain 4902) in
  ShardeumAPI.switchToShardeum w
    = (Ret tt, with_trace [ShardeumAPI.switch_call; ShardeumAPI.add_call] w)
  /\ count is_add_chain
       (calls_since w (with_trace [ShardeumAPI.switch_call; ShardeumAPI.add_call] w))
     = 1%nat.
Proof.
  intros w.
  assert (Hrun : ShardeumAPI.switchToShardeum w
                 = (Ret tt, with_trace [ShardeumAPI.switch_call; ShardeumAPI.add_call] w))
    by reflexivity.
  split; [exact Hrun|].
  exact (proj1 (proj2 (proj1 (proj2
           (switch_unrecognized_chain_adds_once w
              (JsError (Some 4902) "Unrecognized chain ID") (Ret tt)
              (with_trace [ShardeumAPI.switch_call; ShardeumAPI.add_call] w)
              eq_refl eq_refl Hrun)) eq_refl))).
Defined.

(** ** Network check before a send (C2) *)

Lemma is_string_true (s : string) (v : value) :
  Val.is_string s v = true -> v = VStr s.
Proof.
  destruct v; simpl; try discriminate.
  intros H. apply String.eqb_eq in H. now subst.
Qed.

Lemma verifyNetwork_wrong (w : world) :
  (forall h, oracle w h chain_id_call <> Resolve (VStr ShardeumAPI.SHARDEUM_CHAIN_ID)) ->
  exists w',
    ShardeumAPI.verifyNetwork w = (Ret false, w')
    /\ (w' = w \/ w' = with_trace (trace w ++ [chain_id_call]) w).
Proof.
  intros Hchain. unfold ShardeumAPI.verifyNetwork, try_catch, bind, ethereum_request.
  destruct (ethereum w); [|eexists; split; [reflexivity|now left]].
  unfold await. fold chain_id_call.
  destruct (oracle w (trace w) chain_id_call) as [v|e] eqn:Ho.
  - unfold ret. destruct (Val.is_string ShardeumAPI.SHARDEUM_CHAIN_ID v) eqn:Hs.
    + apply is_string_true in Hs. subst v. now destruct (Hchain _ Ho).
    + eexists; split; [reflexivity|now right].
  - eexists; split; [reflexivity|now right].
Qed.

Lemma verifyNetwork_same :
  Web3Service.verifyNetwork = ShardeumAPI.verifyNetwork.
Proof. reflexivity. Qed.

(** The calls a send can have made when the network check stops it. *)
Lemma sendTransaction_wrong_network
    (w : world) (to amount : string) (gasLimit : option Z) :
  (forall h, oracle w h chain_id_call <> Resolve (VStr ShardeumAPI.SHARDEUM_CHAIN_ID)) ->
  exists e w' cs,
    ShardeumAPI.sendTransaction to amount gasLimit w = (Throw e, w')
    /\ trace w' = trace w ++ cs
    /\ before_estimation cs
    /\ (In chain_id_call cs -> e = ShardeumAPI.wrong_network)
    /\ (api_signer w' = true -> e = ShardeumAPI.wrong_network).
Proof.
  intros Hchain.
  unfold ShardeumAPI.sendTransaction, try_catch at 1, bind at 1.
  unfold ShardeumAPI.init_provider.
  set (w1 := if negb (api_provider w) && ethereum w then with_api_provider true w else w).
  assert (Hw1 : trace w1 = trace w /\ oracle w1 = oracle w /\ api_signer w1 = api_signer w)
    by (unfold w1; destruct (negb (api_provider w) && ethereum w); auto).
  destruct Hw1 as (Ht1 & Ho1 & Hs1).
  replace (if negb (api_provider w) && ethereum w
           then (Ret tt, with_api_provider true w) else (Ret tt, w))
    with (@Ret unit tt, w1)
    by (unfold w1; now destruct (negb (api_provider w) && ethereum w)).
  unfold bind at 1. unfold ShardeumAPI.init_signer.
  destruct (negb (api_signer w1) && api_provider w1) eqn:Hinit.
  - unfold await. rewrite Ho1, Ht1.
    destruct (oracle w (trace w) GetSigner) as [v|e].
    + cbn [api_signer with_api_signer negb].
      set (w2 := with_api_signer true (with_trace (trace w ++ [GetSigner]) w1)).
      destruct (verifyNetwork_wrong w2) as (w3 & Hv & Hw3);
        [intros h; unfold w2; cbn [oracle with_api_signer with_trace];
         rewrite Ho1; apply Hchain|].
      unfold bind at 1. rewrite Hv. cbn [negb]. unfold throw.
      destruct Hw3 as [->| ->].
      * exists ShardeumAPI.wrong_network, w2, [GetSigner].
        repeat split; unfold before_estimation; auto.
      * eexists ShardeumAPI.wrong_network, _, [GetSigner; chain_id_call].
        split; [reflexivity|].
        split; [cbn [trace with_trace w2 with_api_signer]; now rewrite <- app_assoc|].
        repeat split; unfold before_estimation; auto.
    + unfold throw. eexists e, _, [GetSigner]. split; [reflexivity|].
      split; [reflexivity|]. split; [unfold before_estimation; auto|]. split.
      * intros [Hin|[]]. discriminate Hin.
      * cbn [api_signer with_trace]. intros Hsig.
        rewrite Hsig in Hinit. discriminate.
  - destruct (api_signer w1) eqn:Hsig1; cbn [negb].
    + destruct (verifyNetwork_wrong w1) as (w3 & Hv & Hw3);
        [intros h; rewrite Ho1; apply Hchain|].
      unfold bind at 1. rewrite Hv. cbn [negb]. unfold throw.
      destruct Hw3 as [->| ->].
      * exists ShardeumAPI.wrong_network, w1, [].
        rewrite app_nil_r. repeat split; unfold before_estimation; auto.
      * eexists ShardeumAPI.wrong_network, _, [chain_id_call].
        split; [reflexivity|].
        split; [cbn [trace with_trace]; now rewrite Ht1|].
        repeat split; unfold before_estimation; auto.
    + unfold throw. exists ShardeumAPI.not_connected, w1, [].
      rewrite app_nil_r. split; [reflexivity|]. split; [exact Ht1|].
      split; [unfold before_estimation; auto|]. split.
      * intros [].
      * intros Hsig. rewrite Hsig in Hsig1. discriminate.
Qed.

Lemma sendTip_wrong_network (w : world) (to amount : string) :
  (forall h, oracle w h chain_id_call <> Resolve (VStr ShardeumAPI.SHARDEUM_CHAIN_ID)) ->
  exists e w' cs,
    Web3Service.sendTip to amount w = (Throw e, w')
    /\ trace w' = trace w ++ cs
    /\ before_estimation cs
    /\ (In chain_id_call cs -> e = Web3Service.wrong_network)
    /\ (web3 w = true -> ethereum w = true -> e = Web3Service.wrong_network).
Proof.
  intros Hchain. unfold Web3Service.sendTip.
  destruct (negb (web3 w) || negb (ethereum w)) eqn:Hinit.
  - exists Web3Service.not_initialized, w, []. rewrite app_nil_r.
    split; [reflexivity|]. split; [reflexivity|].
    split; [unfold before_estimation; auto|]. split.
    + intros [].
    + intros H1 H2. rewrite H1, H2 in Hinit. discriminate.
  - destruct (verifyNetwork_wrong w Hchain) as (w3 & Hv & Hw3).
    unfold bind at 1. rewrite verifyNetwork_same, Hv. cbn [negb]. unfold throw.
    destruct Hw3 as [->| ->].
    + exists Web3Service.wrong_network, w, []. rewrite app_nil_r.
      repeat split; unfold before_estimation; auto.
    + exists Web3Service.wrong_network, (with_trace (trace w ++ [chain_id_call]) w),
        [chain_id_call].
      repeat split; unfold before_estimation; auto.
Qed.

Lemma before_estimation_counts (cs : list call) :
  before_estimation cs ->
  count is_gas_estimation cs = 0%nat /\ count is_submission cs = 0%nat.
Proof.
  intros [->|[->|[->| ->]]]; split; reflexivity.
Qed.

(** C2. If the chain id the provider reports is not ['0x1f93'], a send
    fails without any gas-price or gas-estimate request and without any
    transaction submission, in both service implementations; and
    whenever the send got as far as asking the provider for its chain id
    (which it does as soon as the wallet is connected), the error is the
    wrong-network error. *)
Theorem wrong_network_blocks_send
    (w : world) (to amount : string) (gasLimit : option Z) :
  (forall h, oracle w h chain_id_call
             <> Resolve (VStr ShardeumAPI.SHARDEUM_CHAIN_ID)) ->
  (exists e w',
      ShardeumAPI.sendTransaction to amount gasLimit w = (Throw e, w')
      /\ count is_gas_estimation (calls_since w w') = 0%nat
      /\ count is_submission (calls_since w w') = 0%nat
      /\ (In chain_id_call (calls_since w w') -> e = ShardeumAPI.wrong_network)
      /\ (api_signer w' = true -> e = ShardeumAPI.wrong_network))
  /\ (exists e w',
         Web3Service.sendTip to amount w = (Throw e, w')
         /\ count is_gas_estimation (calls_since w w') = 0%nat
         /\ count is_submission (calls_since w w') = 0%nat
         /\ (In chain_id_call (calls_since w w') -> e = Web3Service.wrong_network)
         /\ (web3 w = true -> ethereum w = true ->
             e = Web3Service.wrong_network)).
Proof.
  intros Hchain. split.
  - destruct (sendTransaction_wrong_network w to amount gasLimit Hchain)
      as (e & w' & cs & Hrun & Htrace & Hcs & Hasked & Herr).
    exists e, w'. rewrite (calls_since_app w w' cs Htrace).
    destruct (before_estimation_counts cs Hcs). auto.
  - destruct (sendTip_wrong_network w to amount Hchain)
      as (e & w' & cs & Hrun & Htrace & Hcs & Hasked & Herr).
    exists e, w'. rewrite (calls_since_app w w' cs Htrace).
    destruct (before_estimation_counts cs Hcs). auto.
Qed.

Lemma wrong_network_blocks_send_witness :
  exists e w',
    ShardeumAPI.sendTransaction Scenario.bob_address "1" None Scenario.on_mainnet
      = (Throw e, w')
    /\ count is_gas_estimation (calls_since Scenario.on_mainnet w') = 0%nat
    /\ count is_submission (calls_since Scenario.on_mainnet w') = 0%nat
    /\ (In chain_id_call (calls_since Scenario.on_mainnet w')
        -> e = ShardeumAPI.wrong_network)
    /\ (api_signer w' = true -> e = ShardeumAPI.wrong_network).
Proof.
  refine (proj1 (wrong_network_blocks_send Scenario.on_mainnet
                   Scenario.bob_address "1" None _)).
  intros h. simpl. discriminate.
Defined.

(** ** Validation before a send (C1) *)

(** C1, as the claim states it, fails: neither implementation of
    [sendTip] checks that the amount is positive or that the recipient
    is an address.  On the right network an amount of ["0"] (which parses
    to a value [<= 0]) is handed to the wallet for submission by both,
    and so is a recipient that is not an address. *)
Lemma sendTip_submits_unvalidated_input :
  JS.leb (JS.parseFloat "0") (JS.of_Z 0) = true
  /\ ShardeumAPI.isValidAddress "not-an-address" = false
  /\ fst (ShardeumAPI.sendTip Scenario.bob_address "0" Scenario.on_shardeum)
     = Ret (VStr "0xabc123")
  /\ count is_submission
       (trace (snd (ShardeumAPI.sendTip Scenario.bob_address "0" Scenario.on_shardeum)))
     = 1%nat
  /\ fst (ShardeumAPI.sendTip "not-an-address" "1" Scenario.on_shardeum)
     = Ret (VStr "0xabc123")
  /\ count is_submission
       (trace (snd (ShardeumAPI.sendTip "not-an-address" "1" Scenario.on_shardeum)))
     = 1%nat
  /\ fst (Web3Service.sendTip Scenario.bob_address "0" Scenario.on_shardeum)
     = Ret (VStr "0xabc123")
  /\ count is_submission
       (trace (snd (Web3Service.sendTip Scenario.bob_address "0" Scenario.on_shardeum)))
     = 1%nat.
Proof.
  repeat split; vm_compute; reflexivity.
Qed.

(** C1, amended.  The three guards are those of [validateForm], which
    [handleSendTip] runs first: when the amount parses to a value [<= 0],
    or to more than the balance of the session, or the creator's address
    is not valid, the handler sets an error and returns without calling
    [sendTip]; the world is unchanged, so no call at all (and no
    submission) is made. *)
Theorem invalid_tip_is_stopped_by_the_form
    (amount : string) (walletState : TipModal.wallet_state)
    (creator : Store.creator) (ui : TipModal.ui_state) (w : world) :
  JS.leb (JS.parseFloat amount) (JS.of_Z 0) = true
  \/ JS.gtb (JS.parseFloat amount) (JS.parseFloat (TipModal.balance walletState)) = true
  \/ ShardeumAPI.isValidAddress (Store.address creator) = false ->
  exists msg,
    TipModal.validateForm amount walletState creator = Some msg
    /\ TipModal.handleSendTip amount walletState creator ui w
       = (TipModal.Ui (Some msg) (TipModal.txHash ui) (TipModal.isLoading ui)
            (TipModal.tipSent ui), w)
    /\ count is_submission
         (calls_since w (snd (TipModal.handleSendTip amount walletState creator ui w)))
       = 0%nat.
Proof.
  intros Hbad.
  assert (Hform : exists msg, TipModal.validateForm amount walletState creator = Some msg).
  { unfold TipModal.validateForm.
    destruct (negb (Val.truthy (VStr amount))
              || JS.leb (JS.parseFloat amount) (JS.of_Z 0)) eqn:H1; [eauto|].
    destruct (JS.gtb (JS.parseFloat amount)
                (JS.parseFloat (TipModal.balance walletState))) eqn:H2; [eauto|].
    destruct (ShardeumAPI.isValidAddress (Store.address creator)) eqn:H3; [|eauto].
    apply orb_false_elim in H1. destruct H1 as [_ H1].
    destruct Hbad as [Hb|[Hb|Hb]]; congruence. }
  destruct Hform as (msg & Hform). exists msg.
  unfold TipModal.handleSendTip. rewrite Hform. cbn [snd].
  rewrite calls_since_refl. repeat split; reflexivity.
Qed.

Lemma invalid_tip_is_stopped_by_the_form_witness :
  exists msg,
    TipModal.validateForm "0.1" (Scenario.session "0.05") Scenario.bob = Some msg
    /\ TipModal.handleSendTip "0.1" (Scenario.session "0.05") Scenario.bob
         Scenario.fresh_dialog Scenario.on_shardeum
       = (TipModal.Ui (Some msg) None false false, Scenario.on_shardeum)
    /\ count is_submission
         (calls_since Scenario.on_shardeum
            (snd (TipModal.handleSendTip "0.1" (Scenario.session "0.05") Scenario.bob
                    Scenario.fresh_dialog Scenario.on_shardeum)))
       = 0%nat.
Proof.
  apply (invalid_tip_is_stopped_by_the_form "0.1" (Scenario.session "0.05")
           Scenario.bob Scenario.fresh_dialog Scenario.on_shardeum).
  right. left. vm_compute. reflexivity.
Defined.

(** ** The effect monad *)

Lemma bind_ret_inv {A B} (m : M A) (k : A -> M B) (w w' : world) (b : B) :
  bind m k w = (Ret b, w') ->
  exists a w1, m w = (Ret a, w1) /\ k a w1 = (Ret b, w').
Proof.
  unfold bind. destruct (m w) as [[a|e] w1]; [eauto|discriminate].
Qed.

Lemma try_catch_rethrow {A} (m : M A) (w : world) :
  try_catch m (fun error => throw error) w = m w.
Proof.
  unfold try_catch, throw. now destruct (m w) as [[a|e] w1].
Qed.

Lemma await_ret_inv (c : call) (w w' : world) (v : value) :
  await c w = (Ret v, w') ->
  oracle w (trace w) c = Resolve v /\ w' = with_trace (trace w ++ [c]) w.
Proof.
  unfold await. destruct (oracle w (trace w) c); intros H; inversion H; auto.
Qed.

Lemma prop_ret_inv (k : string) (v x : value) (w w' : world) :
  prop k v w = (Ret x, w') -> Val.get k v = Some x /\ w' = w.
Proof.
  unfold prop, ret, throw. destruct (Val.get k v); intros H; inversion H; auto.
Qed.

Lemma client_ret {A} (a : A) : client (ret a).
Proof. intros w. now split. Qed.

Lemma client_throw {A} (e : js_error) : client (@throw A e).
Proof. intros w. now split. Qed.

Lemma client_await (c : call) : client (await c).
Proof.
  intros w. unfold await. now destruct (oracle w (trace w) c).
Qed.

Lemma client_bind {A B} (m : M A) (k : A -> M B) :
  client m -> (forall a, client (k a)) -> client (bind m k).
Proof.
  intros Hm Hk w. unfold bind. specialize (Hm w).
  destruct (m w) as [[a|e] w1]; cbn [snd] in *; [|exact Hm].
  destruct (Hk a w1) as (Ho & Hs). destruct Hm as (Ho1 & Hs1).
  split; congruence.
Qed.

Lemma client_try_catch {A} (m : M A) (h : js_error -> M A) :
  client m -> (forall e, client (h e)) -> client (try_catch m h).
Proof.
  intros Hm Hh w. unfold try_catch. specialize (Hm w).
  destruct (m w) as [[a|e] w1]; cbn [snd] in *; [exact Hm|].
  destruct (Hh e w1) as (Ho & Hs). destruct Hm as (Ho1 & Hs1).
  split; congruence.
Qed.

Lemma client_cond {A} (b : world -> bool) (m1 m2 : M A) :
  client m1 -> client m2 -> client (fun w => if b w then m1 w else m2 w).
Proof.
  intros H1 H2 w. destruct (b w); [apply H1|apply H2].
Qed.

Lemma client_prop (k : string) (v : value) : client (prop k v).
Proof.
  unfold prop. destruct (Val.get k v); [apply client_ret|apply client_throw].
Qed.

Lemma client_ethereum_request (method : string) (params : list value) :
  client (ethereum_request method params).
Proof.
  apply (client_cond ethereum (await _) (throw _));
    [apply client_await|apply client_throw].
Qed.

Lemma client_run {A} (m : M A) (w w' : world) (r : outcome A) :
  client m -> m w = (r, w') -> oracle w' = oracle w /\ store w' = store w.
Proof.
  intros Hm Hrun. specialize (Hm w). now rewrite Hrun in Hm.
Qed.

Create HintDb client.
#[local] Hint Resolve client_ret client_throw client_await client_prop
  client_ethereum_request : client.

Ltac client_steps :=
  repeat match goal with
    | |- client (try_catch _ _) => apply client_try_catch; [|intros ?; cbv beta]
    | |- client (bind _ _) => apply client_bind; [|intros ?; cbv beta]
    | |- client _ => solve [auto with client]
    end.

Lemma client_post (envelope : value) : client (ShardeumAPI.post envelope).
Proof. unfold ShardeumAPI.post. client_steps. Qed.

Lemma client_verifyNetwork : client ShardeumAPI.verifyNetwork.
Proof. unfold ShardeumAPI.verifyNetwork. client_steps. Qed.

Lemma client_init_provider : client ShardeumAPI.init_provider.
Proof.
  intros w. unfold ShardeumAPI.init_provider.
  now destruct (negb (api_provider w) && ethereum w).
Qed.

Lemma client_init_signer : client ShardeumAPI.init_signer.
Proof.
  intros w. unfold ShardeumAPI.init_signer.
  destruct (negb (api_signer w) && api_provider w); [|now split].
  unfold await. now destruct (oracle w (trace w) GetSigner).
Qed.

#[local] Hint Resolve client_post client_verifyNetwork client_init_provider
  client_init_signer : client.

Lemma client_sendTransaction (to amount : string) (gasLimit : option Z) :
  client (ShardeumAPI.sendTransaction to amount gasLimit).
Proof.
  unfold ShardeumAPI.sendTransaction.
  apply client_try_catch; [|auto with client].
  apply client_bind; [auto with client|intros _].
  apply client_bind; [auto with client|intros _].
  apply (client_cond (fun w => negb (api_signer w)) (throw _)); [auto with client|].
  apply client_bind; [auto with client|intros ok].
  destruct (negb ok); [auto with client|].
  apply client_bind; [auto with client|intros fromAddress].
  destruct (Units.toBaseUnits amount) as [value|]; [|auto with client].
  unfold ShardeumAPI.getGasPrice, ShardeumAPI.estimateGas.
  apply client_bind; [auto with client|intros gasPrice].
  apply client_bind; [|intros finalGasLimit; client_steps].
  destruct gasLimit as [[| |]|]; auto with client.
Qed.

(** ** From the submission to the record (C3) *)

(** The value [sendTransaction] returns is the [hash] of what the wallet
    answered to the submission, which is the last call of the run. *)
Lemma sendTransaction_hash
    (to amount : string) (gasLimit : option Z) (w w1 : world) (H : value) :
  ShardeumAPI.sendTransaction to amount gasLimit w = (Ret H, w1) ->
  exists pre tx txResponse,
    trace w1 = pre ++ [SignerSendTransaction tx]
    /\ oracle w pre (SignerSendTransaction tx) = Resolve txResponse
    /\ Val.get "hash" txResponse = Some H.
Proof.
  unfold ShardeumAPI.sendTransaction. rewrite try_catch_rethrow. intros Hrun.
  apply bind_ret_inv in Hrun. destruct Hrun as (? & wa & Ha & Hrun).
  apply (client_run _ _ _ _ client_init_provider) in Ha. destruct Ha as (Hoa & _).
  apply bind_ret_inv in Hrun. destruct Hrun as (? & wb & Hb & Hrun).
  apply (client_run _ _ _ _ client_init_signer) in Hb. destruct Hb as (Hob & _).
  cbv beta in Hrun.
  destruct (negb (api_signer wb)); [discriminate|].
  apply bind_ret_inv in Hrun. destruct Hrun as (ok & wc & Hc & Hrun).
  apply (client_run _ _ _ _ client_verifyNetwork) in Hc. destruct Hc as (Hoc & _).
  destruct (negb ok); [discriminate|].
  apply bind_ret_inv in Hrun. destruct Hrun as (fromAddress & wd & Hd & Hrun).
  apply (client_run _ _ _ _ (client_await _)) in Hd. destruct Hd as (Hod & _).
  destruct (Units.toBaseUnits amount) as [value|]; [|discriminate].
  apply bind_ret_inv in Hrun. destruct Hrun as (gasPrice & we & He & Hrun).
  apply (client_run _ _ _ _ (client_post _)) in He. destruct He as (Hoe & _).
  apply bind_ret_inv in Hrun. destruct Hrun as (finalGasLimit & wf & Hf & Hrun).
  assert (Hof : oracle wf = oracle we).
  { destruct gasLimit as [[| |]|];
      first [ apply (client_run _ _ _ _ (client_post _)) in Hf
            | apply (client_run _ _ _ _ (client_ret _)) in Hf ];
      apply Hf. }
  apply bind_ret_inv in Hrun. destruct Hrun as (txResponse & wg & Hg & Hrun).
  apply await_ret_inv in Hg. destruct Hg as (Hg & ->).
  apply prop_ret_inv in Hrun. destruct Hrun as (Hhash & ->).
  eexists (trace wf), _, txResponse. split; [reflexivity|]. split; [|exact Hhash].
  rewrite <- Hg. congruence.
Qed.

(** ** The tip store *)

Lemma tip_json_status (t : Store.tip) :
  Val.field "status" (Server.tip_json t) = VStr (Store.status t).
Proof.
  unfold Server.tip_json. cbn [List.filter snd].
  destruct (Store.amount t), (Store.txHash t), (Store.creatorId t); reflexivity.
Qed.

Lemma tip_json_txHash (t : Store.tip) :
  Val.field "txHash" (Server.tip_json t) = Store.txHash t.
Proof.
  unfold Server.tip_json. cbn [List.filter snd].
  destruct (Store.amount t), (Store.txHash t), (Store.creatorId t); reflexivity.
Qed.

(** A request that passes the handler's checks is recorded, and the
    creators change only through [list_find]. *)
Lemma post_tips_accepted (body : value) (w : world) (from to : string) :
  Val.field "fromAddress" body = VStr from -> from <> "" ->
  Val.field "toAddress" body = VStr to -> to <> "" ->
  Val.truthy (Val.field "amount" body) = true ->
  Val.truthy (Val.field "txHash" body) = true ->
  let t := Store.Tip (JS.decimal_string (date_now w))
             (JS.toLowerCase from) (JS.toLowerCase to)
             (Val.field "amount" body) (Val.field "txHash" body)
             (Val.field "creatorId" body) (date_iso w) "pending" in
  let creators' :=
    if Val.truthy (Val.field "creatorId" body) then
      match list_find
              (fun c => Is_true (Val.is_string (Store.id c) (Val.field "creatorId" body)))
              (Store.creators (store w)) with
      | Some (i, creator) =>
          <[ i := Server.credit (Val.field "amount" body) creator ]>
            (Store.creators (store w))
      | None => Store.creators (store w)
      end
    else Store.creators (store w) in
  Server.post_tips body w
  = ((201, Server.tip_json t),
     with_store (Store.State creators'
                   (Store.transactions (store w) ++ [t])) w).
Proof.
  intros Hf Hfne Ht Htne Ha Hh t creators'.
  unfold Server.post_tips. rewrite Hf, Ht, Ha, Hh.
  cbn [Val.truthy Val.toLowerCase].
  destruct (String.eqb_spec from "") as [->|_]; [now destruct Hfne|].
  destruct (String.eqb_spec to "") as [->|_]; [now destruct Htne|].
  reflexivity.
Qed.

(** The three ways the handler answers. *)
Lemma post_tips_cases (body : value) (w : world) :
  (exists resp, Server.post_tips body w = (resp, w) /\ fst resp <> 201)
  \/ exists from to,
       Val.field "fromAddress" body = VStr from
       /\ Val.field "toAddress" body = VStr to
       /\ from <> "" /\ to <> ""
       /\ Val.truthy (Val.field "amount" body) = true
       /\ Val.truthy (Val.field "txHash" body) = true
       /\ let t := Store.Tip (JS.decimal_string (date_now w))
                     (JS.toLowerCase from) (JS.toLowerCase to)
                     (Val.field "amount" body) (Val.field "txHash" body)
                     (Val.field "creatorId" body) (date_iso w) "pending" in
          exists creators',
            Server.post_tips body w
            = ((201, Server.tip_json t),
               with_store (Store.State creators'
                             (Store.transactions (store w) ++ [t])) w).
Proof.
  unfold Server.post_tips.
  destruct (Val.truthy (Val.field "fromAddress" body)) eqn:Hf; cbn [negb orb];
    [|left; eexists; split; [reflexivity|discriminate]].
  destruct (Val.truthy (Val.field "toAddress" body)) eqn:Ht; cbn [negb orb];
    [|left; eexists; split; [reflexivity|discriminate]].
  destruct (Val.truthy (Val.field "amount" body)) eqn:Ha; cbn [negb orb];
    [|left; eexists; split; [reflexivity|discriminate]].
  destruct (Val.truthy (Val.field "txHash" body)) eqn:Hh; cbn [negb orb];
    [|left; eexists; split; [reflexivity|discriminate]].
  destruct (Val.field "fromAddress" body) as [| | | | |from| |] eqn:Efrom; cbn [Val.toLowerCase];
    try (left; eexists; split; [reflexivity|discriminate]).
  destruct (Val.field "toAddress" body) as [| | | | |to| |] eqn:Eto; cbn [Val.toLowerCase];
    try (left; eexists; split; [reflexivity|discriminate]).
  right. exists from, to.
  repeat split; try reflexivity.
  - intros ->. discriminate.
  - intros ->. discriminate.
  - eexists. reflexivity.
Qed.

(** What [recordTip] does: it makes the one call, and then either throws
    and leaves the store alone, or returns the record the store
    appended, pending and carrying the [txHash] of the request, which is
    not empty. *)
Lemma recordTip_cases (data : value) (w : world) :
  let w0 := with_trace (trace w ++ [Http "POST" ApiService.tips_url data]) w in
  (exists e, ApiService.recordTip data w = (Throw e, w0))
  \/ exists t creators',
       ApiService.recordTip data w
       = (Ret (Server.tip_json t),
          with_store (Store.State creators' (Store.transactions (store w) ++ [t])) w0)
       /\ Store.txHash t = Val.field "txHash" data
       /\ Val.truthy (Val.field "txHash" data) = true
       /\ Store.status t = "pending".
Proof.
  intros w0. unfold ApiService.recordTip, await.
  destruct (oracle w (trace w) (Http "POST" ApiService.tips_url data)) as [v|e];
    fold w0; [|left; eauto].
  destruct (post_tips_cases data w0) as [((status & body) & Hrun & Hstatus)
                                        |(from & to & _ & _ & _ & _ & _ & Hh & creators' & Hrun)].
  - rewrite Hrun. cbn [fst] in Hstatus.
    destruct ((200 <=? status) && (status <? 300)) eqn:Hok.
    + (* the handler answers 400, 500 or 201 only *)
      exfalso. unfold Server.post_tips in Hrun.
      repeat match type of Hrun with
             | (if ?b then _ else _) = _ => destruct b
             | match ?x with _ => _ end = _ => destruct x
             end; inversion Hrun; subst; try discriminate; try (now apply Hstatus).
    + left. eauto.
  - cbv zeta in Hrun. rewrite Hrun. cbn [andb Z.leb Z.ltb Z.compare Pos.compare Pos.compare_cont].
    right. eexists _, creators'. split; [reflexivity|]. repeat split. exact Hh.
Qed.

Lemma validateForm_passed (amount : string) (walletState : TipModal.wallet_state)
    (creator : Store.creator) :
  TipModal.validateForm amount walletState creator = None ->
  amount <> "" /\ Store.address creator <> "".
Proof.
  unfold TipModal.validateForm. intros Hform.
  destruct (negb (Val.truthy (VStr amount))
            || JS.leb (JS.parseFloat amount) (JS.of_Z 0)) eqn:H1; [discriminate|].
  destruct (JS.gtb (JS.parseFloat amount)
              (JS.parseFloat (TipModal.balance walletState))); [discriminate|].
  destruct (ShardeumAPI.isValidAddress (Store.address creator)) eqn:H3;
    [|discriminate].
  apply orb_false_elim in H1. destruct H1 as (H1 & _). split.
  - intros ->. discriminate H1.
  - intros E. rewrite E in H3. discriminate H3.
Qed.

(** When the request reaches the store and carries a sender and a hash,
    the store answers with the record. *)
Lemma recordTip_returns (amount a : string) (walletState : TipModal.wallet_state)
    (creator : Store.creator) (H v : value) (w : world) :
  let data := TipModal.tipData amount walletState creator H in
  amount <> "" -> Store.address creator <> "" ->
  TipModal.address walletState = Some a -> a <> "" ->
  Val.truthy H = true ->
  oracle w (trace w) (Http "POST" ApiService.tips_url data) = Resolve v ->
  exists record w', ApiService.recordTip data w = (Ret record, w').
Proof.
  intros data Hamount Hto Hfrom Ha HH Ho.
  unfold ApiService.recordTip, await. rewrite Ho.
  set (w0 := with_trace (trace w ++ [Http "POST" ApiService.tips_url data]) w).
  assert (Hrun := post_tips_accepted data w0 a (Store.address creator)).
  cbv zeta in Hrun. rewrite Hrun; [eauto| | | | | |].
  - unfold data, TipModal.tipData. now rewrite Hfrom.
  - exact Ha.
  - reflexivity.
  - exact Hto.
  - cbn. destruct (String.eqb_spec amount "") as [E|_]; [now destruct Hamount|reflexivity].
  - exact HH.
Qed.

(** C3. After a successful submission that returned the hash [H], the
    handler calls the tip store with [txHash = H], and the record the
    store returns has status ['pending'] and carries [H]; the store does
    return a record when the request reaches it with a sender and a
    non-empty hash.  [H] is what the
    wallet answered to the submission, never a value of the client's
    making; and in every run of the handler the store gains no record, or
    exactly one, pending, whose hash is the non-empty hash a submission
    returned.  The store itself never appends a record without a
    non-empty [txHash]. *)
Theorem tip_is_recorded_with_the_submitted_hash
    (amount : string) (walletState : TipModal.wallet_state)
    (creator : Store.creator) (ui : TipModal.ui_state) (w : world) :
  let w' := snd (TipModal.handleSendTip amount walletState creator ui w) in
  (forall H w1,
      TipModal.validateForm amount walletState creator = None ->
      ShardeumAPI.sendTip (Store.address creator) amount w = (Ret H, w1) ->
      let data := TipModal.tipData amount walletState creator H in
      (exists pre tx txResponse,
          trace w1 = pre ++ [SignerSendTransaction tx]
          /\ oracle w pre (SignerSendTransaction tx) = Resolve txResponse
          /\ Val.get "hash" txResponse = Some H)
      /\ trace w' = trace w1 ++ [Http "POST" ApiService.tips_url data]
      /\ Val.field "txHash" data = H
      /\ (forall record w2,
             ApiService.recordTip data w1 = (Ret record, w2) ->
             Val.field "status" record = VStr "pending"
             /\ Val.field "txHash" record = H
             /\ Val.truthy H = true)
      /\ (forall a v,
             TipModal.address walletState = Some a -> a <> "" ->
             Val.truthy H = true ->
             oracle w1 (trace w1) (Http "POST" ApiService.tips_url data)
             = Resolve v ->
             exists record w2, ApiService.recordTip data w1 = (Ret record, w2)))
  /\ (Store.transactions (store w') = Store.transactions (store w)
      \/ exists t H w1,
           ShardeumAPI.sendTip (Store.address creator) amount w = (Ret H, w1)
           /\ Store.transactions (store w') = Store.transactions (store w) ++ [t]
           /\ Store.txHash t = H
           /\ Val.truthy H = true
           /\ Store.status t = "pending")
  /\ (forall body w0,
        let w1 := snd (Server.post_tips body w0) in
        Store.transactions (store w1) = Store.transactions (store w0)
        \/ exists t,
             Store.transactions (store w1) = Store.transactions (store w0) ++ [t]
             /\ Store.txHash t = Val.field "txHash" body
             /\ Val.truthy (Store.txHash t) = true
             /\ Store.status t = "pending").
Proof.
  intros w'. split; [|split].
  - intros H w1 Hform Hsend data.
    split; [exact (sendTransaction_hash (Store.address creator) amount None w w1 H Hsend)|].
    assert (Hw' : w' = snd (ApiService.recordTip data w1)).
    { unfold w', TipModal.handleSendTip. rewrite Hform, Hsend. fold data.
      now destruct (ApiService.recordTip data w1) as [[record|e] w2]. }
    split; [|split; [reflexivity|split]].
    + rewrite Hw'.
      destruct (recordTip_cases data w1) as [(e & Hr)|(t & cs & Hr & _)];
        rewrite Hr; reflexivity.
    + intros record w2 Hrec.
      destruct (recordTip_cases data w1) as [(e & Hr)|(t & cs & Hr & Ht & Hh & Hs)];
        rewrite Hr in Hrec; [discriminate|].
      injection Hrec as <- _.
      rewrite tip_json_status, tip_json_txHash, Hs, Ht. auto.
    + intros a v Hfrom Ha HH Ho.
      destruct (validateForm_passed _ _ _ Hform) as (Hamount & Hto).
      exact (recordTip_returns amount a walletState creator H v w1
               Hamount Hto Hfrom Ha HH Ho).
  - unfold w', TipModal.handleSendTip.
    destruct (TipModal.validateForm amount walletState creator); [now left|].
    destruct (ShardeumAPI.sendTip (Store.address creator) amount w)
      as [[H|e] w1] eqn:Hsend.
    + pose proof (client_run _ _ _ _ (client_sendTransaction (Store.address creator) amount None) Hsend) as (_ & Hst).
      set (data := TipModal.tipData amount walletState creator H).
      destruct (recordTip_cases data w1) as [(e & Hr)|(t & cs & Hr & Ht & Hh & Hs)];
        rewrite Hr; cbn [snd store with_store with_trace Store.transactions].
      * left. now rewrite Hst.
      * right. exists t, H, w1. rewrite Hst. repeat split; auto.
    + pose proof (client_run _ _ _ _ (client_sendTransaction (Store.address creator) amount None) Hsend) as (_ & Hst).
      left. cbn [snd]. now rewrite Hst.
  - intros body w0 w1. unfold w1.
    destruct (post_tips_cases body w0)
      as [(resp & Hrun & _)|(from & to & _ & _ & _ & _ & _ & Hh & cs & Hrun)].
    + rewrite Hrun. now left.
    + cbv zeta in Hrun. rewrite Hrun. right. eexists. repeat split. exact Hh.
Qed.

Lemma tip_is_recorded_with_the_submitted_hash_witness :
  let w := Scenario.on_shardeum in
  let w1 := snd (ShardeumAPI.sendTip Scenario.bob_address "0.01" w) in
  let data := TipModal.tipData "0.01" (Scenario.session "0.05") Scenario.bob
                (VStr "0xabc123") in
  trace (snd (TipModal.handleSendTip "0.01" (Scenario.session "0.05") Scenario.bob
                Scenario.fresh_dialog w))
  = trace w1 ++ [Http "POST" ApiService.tips_url data]
  /\ Val.field "txHash" data = VStr "0xabc123".
Proof.
  intros w w1 data.
  assert (Hform : TipModal.validateForm "0.01" (Scenario.session "0.05") Scenario.bob = None)
    by (vm_compute; reflexivity).
  assert (Hsend : ShardeumAPI.sendTip (Store.address Scenario.bob) "0.01" w
                  = (Ret (VStr "0xabc123"), w1))
    by (vm_compute; reflexivity).
  destruct (proj1 (tip_is_recorded_with_the_submitted_hash "0.01"
                     (Scenario.session "0.05") Scenario.bob Scenario.fresh_dialog w)
              (VStr "0xabc123") w1 Hform Hsend) as (_ & Htrace & Hfield & Hrecord).
  split; [exact Htrace|exact Hfield].
Defined.

(** ** Digit strings *)

Lemma digit_char_val (d : Z) :
  0 <= d < 16 -> Digits.digit_val (Digits.digit_char d) = d.
Proof.
  intros Hd.
  assert (Hcases : d = 0 \/ d = 1 \/ d = 2 \/ d = 3 \/ d = 4 \/ d = 5 \/ d = 6
                   \/ d = 7 \/ d = 8 \/ d = 9 \/ d = 10 \/ d = 11 \/ d = 12
                   \/ d = 13 \/ d = 14 \/ d = 15) by lia.
  repeat (destruct Hcases as [->|Hcases]; [reflexivity|]).
  now subst d.
Qed.

Lemma digit_char_is_digit (d : Z) :
  0 <= d < 10 -> Digits.is_digit (Digits.digit_char d) = true.
Proof.
  intros Hd.
  assert (Hcases : d = 0 \/ d = 1 \/ d = 2 \/ d = 3 \/ d = 4 \/ d = 5 \/ d = 6
                   \/ d = 7 \/ d = 8 \/ d = 9) by lia.
  repeat (destruct Hcases as [->|Hcases]; [reflexivity|]).
  now subst d.
Qed.

Lemma value_acc_app (base acc : Z) (l r : list ascii) :
  Digits.value_acc base acc (l ++ r)
  = Digits.value_acc base (Digits.value_acc base acc l) r.
Proof.
  revert acc. induction l as [|c l IH]; intros acc; simpl; auto.
Qed.

Lemma value_snoc (base : Z) (l : list ascii) (c : ascii) :
  Digits.value base (l ++ [c]) = Digits.value base l * base + Digits.digit_val c.
Proof.
  unfold Digits.value. now rewrite value_acc_app.
Qed.

Lemma value_acc_shift (base acc : Z) (l : list ascii) :
  Digits.value_acc base acc l
  = acc * base ^ Z.of_nat (length l) + Digits.value base l.
Proof.
  unfold Digits.value. revert acc.
  induction l as [|c l IH]; intros acc.
  - simpl. lia.
  - cbn [Digits.value_acc length]. rewrite (IH (acc * base + _)), (IH (0 * base + _)).
    rewrite Nat2Z.inj_succ, Z.pow_succ_r by lia. ring.
Qed.

Lemma value_app (base : Z) (l r : list ascii) :
  Digits.value base (l ++ r)
  = Digits.value base l * base ^ Z.of_nat (length r) + Digits.value base r.
Proof.
  unfold Digits.value at 1. rewrite value_acc_app. apply value_acc_shift.
Qed.

Lemma value_zeros (base : Z) (n : nat) :
  Digits.value base (repeat "0"%char n) = 0.
Proof.
  unfold Digits.value. induction n as [|n IH]; simpl; auto.
Qed.

Lemma fixed_length (base : Z) (k : nat) (n : Z) :
  length (Digits.fixed base k n) = k.
Proof.
  revert n. induction k as [|k IH]; intros n; simpl; auto.
  rewrite length_app, IH. simpl. lia.
Qed.

Lemma fixed_digits (k : nat) (n : Z) :
  forallb Digits.is_digit (Digits.fixed 10 k n) = true.
Proof.
  revert n. induction k as [|k IH]; intros n; simpl; auto.
  rewrite forallb_app, IH. simpl.
  rewrite digit_char_is_digit; [reflexivity|].
  apply Z.mod_pos_bound. lia.
Qed.

Lemma fixed_value (k : nat) (n : Z) :
  Digits.value 10 (Digits.fixed 10 k n) = n mod 10 ^ Z.of_nat k.
Proof.
  revert n. induction k as [|k IH]; intros n.
  - simpl. now rewrite Z.mod_1_r.
  - cbn [Digits.fixed]. rewrite value_snoc, IH.
    rewrite digit_char_val by (pose proof (Z.mod_pos_bound n 10); lia).
    rewrite Nat2Z.inj_succ, Z.pow_succ_r by lia.
    rewrite (Z.rem_mul_r n 10 (10 ^ Z.of_nat k)) by lia. ring.
Qed.

Lemma strip_zeros_value (base : Z) (l : list ascii) :
  Digits.value base (Digits.strip_zeros l) = Digits.value base l.
Proof.
  induction l as [|c l IH]; [reflexivity|].
  cbn [Digits.strip_zeros].
  destruct (Ascii.eqb_spec c "0") as [->|Hc].
  - rewrite IH. unfold Digits.value. reflexivity.
  - destruct c as [[] [] [] [] [] [] [] []]; try reflexivity. now destruct Hc.
Qed.

Lemma strip_zeros_digits (p : ascii -> bool) (l : list ascii) :
  forallb p l = true -> forallb p (Digits.strip_zeros l) = true.
Proof.
  induction l as [|c l IH]; [auto|].
  intros H. cbn [forallb] in H. apply andb_prop in H. destruct H as (Hc & Hl).
  cbn [Digits.strip_zeros].
  destruct c as [[] [] [] [] [] [] [] []];
    try (cbn [forallb]; now rewrite Hc, Hl).
  now apply IH.
Qed.

Lemma numeral_digits (n : Z) :
  forallb Digits.is_digit (Digits.numeral 10 n) = true.
Proof.
  unfold Digits.numeral.
  pose proof (strip_zeros_digits Digits.is_digit _
                (fixed_digits (S (Z.to_nat (Z.log2 n))) n)) as H.
  destruct (Digits.strip_zeros _); [reflexivity|exact H].
Qed.

Lemma numeral_not_nil (base n : Z) : Digits.numeral base n <> [].
Proof.
  unfold Digits.numeral. now destruct (Digits.strip_zeros _).
Qed.

Lemma numeral_value (n : Z) :
  0 <= n -> Digits.value 10 (Digits.numeral 10 n) = n.
Proof.
  intros Hn. unfold Digits.numeral.
  assert (Hv : Digits.value 10
                 (Digits.strip_zeros (Digits.fixed 10 (S (Z.to_nat (Z.log2 n))) n)) = n).
  { rewrite strip_zeros_value, fixed_value.
    apply Z.mod_small. split; [exact Hn|].
    rewrite Nat2Z.inj_succ, Z2Nat.id by apply Z.log2_nonneg.
    destruct (Z.eq_dec n 0) as [->|Hnz]; [reflexivity|].
    pose proof (Z.log2_spec n ltac:(lia)) as (_ & Hlt).
    pose proof (Z.log2_nonneg n).
    assert (2 ^ Z.succ (Z.log2 n) <= 10 ^ Z.succ (Z.log2 n))
      by (apply Z.pow_le_mono_l; lia).
    lia. }
  destruct (Digits.strip_zeros _) eqn:E; [|exact Hv].
  rewrite <- Hv. reflexivity.
Qed.

Lemma span_all (p : ascii -> bool) (l r : list ascii) :
  forallb p l = true ->
  match r with [] => True | c :: _ => p c = false end ->
  Digits.span p (l ++ r) = (l, r).
Proof.
  intros Hl Hr. induction l as [|c l IH].
  - destruct r as [|c r]; [reflexivity|]. simpl. now rewrite Hr.
  - cbn [forallb] in Hl. apply andb_prop in Hl. destruct Hl as (Hc & Hl).
    cbn [app Digits.span]. now rewrite Hc, (IH Hl).
Qed.

Lemma strip_trailing_split (l : list ascii) :
  l = Units.strip_trailing_zeros l
      ++ repeat "0"%char (length l - length (Units.strip_trailing_zeros l)).
Proof.
  induction l as [|c l IH]; [reflexivity|].
  cbn [Units.strip_trailing_zeros].
  destruct (Units.strip_trailing_zeros l) as [|d r] eqn:E.
  - cbn [app length] in IH. rewrite Nat.sub_0_r in IH.
    destruct (Ascii.eqb_spec c "0") as [->|Hc].
    + cbn [app length]. rewrite Nat.sub_0_r. cbn [repeat]. now rewrite <- IH.
    + cbn [app length]. replace (S (length l) - 1)%nat with (length l) by lia.
      now rewrite <- IH.
  - cbn [app length Nat.sub] in *. f_equal. exact IH.
Qed.

Lemma strip_trailing_digits (p : ascii -> bool) (l : list ascii) :
  forallb p l = true -> forallb p (Units.strip_trailing_zeros l) = true.
Proof.
  intros H. rewrite (strip_trailing_split l), forallb_app in H.
  now apply andb_prop in H.
Qed.

Lemma strip_trailing_length (l : list ascii) :
  (length (Units.strip_trailing_zeros l) <= length l)%nat.
Proof.
  pose proof (f_equal (@length ascii) (strip_trailing_split l)) as H.
  rewrite length_app in H. lia.
Qed.

(** The fractional digits, as printed, read back as the fraction. *)
Lemma pad_strip_value (l : list ascii) :
  length l = Units.decimals ->
  let frac := match Units.strip_trailing_zeros l with
              | [] => ["0"%char]
              | ds => ds
              end in
  Digits.value 10 (Units.pad_right Units.decimals frac) = Digits.value 10 l
  /\ (length frac <= Units.decimals)%nat.
Proof.
  intros Hlen frac. unfold Units.pad_right.
  pose proof (strip_trailing_split l) as Hsplit.
  pose proof (strip_trailing_length l) as Hle.
  unfold frac. destruct (Units.strip_trailing_zeros l) as [|d r] eqn:E.
  - split; [|unfold Units.decimals; simpl; lia].
    rewrite Hsplit. cbn [app length]. rewrite Nat.sub_0_r, Hlen.
    reflexivity.
  - split; [|lia]. rewrite <- Hlen. now rewrite <- Hsplit.
Qed.

(** ** Base-unit conversion (C4) *)

Lemma toBaseUnits_fromBaseUnits (w : Z) :
  Units.toBaseUnits (Units.fromBaseUnits w) = Some w.
Proof.
  unfold Units.fromBaseUnits, Units.toBaseUnits.
  rewrite list_ascii_of_string_of_list_ascii.
  set (a := Z.abs w).
  set (int := Digits.numeral 10 (a / Units.unit)).
  set (digits := Digits.fixed 10 Units.decimals (a mod Units.unit)).
  set (frac := match Units.strip_trailing_zeros digits with
               | [] => ["0"%char]
               | ds => ds
               end).
  assert (Hunit : 0 < Units.unit) by reflexivity.
  assert (Ha : 0 <= a) by apply Z.abs_nonneg.
  assert (Hint : forallb Digits.is_digit int = true) by apply numeral_digits.
  assert (Hfrac : forallb Digits.is_digit frac = true).
  { unfold frac.
    pose proof (strip_trailing_digits Digits.is_digit digits
                  (fixed_digits _ _)) as H.
    now destruct (Units.strip_trailing_zeros digits). }
  destruct (pad_strip_value digits (fixed_length _ _ _)) as (Hval & Hlen).
  fold frac in Hval, Hlen.
  assert (Hparse : Units.unsigned_units (int ++ "."%char :: frac) = Some a).
  { unfold Units.unsigned_units.
    rewrite (span_all Digits.is_digit int ("."%char :: frac) Hint) by reflexivity.
    rewrite <- (app_nil_r frac) at 1.
    rewrite (span_all Digits.is_digit frac [] Hfrac) by exact I.
    assert (Hnil : Digits.is_nil int = false).
    { pose proof (numeral_not_nil 10 (a / Units.unit)) as H. fold int in H.
      now destruct int. }
    rewrite Hnil. cbn [andb orb negb Digits.is_nil].
    replace (Units.decimals <? length frac)%nat with false
      by (symmetry; apply Nat.ltb_ge; exact Hlen).
    rewrite Hval. unfold int, digits.
    rewrite numeral_value by (apply Z.div_pos; lia).
    rewrite fixed_value. change (10 ^ Z.of_nat Units.decimals) with Units.unit.
    rewrite Z.mod_mod by lia.
    f_equal. rewrite (Z.div_mod a Units.unit) at 3 by lia. lia. }
  destruct (w <? 0) eqn:Hneg.
  - cbn [app]. change (Ascii.eqb "-" "-") with true. cbv iota.
    rewrite Hparse. cbn [option_map]. f_equal.
    apply Z.ltb_lt in Hneg. unfold a. lia.
  - cbn [app].
    destruct int as [|c int'] eqn:Eint;
      [now destruct (numeral_not_nil 10 (a / Units.unit))|].
    assert (Hc : Ascii.eqb c "-" = false).
    { cbn [forallb] in Hint. apply andb_prop in Hint. destruct Hint as (Hc & _).
      destruct (Ascii.eqb_spec c "-") as [->|]; [discriminate Hc|reflexivity]. }
    cbn [app] in *. rewrite Hc, Hparse. f_equal.
    apply Z.ltb_ge in Hneg. unfold a. lia.
Qed.

(** C4. Converting a valid decimal amount to base units, back to a
    decimal string and to base units again gives the same base-unit
    value. *)
Theorem base_units_round_trip (a : string) (w : Z) :
  ShardeumAPI.parseSHM a = Some w ->
  ShardeumAPI.parseSHM (ShardeumAPI.formatSHM w) = ShardeumAPI.parseSHM a.
Proof.
  intros Ha. rewrite Ha. apply toBaseUnits_fromBaseUnits.
Qed.

Lemma base_units_round_trip_witness :
  ShardeumAPI.parseSHM "0.10" = Some 100000000000000000
  /\ ShardeumAPI.formatSHM 100000000000000000 = "0.1"
  /\ ShardeumAPI.parseSHM (ShardeumAPI.formatSHM 100000000000000000)
     = ShardeumAPI.parseSHM "0.10".
Proof.
  split; [reflexivity|]. split; [reflexivity|].
  apply (base_units_round_trip "0.10" 100000000000000000). reflexivity.
Defined.

(** ** Address validation (C5) *)

Lemma fold_hex_case_zero (c : ascii) :
  Ascii.eqb (Units.fold_hex_case c) "0" = Ascii.eqb c "0".
Proof. destruct c as [[] [] [] [] [] [] [] []]; reflexivity. Qed.

Lemma fold_hex_case_x (c : ascii) :
  Ascii.eqb (Units.fold_hex_case c) "x" = Ascii.eqb c "x".
Proof. destruct c as [[] [] [] [] [] [] [] []]; reflexivity. Qed.

Lemma fold_hex_case_hex (c : ascii) :
  Digits.is_hex (Units.fold_hex_case c) = Digits.is_hex c.
Proof. destruct c as [[] [] [] [] [] [] [] []]; reflexivity. Qed.

Lemma address_chars_fold (cs : list ascii) :
  Units.address_chars (map Units.fold_hex_case cs) = Units.address_chars cs.
Proof.
  destruct cs as [|c0 [|c1 ds]]; try reflexivity.
  cbn [map Units.address_chars].
  rewrite fold_hex_case_zero, fold_hex_case_x, length_map.
  f_equal. induction ds as [|d ds IH]; [reflexivity|].
  cbn [map forallb]. now rewrite fold_hex_case_hex, IH.
Qed.

(** C5, as the claim states it, fails for the web3.js implementation: while
    its [web3] instance is not initialised (no wallet extension when the
    service was constructed) it answers [false] for a well-formed
    address. *)
Lemma isValidAddress_needs_web3 :
  Units.isAddress Scenario.bob_address = true
  /\ web3 Scenario.no_wallet = false
  /\ Web3Service.isValidAddress Scenario.bob_address Scenario.no_wallet = false.
Proof. repeat split. Qed.

(** C5, amended.  [isValidAddress] is false for a string of the wrong
    length, without the prefix [0x], or with a character that is not a
    hexadecimal digit; it is true for every well-formed address; and it
    does not depend on the case of the hexadecimal digits.  The web3.js
    implementation answers the same once its [web3] instance is
    initialised, and [false] for every input before. *)
Theorem isValidAddress_canonical_format (x : string) :
  let cs := list_ascii_of_string x in
  (length cs <> 42%nat -> ShardeumAPI.isValidAddress x = false)
  /\ (firstn 2 cs <> ["0"%char; "x"%char] -> ShardeumAPI.isValidAddress x = false)
  /\ (forall c, In c (skipn 2 cs) -> Digits.is_hex c = false ->
                ShardeumAPI.isValidAddress x = false)
  /\ (length cs = 42%nat -> firstn 2 cs = ["0"%char; "x"%char] ->
      forallb Digits.is_hex (skipn 2 cs) = true ->
      ShardeumAPI.isValidAddress x = true)
  /\ (forall y,
        map Units.fold_hex_case (list_ascii_of_string y)
        = map Units.fold_hex_case cs ->
        ShardeumAPI.isValidAddress y = ShardeumAPI.isValidAddress x)
  /\ (forall w,
        Web3Service.isValidAddress x w
        = web3 w && ShardeumAPI.isValidAddress x).
Proof.
  intros cs. unfold ShardeumAPI.isValidAddress, Units.isAddress. fold cs.
  repeat split.
  - intros Hlen. destruct cs as [|c0 [|c1 ds]]; try reflexivity.
    cbn [Units.address_chars]. cbn [length] in Hlen.
    replace (length ds =? 40)%nat with false
      by (symmetry; apply Nat.eqb_neq; lia).
    now rewrite andb_false_r.
  - intros Hpre. destruct cs as [|c0 [|c1 ds]]; try reflexivity.
    cbn [Units.address_chars]. cbn [firstn] in Hpre.
    destruct (Ascii.eqb_spec c0 "0") as [->|]; [|reflexivity].
    destruct (Ascii.eqb_spec c1 "x") as [->|]; [|reflexivity].
    now destruct Hpre.
  - intros c Hin Hc. destruct cs as [|c0 [|c1 ds]]; try reflexivity.
    cbn [Units.address_chars].
    change (skipn 2 (c0 :: c1 :: ds)) with ds in Hin.
    replace (forallb Digits.is_hex ds) with false; [now rewrite andb_false_r|].
    symmetry. apply not_true_is_false. intros Hall.
    rewrite forallb_forall in Hall. rewrite (Hall c Hin) in Hc. discriminate.
  - intros Hlen Hpre Hhex. destruct cs as [|c0 [|c1 ds]]; try discriminate.
    cbn [Units.address_chars]. cbn [firstn] in Hpre.
    change (skipn 2 (c0 :: c1 :: ds)) with ds in Hhex.
    cbn [length] in Hlen. injection Hpre as -> ->.
    rewrite Hhex. replace (length ds =? 40)%nat with true
      by (symmetry; apply Nat.eqb_eq; lia).
    reflexivity.
  - intros y Hy.
    rewrite <- (address_chars_fold (list_ascii_of_string y)), Hy.
    apply address_chars_fold.
  - intros w. unfold Web3Service.isValidAddress, Units.isAddress. fold cs.
    now destruct (web3 w).
Qed.

Lemma isValidAddress_canonical_format_witness :
  ShardeumAPI.isValidAddress Scenario.bob_address = true
  /\ ShardeumAPI.isValidAddress "0x26D6A3805CBAE5D5A510443A15129BEC456CACFF"
     = ShardeumAPI.isValidAddress Scenario.bob_address
  /\ ShardeumAPI.isValidAddress "26d6a3805cbae5d5a510443a15129bec456cacff" = false.
Proof.
  pose proof (isValidAddress_canonical_format Scenario.bob_address)
    as (_ & _ & _ & Hgood & Hcase & _).
  pose proof (isValidAddress_canonical_format "26d6a3805cbae5d5a510443a15129bec456cacff")
    as (Hlen & _).
  split; [apply Hgood; reflexivity|].
  split; [apply Hcase; reflexivity|].
  apply Hlen. cbv. discriminate.
Defined.

(** ** Chain RPC calls (C7) *)

(** One RPC round trip of the client: exactly one POST of the envelope;
    a rejected request is rethrown; a parsed answer gives its [result]
    property, whatever else it carries. *)
Lemma post_run (envelope : value) (w : world) :
  ShardeumAPI.post envelope w
  = (match oracle w (trace w) (Http "POST" ShardeumAPI.rpcUrl envelope) with
     | Reject e => Throw e
     | Resolve data =>
         match Val.get "result" data with
         | Some r => Ret r
         | None =>
             Throw (TypeError "Cannot read properties of undefined (reading 'result')")
         end
     end,
     with_trace (trace w ++ [Http "POST" ShardeumAPI.rpcUrl envelope]) w).
Proof.
  unfold ShardeumAPI.post. rewrite try_catch_rethrow.
  unfold bind, await, prop, ret, throw.
  destruct (oracle w (trace w) (Http "POST" ShardeumAPI.rpcUrl envelope)) as [data|e];
    [|reflexivity].
  now destruct (Val.get "result" data).
Qed.

Lemma shardeumRPC_run (method : string) (params : list value) (w : world) :
  let envelope := VObj [ ("jsonrpc", VStr "2.0"); ("method", VStr method);
                         ("params", VArr params); ("id", Server.num 1) ] in
  Server.shardeumRPC method params w
  = (match oracle w (trace w) (Http "POST" Server.SHARDEUM_RPC envelope) with
     | Reject e => Throw e
     | Resolve data =>
         match Val.get "result" data with
         | Some r => Ret r
         | None =>
             Throw (TypeError "Cannot read properties of undefined (reading 'result')")
         end
     end,
     with_trace (trace w ++ [Http "POST" Server.SHARDEUM_RPC envelope]) w).
Proof.
  intros envelope. unfold Server.shardeumRPC. rewrite try_catch_rethrow.
  fold envelope. unfold bind, await, prop, ret, throw.
  destruct (oracle w (trace w) (Http "POST" Server.SHARDEUM_RPC envelope)) as [data|e];
    [|reflexivity].
  now destruct (Val.get "result" data).
Qed.

Lemma rpc_envelope (c : rpc) :
  exists fields,
    snd (rpc_request c) = VObj fields
    /\ Val.assoc "jsonrpc" fields = VStr "2.0"
    /\ Val.assoc "id" fields = VNum (JS.of_Z 1)
    /\ Val.assoc "method" fields = VStr (rpc_method c)
    /\ (Val.assoc "params" fields = VUndefined <-> rpc_sends_params c = false).
Proof.
  destruct c; eexists; (split; [reflexivity|]); repeat split;
    try reflexivity; try discriminate.
Qed.

Lemma rpc_run_one_post (c : rpc) (w : world) :
  let '(url, envelope) := rpc_request c in
  rpc_run c w
  = (match oracle w (trace w) (Http "POST" url envelope) with
     | Reject e => Throw e
     | Resolve data =>
         match Val.get "result" data with
         | Some r => Ret r
         | None =>
             Throw (TypeError "Cannot read properties of undefined (reading 'result')")
         end
     end,
     with_trace (trace w ++ [Http "POST" url envelope]) w).
Proof.
  destruct c; cbn [rpc_request rpc_run]; first [apply post_run|apply shardeumRPC_run].
Qed.

(** C7, as the claim states it, fails twice on [getGasPrice]: the envelope
    it posts has no [params] field, and an answer that is a JSON-RPC error
    envelope makes it return [undefined], not fail. *)
Lemma getGasPrice_returns_undefined_on_rpc_error :
  let w := Scenario.start (fun _ _ => Scenario.rpc_error) in
  fst (ShardeumAPI.getGasPrice w) = Ret VUndefined
  /\ trace (snd (ShardeumAPI.getGasPrice w))
     = [Http "POST" ShardeumAPI.rpcUrl
          (VObj [ ("method", VStr "eth_gasPrice");
                  ("id", VNum (JS.of_Z 1));
                  ("jsonrpc", VStr "2.0") ])]
  /\ Val.field "params"
       (VObj [ ("method", VStr "eth_gasPrice");
               ("id", VNum (JS.of_Z 1));
               ("jsonrpc", VStr "2.0") ]) = VUndefined.
Proof. repeat split. Qed.

(** C7, amended.  Every chain RPC call makes exactly one HTTP POST, of an
    envelope that carries [jsonrpc: "2.0"], [id: 1] and [method]; the
    envelope carries [params] in the server's helper and in the client's
    calls that take arguments, and none in the client's [getChainId],
    [getGasPrice] and [getBlockNumber].  The call fails with the
    transport's error when the request is rejected, and otherwise returns
    the [result] property of the answer, which is [undefined] when the
    answer is a JSON-RPC error envelope; it is never repeated. *)
Theorem rpc_call_is_one_post (c : rpc) (w : world) :
  let r := fst (rpc_run c w) in
  let w' := snd (rpc_run c w) in
  exists url fields,
    calls_since w w' = [Http "POST" url (VObj fields)]
    /\ Val.assoc "jsonrpc" fields = VStr "2.0"
    /\ Val.assoc "id" fields = VNum (JS.of_Z 1)
    /\ Val.assoc "method" fields = VStr (rpc_method c)
    /\ (Val.assoc "params" fields = VUndefined <-> rpc_sends_params c = false)
    /\ match oracle w (trace w) (Http "POST" url (VObj fields)) with
       | Reject e => r = Throw e
       | Resolve (VObj answer) => r = Ret (Val.assoc "result" answer)
       | Resolve VUndefined | Resolve VNull => exists e, r = Throw e
       | Resolve _ => r = Ret VUndefined
       end.
Proof.
  intros r w'. pose proof (rpc_run_one_post c w) as Hrun.
  destruct (rpc_envelope c) as (fields & Henv & Hj & Hi & Hm & Hp).
  destruct (rpc_request c) as [url envelope]. cbn [snd] in Henv. subst envelope.
  exists url, fields. unfold r, w'. rewrite Hrun. cbn [fst snd].
  split; [now apply calls_since_app|]. repeat split; try assumption; try apply Hp.
  destruct (oracle w (trace w) (Http "POST" url (VObj fields))) as [data|e];
    [|reflexivity].
  destruct data; cbn [Val.get]; eauto.
Qed.

(** ** Event listeners (C8) *)

Lemma emit_on (event event' : string) (cb : handler) (w : world) :
  Provider.emit event' (Provider.on event cb w)
  = if bool_decide (event = event') then Provider.emit event w ++ [cb]
    else Provider.emit event' w.
Proof.
  unfold Provider.emit, Provider.on. cbn [listeners with_listeners].
  case_bool_decide as Hev.
  - subst event'. now rewrite lookup_insert_eq.
  - now rewrite lookup_insert_ne.
Qed.

Lemma emit_removeAllListeners (event event' : string) (w : world) :
  Provider.emit event' (Provider.removeAllListeners event w)
  = if bool_decide (event = event') then [] else Provider.emit event' w.
Proof.
  unfold Provider.emit, Provider.removeAllListeners. cbn [listeners with_listeners].
  case_bool_decide as Hev.
  - subst event'. now rewrite lookup_delete_eq.
  - now rewrite lookup_delete_ne.
Qed.

Lemma listeners_same_in_both_services :
  Web3Service.onAccountsChanged = ShardeumAPI.onAccountsChanged
  /\ Web3Service.onChainChanged = ShardeumAPI.onChainChanged
  /\ Web3Service.removeAllListeners = ShardeumAPI.removeAllListeners.
Proof. repeat split. Qed.

(** C8, as the claim states it, fails: subscribing again adds a second
    listener, and one [accountsChanged] event then runs the handler
    twice. *)
Lemma subscribing_twice_stacks_listeners :
  let w := ShardeumAPI.onAccountsChanged 7%nat
             (ShardeumAPI.onAccountsChanged 7%nat Scenario.on_shardeum) in
  Provider.emit "accountsChanged" Scenario.on_shardeum = []
  /\ Provider.emit "accountsChanged" w = [7%nat; 7%nat].
Proof. split; reflexivity. Qed.

(** C8, amended.  Subscribing adds one listener for its event kind and
    leaves the other kind alone; [removeAllListeners] leaves no listener
    of either kind; so a subscription made after [removeAllListeners] (as
    the wallet component does, which registers on mount and removes on
    unmount) leaves exactly one listener per kind, and one event runs the
    handler exactly once. *)
Theorem listeners_after_cleanup
    (w : world) (onAccounts onChain : handler) :
  ethereum w = true ->
  Provider.emit "accountsChanged" (ShardeumAPI.onAccountsChanged onAccounts w)
  = Provider.emit "accountsChanged" w ++ [onAccounts]
  /\ Provider.emit "chainChanged" (ShardeumAPI.onAccountsChanged onAccounts w)
     = Provider.emit "chainChanged" w
  /\ Provider.emit "chainChanged" (ShardeumAPI.onChainChanged onChain w)
     = Provider.emit "chainChanged" w ++ [onChain]
  /\ Provider.emit "accountsChanged" (ShardeumAPI.onChainChanged onChain w)
     = Provider.emit "accountsChanged" w
  /\ Provider.emit "accountsChanged" (ShardeumAPI.removeAllListeners w) = []
  /\ Provider.emit "chainChanged" (ShardeumAPI.removeAllListeners w) = []
  /\ Provider.emit "accountsChanged"
       (ShardeumAPI.onAccountsChanged onAccounts (ShardeumAPI.removeAllListeners w))
     = [onAccounts]
  /\ Provider.emit "accountsChanged"
       (WalletConnect.setupEventListeners onAccounts onChain (WalletConnect.cleanup w))
     = [onAccounts]
  /\ Provider.emit "chainChanged"
       (WalletConnect.setupEventListeners onAccounts onChain (WalletConnect.cleanup w))
     = [onChain].
Proof.
  intros Heth.
  assert (Hrm : ethereum (ShardeumAPI.removeAllListeners w) = true)
    by (unfold ShardeumAPI.removeAllListeners; now rewrite Heth).
  assert (Hacc : forall w0, ethereum w0 = true ->
                   ethereum (ShardeumAPI.onAccountsChanged onAccounts w0) = true)
    by (intros w0 H0; unfold ShardeumAPI.onAccountsChanged; now rewrite H0).
  assert (Hclean_a : Provider.emit "accountsChanged" (ShardeumAPI.removeAllListeners w) = []).
  { unfold ShardeumAPI.removeAllListeners. rewrite Heth.
    rewrite !emit_removeAllListeners. reflexivity. }
  assert (Hclean_c : Provider.emit "chainChanged" (ShardeumAPI.removeAllListeners w) = []).
  { unfold ShardeumAPI.removeAllListeners. rewrite Heth.
    rewrite !emit_removeAllListeners. reflexivity. }
  unfold WalletConnect.setupEventListeners, WalletConnect.cleanup.
  unfold ShardeumAPI.onChainChanged at 3 4.
  rewrite (Hacc _ Hrm).
  unfold ShardeumAPI.onAccountsChanged, ShardeumAPI.onChainChanged.
  rewrite Heth, Hrm. rewrite !emit_on.
  rewrite Hclean_a, Hclean_c.
  repeat split; reflexivity.
Qed.

Lemma listeners_after_cleanup_witness :
  Provider.emit "accountsChanged"
    (WalletConnect.setupEventListeners 1%nat 2%nat
       (WalletConnect.cleanup
          (WalletConnect.setupEventListeners 1%nat 2%nat Scenario.on_shardeum)))
  = [1%nat].
Proof.
  exact (proj1 (proj2 (proj2 (proj2 (proj2 (proj2 (proj2 (proj2
           (listeners_after_cleanup
              (WalletConnect.setupEventListeners 1%nat 2%nat Scenario.on_shardeum)
              1%nat 2%nat eq_refl))))))))).
Defined.

(** ** Numbers read from the chain (C9) *)

Lemma iter_xO_value (m k : positive) :
  Z.pos (Pos.iter xO m k) = Z.pos m * 2 ^ Z.pos k.
Proof.
  induction k as [|k IH] using Pos.peano_ind.
  - cbn [Pos.iter]. rewrite Pos2Z.inj_xO, Z.pow_1_r. ring.
  - rewrite Pos.iter_succ, Pos2Z.inj_xO, IH, Pos2Z.inj_succ, Z.pow_succ_r by lia.
    ring.
Qed.

Lemma iter_xO_digits (m k : positive) :
  Z.pos (digits2_pos (Pos.iter xO m k)) = Z.pos (digits2_pos m) + Z.pos k.
Proof.
  induction k as [|k IH] using Pos.peano_ind.
  - cbn [Pos.iter digits2_pos]. lia.
  - rewrite Pos.iter_succ. cbn [digits2_pos]. lia.
Qed.

Lemma digits2_log2 (m : positive) :
  Z.pos (digits2_pos m) = Z.log2 (Z.pos m) + 1.
Proof.
  assert (Hsize : forall p, digits2_pos p = Pos.size p)
    by (induction p as [p IH|p IH|]; cbn; now rewrite ?IH).
  destruct m as [p|p|]; cbn [digits2_pos Z.log2]; rewrite ?Hsize; lia.
Qed.

(** A mantissa that already has 53 bits is not shifted. *)
Lemma shr_fexp_full (m : positive) (e : Z) :
  Z.pos (digits2_pos m) = 53 -> -1074 <= e ->
  shr_fexp 53 1024 (Z.pos m) e loc_Exact
  = ({| shr_m := Z.pos m; shr_r := false; shr_s := false |}, e).
Proof.
  intros Hd He. unfold shr_fexp, fexp, emin, Zdigits2. rewrite Hd.
  replace (Z.max (53 + e - 53) (3 - 1024 - 53) - e) with 0 by lia.
  reflexivity.
Qed.

(** An integer of fewer than 54 bits is a double. *)
Lemma binary_round_exact (s : bool) (m : positive) :
  Z.pos m < 2 ^ 53 ->
  exists mz ez,
    binary_round 53 1024 s m 0 = S754_finite s mz ez
    /\ -52 <= ez <= 0
    /\ Z.pos mz = Z.pos m * 2 ^ (- ez).
Proof.
  intros Hm.
  assert (Hd : Z.pos (digits2_pos m) <= 53).
  { rewrite digits2_log2.
    assert (Z.log2 (Z.pos m) < 53) by (apply Z.log2_lt_pow2; lia). lia. }
  assert (Hd1 : 1 <= Z.pos (digits2_pos m)) by lia.
  unfold binary_round, fexp, emin.
  set (d := Z.pos (digits2_pos m)) in *.
  replace (Z.max (d + 0 - 53) (3 - 1024 - 53)) with (d - 53) by lia.
  assert (Halign : exists mz,
             shl_align m 0 (d - 53) = (mz, d - 53)
             /\ Z.pos mz = Z.pos m * 2 ^ (53 - d)
             /\ Z.pos (digits2_pos mz) = 53).
  { unfold shl_align. destruct (d - 53 - 0) as [|p|p] eqn:E; [|lia|].
    - exists m. replace (d - 53) with 0 by lia.
      replace (53 - d) with 0 by lia. fold d. split; [reflexivity|]. lia.
    - exists (Pos.iter xO m p).
      rewrite iter_xO_value, iter_xO_digits. fold d.
      replace (53 - d) with (Z.pos p) by lia. split; [reflexivity|]. lia. }
  destruct Halign as (mz & -> & Hmz & Hdz).
  exists mz, (d - 53).
  unfold binary_round_aux.
  rewrite (shr_fexp_full mz (d - 53) Hdz) by lia.
  cbn [shr_m loc_of_shr_record round_nearest_even].
  rewrite (shr_fexp_full mz (d - 53) Hdz) by lia.
  cbn [shr_m].
  replace (d - 53 <=? 1024 - 53) with true by (symmetry; apply Z.leb_le; lia).
  split; [reflexivity|]. split; [lia|].
  now replace (- (d - 53)) with (53 - d) by lia.
Qed.

Lemma of_Z_exact (z : Z) :
  Z.abs z < 2 ^ 53 -> JS.to_Z (JS.of_Z z) = Some z.
Proof.
  intros Hz. unfold JS.of_Z, JS.prec, JS.emax, binary_normalize.
  destruct z as [|m|m]; [reflexivity| |].
  - destruct (binary_round_exact false m) as (mz & ez & -> & He & Hmz); [exact Hz|].
    unfold JS.to_Z. rewrite Hmz.
    destruct (0 <=? ez) eqn:E.
    + apply Z.leb_le in E. replace ez with 0 by lia. cbn [option_map Z.opp Z.pow].
      f_equal. cbn. lia.
    + rewrite Z.mod_mul, Z.div_mul by (apply Z.pow_nonzero; lia).
      reflexivity.
  - destruct (binary_round_exact true m) as (mz & ez & -> & He & Hmz); [exact Hz|].
    unfold JS.to_Z. rewrite Hmz.
    destruct (0 <=? ez) eqn:E.
    + apply Z.leb_le in E. replace ez with 0 by lia. cbn [option_map Z.opp Z.pow].
      f_equal. cbn. lia.
    + rewrite Z.mod_mul, Z.div_mul by (apply Z.pow_nonzero; lia).
      reflexivity.
Qed.

Lemma value_acc_nonneg (base acc : Z) (l : list ascii) :
  0 <= base -> 0 <= acc -> 0 <= Digits.value_acc base acc l.
Proof.
  intros Hb. revert acc. induction l as [|c l IH]; intros acc Hacc; [exact Hacc|].
  cbn [Digits.value_acc]. apply IH.
  assert (0 <= Digits.digit_val c)
    by (destruct c as [[] [] [] [] [] [] [] []]; cbv; discriminate).
  nia.
Qed.

(** [parseInt(q, 16)] of a quantity: the double nearest to its value. *)
Lemma parseInt16_quantity (ds : list ascii) :
  ds <> [] -> forallb Digits.is_hex ds = true ->
  JS.parseInt16 (string_of_list_ascii ("0"%char :: "x"%char :: ds))
  = if Digits.value 16 ds =? 0 then S754_zero false
    else JS.of_Z (Digits.value 16 ds).
Proof.
  intros Hne Hhex. unfold JS.parseInt16.
  rewrite list_ascii_of_string_of_list_ascii.
  cbn [JS.trim_start].
  change (JS.is_space "0") with false. cbv iota.
  change (JS.take_sign ("0"%char :: "x"%char :: ds))
    with (false, "0"%char :: "x"%char :: ds).
  cbv iota beta. change (Ascii.eqb "x" "x") with true. cbn [orb].
  rewrite <- (app_nil_r ds) at 1.
  rewrite (span_all Digits.is_hex ds [] Hhex I).
  destruct ds; [now destruct Hne|]. reflexivity.
Qed.

Lemma fromWei_quantity (ds : list ascii) :
  ds <> [] -> forallb Digits.is_hex ds = true ->
  Units.fromWei (VStr (string_of_list_ascii ("0"%char :: "x"%char :: ds)))
  = Some (Units.fromBaseUnits (Digits.value 16 ds)).
Proof.
  intros Hne Hhex. unfold Units.fromWei.
  rewrite list_ascii_of_string_of_list_ascii, Hhex.
  destruct ds; [now destruct Hne|]. reflexivity.
Qed.

Lemma shardeumRPC_success (method : string) (params : list value)
    (result : value) (w : world) :
  oracle w (trace w) (server_call method params) = rpc_success result ->
  Server.shardeumRPC method params w
  = (Ret result, with_trace (trace w ++ [server_call method params]) w).
Proof.
  intros Ho. rewrite shardeumRPC_run. cbv zeta.
  fold (server_call method params). now rewrite Ho.
Qed.

Lemma json_number_defined (x : JS.number) :
  match Server.json_number x with VUndefined => false | _ => true end = true.
Proof. now destruct x. Qed.

(** A number that denotes an integer other than [-0] is sent as it is. *)
Lemma json_number_integer (x : JS.number) (v : Z) :
  JS.to_Z x = Some v -> x <> S754_zero true -> Server.json_number x = VNum x.
Proof.
  destruct x as [[]| | |]; cbn [JS.to_Z Server.json_number];
    try discriminate; congruence.
Qed.

Lemma get_network_run (w : world) (chainId blockNumber gasPrice : value) :
  (forall h, oracle w h (server_call "eth_chainId" []) = rpc_success chainId) ->
  (forall h, oracle w h (server_call "eth_blockNumber" []) = rpc_success blockNumber) ->
  (forall h, oracle w h (server_call "eth_gasPrice" []) = rpc_success gasPrice) ->
  fst (Server.get_network w)
  = Ret (200, Server.json_object
                [ ("chainId", chainId);
                  ("blockNumber", Server.json_number (Val.parseInt16 blockNumber));
                  ("gasPrice", Server.json_number (Val.parseInt16 gasPrice)) ]).
Proof.
  intros Hc Hb Hg. unfold Server.get_network, try_catch.
  unfold bind at 1. rewrite (shardeumRPC_success _ _ chainId) by apply Hc.
  unfold bind at 1. rewrite (shardeumRPC_success _ _ blockNumber) by apply Hb.
  unfold bind at 1. rewrite (shardeumRPC_success _ _ gasPrice) by apply Hg.
  reflexivity.
Qed.

(** An answer without a [result], as an error envelope is, gives
    [undefined]. *)
Lemma shardeumRPC_resolved (method : string) (params : list value)
    (data result : value) (w : world) :
  oracle w (trace w) (server_call method params) = Resolve data ->
  Val.get "result" data = Some result ->
  Server.shardeumRPC method params w
  = (Ret result, with_trace (trace w ++ [server_call method params]) w).
Proof.
  intros Ho Hresult. rewrite shardeumRPC_run. fold (server_call method params).
  now rewrite Ho, Hresult.
Qed.

Lemma get_network_without_results (w : world) (data : value) :
  Val.get "result" data = Some VUndefined ->
  (forall h method, oracle w h (server_call method []) = Resolve data) ->
  fst (Server.get_network w)
  = Ret (200, VObj [ ("blockNumber", VNull); ("gasPrice", VNull) ]).
Proof.
  intros Hresult Ho. unfold Server.get_network, try_catch.
  unfold bind at 1.
  rewrite (shardeumRPC_resolved _ _ data VUndefined) by (apply Ho || exact Hresult).
  unfold bind at 1.
  rewrite (shardeumRPC_resolved _ _ data VUndefined) by (apply Ho || exact Hresult).
  unfold bind at 1.
  rewrite (shardeumRPC_resolved _ _ data VUndefined) by (apply Ho || exact Hresult).
  reflexivity.
Qed.

Lemma get_nonce_without_result (w : world) (address : string) (data : value) :
  Val.get "result" data = Some VUndefined ->
  oracle w (trace w)
    (server_call "eth_getTransactionCount" [VStr address; VStr "latest"])
  = Resolve data ->
  fst (Server.get_nonce address w)
  = Ret (200, VObj [ ("address", VStr address); ("nonce", VNull) ]).
Proof.
  intros Hresult Ho. unfold Server.get_nonce, try_catch.
  unfold bind at 1.
  now rewrite (shardeumRPC_resolved _ _ data VUndefined) by assumption.
Qed.

Lemma get_nonce_run (w : world) (address : string) (nonce : value) :
  oracle w (trace w)
    (server_call "eth_getTransactionCount" [VStr address; VStr "latest"])
  = rpc_success nonce ->
  fst (Server.get_nonce address w)
  = Ret (200, VObj [ ("address", VStr address);
                     ("nonce", Server.json_number (Val.parseInt16 nonce)) ]).
Proof.
  intros Ho. unfold Server.get_nonce, try_catch.
  unfold bind at 1. now rewrite (shardeumRPC_success _ _ nonce) by exact Ho.
Qed.

Lemma get_balance_run (w : world) (address : string) (ds : list ascii) :
  ds <> [] -> forallb Digits.is_hex ds = true ->
  let q := VStr (string_of_list_ascii ("0"%char :: "x"%char :: ds)) in
  oracle w (trace w) (server_call "eth_getBalance" [VStr address; VStr "latest"])
  = rpc_success q ->
  fst (Server.get_balance address w)
  = Ret (200, VObj [ ("address", VStr address);
                     ("balance", VStr (Units.fromBaseUnits (Digits.value 16 ds)));
                     ("balanceWei", q) ]).
Proof.
  intros Hne Hhex q Ho. unfold Server.get_balance, try_catch.
  unfold bind at 1. rewrite (shardeumRPC_success _ _ q) by exact Ho.
  unfold q. now rewrite (fromWei_quantity ds Hne Hhex).
Qed.

Lemma await_bigint_run (c : call) (z : Z) (w : world) :
  (forall h, oracle w h c = Resolve (VBigInt z)) ->
  await_bigint c w = (Ret z, with_trace (trace w ++ [c]) w).
Proof.
  intros Ho. unfold await_bigint, bind, await. now rewrite Ho.
Qed.

Lemma getNetworkInfo_run (w : world) (chainId blockNumber gasPrice : Z) :
  web3 w = true ->
  (forall h, oracle w h Web3GetChainId = Resolve (VBigInt chainId)) ->
  (forall h, oracle w h Web3GetBlockNumber = Resolve (VBigInt blockNumber)) ->
  (forall h, oracle w h Web3GetGasPrice = Resolve (VBigInt gasPrice)) ->
  fst (Web3Service.getNetworkInfo w)
  = Ret (VObj [ ("chainId", VStr ("0x" +:+ JS.hex_string chainId));
                ("blockNumber", VNum (JS.of_Z blockNumber));
                ("gasPrice", VNum (JS.of_Z gasPrice)) ]).
Proof.
  intros Hweb Hc Hb Hg. unfold Web3Service.getNetworkInfo. rewrite Hweb.
  cbn [negb]. unfold try_catch.
  unfold bind at 1. rewrite (await_bigint_run _ chainId) by exact Hc.
  unfold bind at 1. rewrite (await_bigint_run _ blockNumber) by exact Hb.
  unfold bind at 1. rewrite (await_bigint_run _ gasPrice) by exact Hg.
  reflexivity.
Qed.

(** C9, as the claim states it, fails: the block number
    [0x20000000000001] ([2^53 + 1]) that the chain reports comes out of
    the server's [/api/network] as the double [2^53], and likewise out of
    [getNetworkInfo]. *)
Lemma block_number_above_2_53_is_rounded :
  Digits.value 16 (list_ascii_of_string "20000000000001") = 2 ^ 53 + 1
  /\ (exists chainId x gasPrice,
         fst (Server.get_network Scenario.on_shardeum)
         = Ret (200, VObj [ ("chainId", chainId);
                            ("blockNumber", VNum x);
                            ("gasPrice", gasPrice) ])
         /\ JS.to_Z x = Some (2 ^ 53))
  /\ (exists chainId x gasPrice,
         Scenario.cooperative "0x1f93" [] Web3GetBlockNumber
         = Resolve (VBigInt (2 ^ 53 + 1))
         /\ fst (Web3Service.getNetworkInfo Scenario.on_shardeum)
            = Ret (VObj [ ("chainId", chainId);
                          ("blockNumber", VNum x);
                          ("gasPrice", gasPrice) ])
         /\ JS.to_Z x = Some (2 ^ 53)).
Proof.
  split; [reflexivity|]. split.
  - do 3 eexists. split; vm_compute; reflexivity.
  - do 3 eexists. split; [reflexivity|]. split; vm_compute; reflexivity.
Qed.

(** C9, amended.  A quantity arrives as a [0x]-prefixed hexadecimal
    string.  The server reads block number, gas price and nonce with
    [parseInt(_, 16)], and [getNetworkInfo] converts its bigints with
    [Number(_)]: both give the same double, the one [Number] gives for
    the integer, which is the integer itself whenever it is below
    [2^53].  The server sends it as JSON: as it is when it denotes an
    integer, and [null] when the answer of the chain has no result.  The
    balance alone is converted exactly, as the decimal string of the
    integer over [10^18], and is also passed on unchanged. *)
Theorem chain_quantities_are_read_as_doubles :
  (forall ds : list ascii,
      ds <> [] -> forallb Digits.is_hex ds = true ->
      let q := string_of_list_ascii ("0"%char :: "x"%char :: ds) in
      let v := Digits.value 16 ds in
      JS.parseInt16 q = (if v =? 0 then S754_zero false else JS.of_Z v)
      /\ (v < 2 ^ 53 ->
          JS.to_Z (JS.parseInt16 q) = Some v
          /\ Server.json_number (JS.parseInt16 q) = VNum (JS.parseInt16 q))
      /\ Units.fromWei (VStr q) = Some (Units.fromBaseUnits v))
  /\ (forall z : Z, Z.abs z < 2 ^ 53 -> JS.to_Z (JS.of_Z z) = Some z)
  /\ (forall (w : world) (chainId : string) (block gas : list ascii),
        block <> [] -> forallb Digits.is_hex block = true ->
        gas <> [] -> forallb Digits.is_hex gas = true ->
        let blockNumber := string_of_list_ascii ("0"%char :: "x"%char :: block) in
        let gasPrice := string_of_list_ascii ("0"%char :: "x"%char :: gas) in
        (forall h, oracle w h (server_call "eth_chainId" [])
                   = rpc_success (VStr chainId)) ->
        (forall h, oracle w h (server_call "eth_blockNumber" [])
                   = rpc_success (VStr blockNumber)) ->
        (forall h, oracle w h (server_call "eth_gasPrice" [])
                   = rpc_success (VStr gasPrice)) ->
        fst (Server.get_network w)
        = Ret (200, VObj [ ("chainId", VStr chainId);
                           ("blockNumber",
                             Server.json_number (JS.parseInt16 blockNumber));
                           ("gasPrice",
                             Server.json_number (JS.parseInt16 gasPrice)) ]))
  /\ (forall (w : world) (data : value),
        Val.get "result" data = Some VUndefined ->
        (forall h method, oracle w h (server_call method []) = Resolve data) ->
        fst (Server.get_network w)
        = Ret (200, VObj [ ("blockNumber", VNull); ("gasPrice", VNull) ]))
  /\ (forall (w : world) (address : string) (ds : list ascii),
        ds <> [] -> forallb Digits.is_hex ds = true ->
        let q := VStr (string_of_list_ascii ("0"%char :: "x"%char :: ds)) in
        oracle w (trace w)
          (server_call "eth_getBalance" [VStr address; VStr "latest"])
        = rpc_success q ->
        fst (Server.get_balance address w)
        = Ret (200, VObj [ ("address", VStr address);
                           ("balance",
                             VStr (Units.fromBaseUnits (Digits.value 16 ds)));
                           ("balanceWei", q) ]))
  /\ (forall (w : world) (address : string) (ds : list ascii),
        ds <> [] -> forallb Digits.is_hex ds = true ->
        let nonce := string_of_list_ascii ("0"%char :: "x"%char :: ds) in
        oracle w (trace w)
          (server_call "eth_getTransactionCount" [VStr address; VStr "latest"])
        = rpc_success (VStr nonce) ->
        fst (Server.get_nonce address w)
        = Ret (200, VObj [ ("address", VStr address);
                           ("nonce", Server.json_number (JS.parseInt16 nonce)) ]))
  /\ (forall (w : world) (address : string) (data : value),
        Val.get "result" data = Some VUndefined ->
        oracle w (trace w)
          (server_call "eth_getTransactionCount" [VStr address; VStr "latest"])
        = Resolve data ->
        fst (Server.get_nonce address w)
        = Ret (200, VObj [ ("address", VStr address); ("nonce", VNull) ]))
  /\ (forall (w : world) (chainId blockNumber gasPrice : Z),
        web3 w = true ->
        (forall h, oracle w h Web3GetChainId = Resolve (VBigInt chainId)) ->
        (forall h, oracle w h Web3GetBlockNumber = Resolve (VBigInt blockNumber)) ->
        (forall h, oracle w h Web3GetGasPrice = Resolve (VBigInt gasPrice)) ->
        fst (Web3Service.getNetworkInfo w)
        = Ret (VObj [ ("chainId", VStr ("0x" +:+ JS.hex_string chainId));
                      ("blockNumber", VNum (JS.of_Z blockNumber));
                      ("gasPrice", VNum (JS.of_Z gasPrice)) ])).
Proof.
  split; [|split; [exact of_Z_exact|split; [|split;
           [exact get_network_without_results|split;
           [exact get_balance_run|split; [|split;
           [exact get_nonce_without_result|exact getNetworkInfo_run]]]]]]].
  - intros ds Hne Hhex q v.
    pose proof (parseInt16_quantity ds Hne Hhex) as Hparse. fold q v in Hparse.
    split; [exact Hparse|]. split; [|exact (fromWei_quantity ds Hne Hhex)].
    intros Hv.
    assert (Hexact : JS.to_Z (JS.parseInt16 q) = Some v).
    { rewrite Hparse. destruct (v =? 0) eqn:E.
      - apply Z.eqb_eq in E. now rewrite E.
      - apply of_Z_exact.
        assert (0 <= v) by (apply value_acc_nonneg; lia). lia. }
    split; [exact Hexact|].
    apply (json_number_integer _ v Hexact).
    intros Hzero. rewrite Hzero in Hexact, Hparse. cbn in Hexact.
    destruct (Z.eqb_spec v 0) as [_|Hv0]; [discriminate|congruence].
  - intros w chainId block gas _ _ _ _ blockNumber gasPrice Hc Hb Hg.
    rewrite (get_network_run w _ _ _ Hc Hb Hg).
    unfold Server.json_object. cbn [List.filter snd Val.parseInt16 Val.ToString].
    now rewrite !json_number_defined.
  - intros w address ds _ _ nonce Ho. exact (get_nonce_run w address _ Ho).
Qed.

Lemma chain_quantities_are_read_as_doubles_witness :
  JS.to_Z (JS.parseInt16 "0x1f93") = Some 8083
  /\ Units.fromWei (VStr "0x20000000000001") = Some "0.009007199254740993"
  /\ JS.to_Z (JS.of_Z 21000) = Some 21000.
Proof.
  destruct chain_quantities_are_read_as_doubles as (Hq & Hz & _).
  destruct (Hq (list_ascii_of_string "1f93")) as (_ & Hexact & _);
    [discriminate|reflexivity|].
  destruct (Hq (list_ascii_of_string "20000000000001")) as (_ & _ & Hwei);
    [discriminate|reflexivity|].
  split; [apply Hexact; reflexivity|].
  split; [exact Hwei|].
  apply Hz. reflexivity.
Defined.

(** ** Creator statistics (C10) *)

(** C10, as the claim states it, fails: a POST without a transaction
    hash and without a creator id is refused with status 400, and no
    record is appended. *)
Lemma tip_without_hash_is_refused :
  let body := VObj [ ("fromAddress", VStr Scenario.alice_address);
                     ("toAddress", VStr Scenario.bob_address);
                     ("amount", VStr "0.1");
                     ("txHash", VStr "") ] in
  Val.field "creatorId" body = VUndefined
  /\ Server.post_tips body Scenario.on_shardeum
     = ((400, VObj [("error", VStr "Missing required fields")]),
        Scenario.on_shardeum)
  /\ Store.transactions (store (snd (Server.post_tips body Scenario.on_shardeum)))
     = [].
Proof. repeat split. Qed.

(** C10, amended.  A POST whose [fromAddress] and [toAddress] are
    non-empty strings and whose [amount] and [txHash] are not empty is
    appended as a pending record and answered with status 201.  When its
    [creatorId] is absent or matches no creator, the creators are left as
    they are.  When it matches, the first creator with that id gets
    [tipCount + 1] and the new [totalTips]; its other fields and all other
    creators are unchanged. *)
Theorem tip_credits_only_the_matching_creator
    (body : value) (w : world) (from to : string) :
  Val.field "fromAddress" body = VStr from -> from <> "" ->
  Val.field "toAddress" body = VStr to -> to <> "" ->
  Val.truthy (Val.field "amount" body) = true ->
  Val.truthy (Val.field "txHash" body) = true ->
  let amount := Val.field "amount" body in
  let creatorId := Val.field "creatorId" body in
  let before := Store.creators (store w) in
  let after := Store.creators (store (snd (Server.post_tips body w))) in
  (exists t,
      fst (Server.post_tips body w) = (201, Server.tip_json t)
      /\ Store.transactions (store (snd (Server.post_tips body w)))
         = Store.transactions (store w) ++ [t]
      /\ Store.status t = "pending"
      /\ Store.txHash t = Val.field "txHash" body
      /\ Store.creatorId t = creatorId)
  /\ (Val.truthy creatorId = false
      \/ (forall c, In c before -> Val.is_string (Store.id c) creatorId = false) ->
      after = before)
  /\ (forall (i : nat) (c : Store.creator),
        before !! i = Some c ->
        creatorId = VStr (Store.id c) -> Store.id c <> "" ->
        (forall (j : nat) (c' : Store.creator),
            (j < i)%nat -> before !! j = Some c' -> Store.id c' <> Store.id c) ->
        after = <[ i := Server.credit amount c ]> before
        /\ after !! i = Some (Server.credit amount c)
        /\ (forall j : nat, j <> i -> after !! j = before !! j)
        /\ length after = length before
        /\ Store.id (Server.credit amount c) = Store.id c
        /\ Store.name (Server.credit amount c) = Store.name c
        /\ Store.address (Server.credit amount c) = Store.address c
        /\ Store.description (Server.credit amount c) = Store.description c
        /\ Store.avatar (Server.credit amount c) = Store.avatar c
        /\ Store.tipCount (Server.credit amount c)
           = JS.add (Store.tipCount c) (JS.of_Z 1)
        /\ Store.totalTips (Server.credit amount c)
           = JS.Number_toString
               (JS.add (JS.parseFloat (Store.totalTips c)) (Val.parseFloat amount))).
Proof.
  intros Hf Hfne Ht Htne Ha Hh amount creatorId before after.
  pose proof (post_tips_accepted body w from to Hf Hfne Ht Htne Ha Hh) as Hrun.
  cbv zeta in Hrun. fold amount creatorId before in Hrun.
  unfold after. rewrite Hrun. cbn [fst snd store with_store Store.creators Store.transactions].
  split; [eexists; repeat split|]. split.
  - intros [Hfalsy|Hnone]; [now rewrite Hfalsy|].
    destruct (Val.truthy creatorId); [|reflexivity].
    destruct (list_find _ before) as [[i c]|] eqn:Hfind; [|reflexivity].
    apply list_find_Some in Hfind. destruct Hfind as (Hi & Hc & _).
    apply list_elem_of_lookup_2, list_elem_of_In in Hi.
    rewrite (Hnone c Hi) in Hc. now destruct Hc.
  - intros i c Hi Hid Hne Hfirst.
    assert (Htruthy : Val.truthy creatorId = true).
    { rewrite Hid. cbn [Val.truthy].
      destruct (String.eqb_spec (Store.id c) "") as [E|_]; [now destruct Hne|reflexivity]. }
    rewrite Htruthy.
    assert (Hfind : list_find
                      (fun c0 => Is_true (Val.is_string (Store.id c0) creatorId)) before
                    = Some (i, c)).
    { apply list_find_Some. split; [exact Hi|]. split.
      - rewrite Hid. cbn [Val.is_string]. now rewrite String.eqb_refl.
      - intros j c' Hj Hlt Hmatch. rewrite Hid in Hmatch. cbn [Val.is_string] in Hmatch.
        apply Is_true_true, String.eqb_eq in Hmatch.
        exact (Hfirst j c' Hlt Hj (eq_sym Hmatch)). }
    rewrite Hfind.
    pose proof (lookup_lt_Some _ _ _ Hi) as Hlen.
    repeat split; try reflexivity.
    + now apply list_lookup_insert_eq.
    + intros j Hj. apply list_lookup_insert_ne. congruence.
    + apply length_insert.
Qed.

Lemma tip_credits_only_the_matching_creator_witness :
  let body := VObj [ ("fromAddress", VStr Scenario.alice_address);
                     ("toAddress", VStr Scenario.bob_address);
                     ("amount", VStr "0.1");
                     ("txHash", VStr "0xabc123");
                     ("creatorId", VStr "2") ] in
  let after := Store.creators (store (snd (Server.post_tips body Scenario.on_shardeum))) in
  after !! 1%nat = Some (Server.credit (VStr "0.1") Scenario.bob)
  /\ after !! 0%nat = Store.creators Store.initial !! 0%nat
  /\ Store.totalTips (Server.credit (VStr "0.1") Scenario.bob) = "0.1".
Proof.
  intros body after.
  destruct (tip_credits_only_the_matching_creator body Scenario.on_shardeum
              Scenario.alice_address Scenario.bob_address
              eq_refl ltac:(discriminate) eq_refl ltac:(discriminate)
              eq_refl eq_refl) as (_ & _ & Hmatch).
  destruct (Hmatch 1%nat Scenario.bob eq_refl eq_refl ltac:(discriminate))
    as (_ & Hi & Hother & _).
  - intros [|j] c' Hlt Hj; [|lia]. injection Hj as <-. discriminate.
  - split; [exact Hi|]. split; [apply Hother; discriminate|].
    vm_compute. reflexivity.
Defined.

(* ====================================================================== *)
(** * Further properties of the code                                       *)
(* ====================================================================== *)

(** ** The creator registry *)

Lemma find_app_fresh (id : string) (l : list Store.creator) (c : Store.creator) :
  (forall c0, In c0 l -> Store.id c0 <> id) ->
  Store.id c = id ->
  List.find (fun c0 => String.eqb (Store.id c0) id) (l ++ [c]) = Some c.
Proof.
  intros Hfresh Hid. induction l as [|c0 l IH]; cbn [app List.find].
  - rewrite Hid, String.eqb_refl. reflexivity.
  - destruct (String.eqb_spec (Store.id c0) id) as [E|_].
    + now destruct (Hfresh c0 (or_introl eq_refl)).
    + apply IH. intros c1 H1. apply Hfresh. now right.
Qed.

Lemma find_app_taken (id : string) (l r : list Store.creator) (c0 : Store.creator) :
  List.find (fun c => String.eqb (Store.id c) id) l = Some c0 ->
  List.find (fun c => String.eqb (Store.id c) id) (l ++ r) = Some c0.
Proof.
  induction l as [|c l IH]; cbn [app List.find]; [discriminate|].
  destruct (String.eqb (Store.id c) id); auto.
Qed.

(** X1. A POST to [/api/creators] whose body lacks a truthy [name],
    [address] or [description] is answered 400 and changes nothing.  With
    the three truthy and an [address] that is not a string, the call of
    [toLowerCase] throws: the answer is 500 and nothing changes.  With
    the three truthy and a string for [address] it is answered 201 and
    appends one creator, with name and description as sent, the address
    in lower case and statistics at zero; a GET of [/api/creators/:id]
    with the id of the answer then returns that creator when no earlier
    creator has the id, and returns the earlier creator when one has (the
    id is the time of the request). *)
Theorem created_creator_can_be_looked_up (body : value) (w : world) :
  let name := Val.field "name" body in
  let address := Val.field "address" body in
  let description := Val.field "description" body in
  let resp := fst (Server.post_creators body w) in
  let w' := snd (Server.post_creators body w) in
  (Val.truthy name && Val.truthy address && Val.truthy description = false ->
   resp = Server.missing_fields /\ w' = w)
  /\ (Val.truthy name && Val.truthy address && Val.truthy description = true ->
      (forall a, address <> VStr a) ->
      resp = (500, VStr "Internal Server Error") /\ w' = w)
  /\ (forall a,
        Val.truthy name = true -> address = VStr a -> a <> "" ->
        Val.truthy description = true ->
        let c := Store.Creator (JS.decimal_string (date_now w)) name
                   (JS.toLowerCase a) description
                   ("https://api.dicebear.com/7.x/avataaars/svg?seed="
                      +:+ Val.ToString name)
                   "0" (JS.of_Z 0) in
        resp = (201, Server.creator_json c)
        /\ Store.creators (store w') = Store.creators (store w) ++ [c]
        /\ Store.transactions (store w') = Store.transactions (store w)
        /\ ((forall c0, In c0 (Store.creators (store w)) ->
                        Store.id c0 <> Store.id c) ->
            Server.get_creator (Store.id c) w' = (200, Server.creator_json c))
        /\ (forall c0,
              List.find (fun x => String.eqb (Store.id x) (Store.id c))
                        (Store.creators (store w)) = Some c0 ->
              Server.get_creator (Store.id c) w' = (200, Server.creator_json c0))).
Proof.
  intros name address description resp w'.
  split; [|split].
  - intros Hmissing.
    unfold resp, w', Server.post_creators. fold name address description.
    destruct (Val.truthy name), (Val.truthy address), (Val.truthy description);
      try discriminate Hmissing; now split.
  - intros Hall Hother.
    unfold resp, w', Server.post_creators. fold name address description.
    destruct (Val.truthy name), (Val.truthy address), (Val.truthy description);
      try discriminate Hall.
    cbn [negb orb]. destruct address as [| | | | |a| |]; try (now split).
    now destruct (Hother a).
  - intros a Hn Ha Hne Hd c.
    unfold resp, w', Server.post_creators. fold name address description.
    fold c. rewrite Hn, Hd. subst c. rewrite Ha.
    set (c := Store.Creator _ _ _ _ _ _ _).
    cbn [Val.truthy Val.toLowerCase].
    destruct (String.eqb_spec a "") as [E|_]; [now destruct Hne|].
    cbn [negb orb fst snd store with_store Store.creators Store.transactions].
    fold c. repeat split.
    + intros Hfresh. unfold Server.get_creator.
      cbn [store with_store Store.creators].
      now rewrite (find_app_fresh (Store.id c) _ c Hfresh eq_refl).
    + intros c0 Hfind. unfold Server.get_creator.
      cbn [store with_store Store.creators].
      now rewrite (find_app_taken _ _ [c] c0 Hfind).
Qed.

Lemma created_creator_can_be_looked_up_witness :
  let body := VObj [ ("name", VStr "Eve"); ("address", VStr "0xABCDEF");
                     ("description", VStr "Writer") ] in
  let w' := snd (Server.post_creators body Scenario.on_shardeum) in
  (exists c,
      Server.get_creator "1700000000000" w' = (200, Server.creator_json c)
      /\ Store.address c = "0xabcdef")
  /\ Server.post_creators
       (VObj [ ("name", VStr "Eve"); ("address", VNum (JS.of_Z 7));
               ("description", VStr "Writer") ]) Scenario.on_shardeum
     = ((500, VStr "Internal Server Error"), Scenario.on_shardeum).
Proof.
  intros body w'. split.
  - destruct (created_creator_can_be_looked_up body Scenario.on_shardeum)
      as (_ & _ & Hok).
    destruct (Hok "0xABCDEF" eq_refl eq_refl ltac:(discriminate) eq_refl)
      as (_ & _ & _ & Hfresh & _).
    eexists. split; [apply Hfresh|reflexivity].
    intros c0 [<-|[<-|[]]]; discriminate.
  - destruct (created_creator_can_be_looked_up
                (VObj [ ("name", VStr "Eve"); ("address", VNum (JS.of_Z 7));
                        ("description", VStr "Writer") ]) Scenario.on_shardeum)
      as (_ & Hthrows & _).
    destruct (Hthrows eq_refl ltac:(discriminate)) as (Hresp & Hw).
    apply injective_projections; [exact Hresp|exact Hw].
Defined.

Lemma get_creator_not_found (id : string) (w : world) :
  fst (Server.get_creator id w) = 404
  <-> ~ In id (map Store.id (Store.creators (store w))).
Proof.
  unfold Server.get_creator.
  induction (Store.creators (store w)) as [|c l IH]; cbn [List.find map In].
  - split; [tauto|reflexivity].
  - destruct (String.eqb_spec (Store.id c) id) as [E|E].
    + cbn [fst]. split; [discriminate|]. intros H. destruct H. now left.
    + rewrite IH. tauto.
Qed.

Lemma map_insert_same {A B} (f : A -> B) (l : list A) (i : nat) (x y : A) :
  l !! i = Some y -> f x = f y -> map f (<[ i := x ]> l) = map f l.
Proof.
  revert i. induction l as [|a l IH]; intros [|i] Hi Hf; try discriminate.
  - cbn in Hi. injection Hi as ->. cbn. now rewrite Hf.
  - cbn. f_equal. now apply IH.
Qed.

(** The creators after a tip: the same list, or one of them credited. *)
Lemma post_tips_creators (body : value) (w : world) :
  let after := Store.creators (store (snd (Server.post_tips body w))) in
  after = Store.creators (store w)
  \/ exists (i : nat) (c : Store.creator),
       Store.creators (store w) !! i = Some c
       /\ after = <[ i := Server.credit (Val.field "amount" body) c ]>
                    (Store.creators (store w)).
Proof.
  unfold Server.post_tips.
  destruct (negb (Val.truthy (Val.field "fromAddress" body))
            || negb (Val.truthy (Val.field "toAddress" body))
            || negb (Val.truthy (Val.field "amount" body))
            || negb (Val.truthy (Val.field "txHash" body))); [now left|].
  destruct (Val.toLowerCase (Val.field "fromAddress" body)); [|now left].
  destruct (Val.toLowerCase (Val.field "toAddress" body)); [|now left].
  cbn [snd store with_store Store.creators].
  destruct (Val.truthy (Val.field "creatorId" body)); [|now left].
  destruct (list_find _ (Store.creators (store w))) as [[i c]|] eqn:Hfind;
    [|now left].
  apply list_find_Some in Hfind. destruct Hfind as (Hi & _).
  right. eauto.
Qed.

(** X2. A GET of [/api/creators/:id] is answered 404 exactly when no
    creator has the id.  Recording a tip never adds, removes, reorders
    or renames a creator: the ids, names, addresses, descriptions and
    avatars of the creators are the same after any POST to [/api/tips],
    and so is the set of ids that can be looked up. *)
Theorem tips_keep_the_creator_registry (body : value) (id : string) (w : world) :
  let w' := snd (Server.post_tips body w) in
  (fst (Server.get_creator id w) = 404 <->
   forall c, In c (Store.creators (store w)) -> Store.id c <> id)
  /\ map Store.id (Store.creators (store w'))
     = map Store.id (Store.creators (store w))
  /\ map Store.name (Store.creators (store w'))
     = map Store.name (Store.creators (store w))
  /\ map Store.address (Store.creators (store w'))
     = map Store.address (Store.creators (store w))
  /\ map Store.description (Store.creators (store w'))
     = map Store.description (Store.creators (store w))
  /\ map Store.avatar (Store.creators (store w'))
     = map Store.avatar (Store.creators (store w))
  /\ (fst (Server.get_creator id w') = 404 <-> fst (Server.get_creator id w) = 404).
Proof.
  intros w'.
  assert (Hframe : forall B (f : Store.creator -> B),
             (forall amount c, f (Server.credit amount c) = f c) ->
             map f (Store.creators (store w')) = map f (Store.creators (store w))).
  { intros B f Hf. destruct (post_tips_creators body w) as [E|(i & c & Hi & E)];
      fold w' in E; rewrite E; [reflexivity|].
    now apply (map_insert_same f _ i _ c). }
  split.
  - rewrite get_creator_not_found, in_map_iff. split.
    + intros Hno c Hc E. apply Hno. eauto.
    + intros Hno (c & E & Hc). exact (Hno c Hc E).
  - repeat split; try (apply Hframe; reflexivity).
    + rewrite !get_creator_not_found, (Hframe _ Store.id) by reflexivity. tauto.
    + rewrite !get_creator_not_found, (Hframe _ Store.id) by reflexivity. tauto.
Qed.

(** ** The tip history *)

Lemma lower_idempotent (c : ascii) : JS.lower (JS.lower c) = JS.lower c.
Proof. destruct c as [[] [] [] [] [] [] [] []]; reflexivity. Qed.

Lemma toLowerCase_idempotent (s : string) :
  JS.toLowerCase (JS.toLowerCase s) = JS.toLowerCase s.
Proof.
  unfold JS.toLowerCase. rewrite list_ascii_of_string_of_list_ascii, map_map.
  f_equal. apply map_ext. exact lower_idempotent.
Qed.

Lemma insert_permutation (compare : Store.tip -> Store.tip -> JS.number)
    (x : Store.tip) (l : list Store.tip) :
  Permutation (Server.insert_by compare x l) (x :: l).
Proof.
  induction l as [|y r IH]; cbn [Server.insert_by]; [reflexivity|].
  destruct (JS.gtb (compare x y) (JS.of_Z 0)); [|reflexivity].
  rewrite IH. apply perm_swap.
Qed.

Lemma sort_permutation (compare : Store.tip -> Store.tip -> JS.number)
    (l : list Store.tip) :
  Permutation (Server.sort compare l) l.
Proof.
  induction l as [|x l IH]; cbn [Server.sort fold_right]; [reflexivity|].
  fold (Server.sort compare l). rewrite insert_permutation. now constructor.
Qed.

Lemma involves_iff (address : string) (t : Store.tip) :
  Server.involves address t = true
  <-> Store.fromAddress t = JS.toLowerCase address
      \/ Store.toAddress t = JS.toLowerCase address.
Proof.
  unfold Server.involves. rewrite orb_true_iff, !String.eqb_eq. tauto.
Qed.

Lemma involves_same_lower_case (address address' : string) :
  JS.toLowerCase address' = JS.toLowerCase address ->
  forall t, Server.involves address' t = Server.involves address t.
Proof. intros E t. unfold Server.involves. now rewrite E. Qed.

(** X3. [GET /api/history/:address] answers 200 with the stored tips
    whose sender or recipient is the lower-cased address of the request:
    each of them once for each time it is stored, no other, in some
    order.  The letter case of the address in the request makes no
    difference, and a tip whose stored addresses are not lower case is
    never listed. *)
Theorem history_lists_the_tips_of_an_address
    (Date_value : string -> JS.number) (address : string) (w : world) :
  exists l,
    Server.get_history Date_value address w = (200, VArr (map Server.tip_json l))
    /\ Permutation l
         (List.filter (Server.involves address) (Store.transactions (store w)))
    /\ (forall t, In t l <->
                  In t (Store.transactions (store w))
                  /\ (Store.fromAddress t = JS.toLowerCase address
                      \/ Store.toAddress t = JS.toLowerCase address))
    /\ (forall t, In t l ->
                  Store.fromAddress t = JS.toLowerCase (Store.fromAddress t)
                  \/ Store.toAddress t = JS.toLowerCase (Store.toAddress t))
    /\ (forall address',
           JS.toLowerCase address' = JS.toLowerCase address ->
           Server.get_history Date_value address' w
           = Server.get_history Date_value address w).
Proof.
  eexists. split; [reflexivity|].
  pose proof (sort_permutation (Server.newest_first Date_value)
                (List.filter (Server.involves address) (Store.transactions (store w))))
    as Hperm.
  split; [exact Hperm|].
  assert (Hin : forall t,
             In t (Server.sort (Server.newest_first Date_value)
                     (List.filter (Server.involves address)
                        (Store.transactions (store w))))
             <-> In t (Store.transactions (store w))
                 /\ (Store.fromAddress t = JS.toLowerCase address
                     \/ Store.toAddress t = JS.toLowerCase address)).
  { intros t. rewrite <- involves_iff, <- filter_In. split; intros H.
    - eapply Permutation_in; [exact Hperm|exact H].
    - eapply Permutation_in; [symmetry; exact Hperm|exact H]. }
  split; [exact Hin|]. split.
  - intros t Ht. apply Hin in Ht. destruct Ht as (_ & [E|E]); [left|right];
      rewrite E; symmetry; apply toLowerCase_idempotent.
  - intros address' E. unfold Server.get_history.
    now rewrite (filter_ext _ _ (involves_same_lower_case address address' E)).
Qed.

Lemma filter_permutation {A} (p : A -> bool) (l l' : list A) :
  Permutation l l' -> Permutation (List.filter p l) (List.filter p l').
Proof.
  induction 1 as [|x l l' _ IH|x y l|l l' l'' _ IH1 _ IH2]; cbn [List.filter].
  - reflexivity.
  - destruct (p x); [now constructor|exact IH].
  - destruct (p x), (p y); try reflexivity. apply perm_swap.
  - now rewrite IH1.
Qed.

(** X4. [GET /api/transactions] answers 200 with every stored tip, each
    as often as it is stored.  It sorts the array of the server itself:
    afterwards the tips are stored in the order of the answer.  The
    creators are untouched, no request leaves the server, and a history
    request made afterwards lists the same tips as one made before. *)
Theorem all_transactions_sorts_the_store
    (Date_value : string -> JS.number) (w : world) :
  let w' := snd (Server.get_transactions Date_value w) in
  exists l,
    fst (Server.get_transactions Date_value w) = (200, VArr (map Server.tip_json l))
    /\ Permutation l (Store.transactions (store w))
    /\ length l = length (Store.transactions (store w))
    /\ Store.transactions (store w') = l
    /\ Store.creators (store w') = Store.creators (store w)
    /\ trace w' = trace w
    /\ (forall address, exists l1 l2,
           Server.get_history Date_value address w
           = (200, VArr (map Server.tip_json l1))
           /\ Server.get_history Date_value address w'
              = (200, VArr (map Server.tip_json l2))
           /\ Permutation l1 l2).
Proof.
  intros w'. eexists. split; [reflexivity|].
  pose proof (sort_permutation (Server.newest_first Date_value)
                (Store.transactions (store w))) as Hperm.
  split; [exact Hperm|]. split; [now apply Permutation_length|].
  split; [reflexivity|]. split; [reflexivity|]. split; [reflexivity|].
  intros address. do 2 eexists. split; [reflexivity|]. split; [reflexivity|].
  cbn [w' Server.get_transactions snd store with_store Store.transactions].
  rewrite !sort_permutation. apply filter_permutation. now symmetry.
Qed.

(** X5. A tip that [POST /api/tips] accepts is found afterwards in the
    history of its sender and in the history of its recipient, however
    the address of the history request is capitalised, and in no other
    history; each of the two histories has one entry more than
    before. *)
Theorem recorded_tip_appears_in_both_histories
    (Date_value : string -> JS.number) (body : value) (w : world)
    (from to : string) :
  Val.field "fromAddress" body = VStr from -> from <> "" ->
  Val.field "toAddress" body = VStr to -> to <> "" ->
  Val.truthy (Val.field "amount" body) = true ->
  Val.truthy (Val.field "txHash" body) = true ->
  let w' := snd (Server.post_tips body w) in
  let t := Store.Tip (JS.decimal_string (date_now w))
             (JS.toLowerCase from) (JS.toLowerCase to)
             (Val.field "amount" body) (Val.field "txHash" body)
             (Val.field "creatorId" body) (date_iso w) "pending" in
  fst (Server.post_tips body w) = (201, Server.tip_json t)
  /\ forall address, exists before after,
       Server.get_history Date_value address w
       = (200, VArr (map Server.tip_json before))
       /\ Server.get_history Date_value address w'
          = (200, VArr (map Server.tip_json after))
       /\ (JS.toLowerCase address = JS.toLowerCase from
           \/ JS.toLowerCase address = JS.toLowerCase to ->
           Permutation after (t :: before)
           /\ In t after
           /\ length after = S (length before))
       /\ (JS.toLowerCase address <> JS.toLowerCase from ->
           JS.toLowerCase address <> JS.toLowerCase to ->
           Permutation after before).
Proof.
  intros Hf Hfne Ht Htne Ha Hh w' t.
  pose proof (post_tips_accepted body w from to Hf Hfne Ht Htne Ha Hh) as Hrun.
  cbv zeta in Hrun. fold t in Hrun.
  split; [now rewrite Hrun|].
  intros address. do 2 eexists. split; [reflexivity|]. split; [reflexivity|].
  unfold w'. rewrite Hrun. cbn [snd store with_store Store.transactions].
  rewrite filter_app. cbn [List.filter].
  set (old := List.filter (Server.involves address) (Store.transactions (store w))).
  pose proof (sort_permutation (Server.newest_first Date_value) old) as Hold.
  split.
  - intros Hinv.
    assert (E : Server.involves address t = true).
    { apply involves_iff. cbn [t Store.fromAddress Store.toAddress].
      destruct Hinv as [E|E]; rewrite E; auto. }
    rewrite E.
    pose proof (sort_permutation (Server.newest_first Date_value) (old ++ [t]))
      as Hnew.
    assert (Hperm : Permutation
                      (Server.sort (Server.newest_first Date_value) (old ++ [t]))
                      (t :: Server.sort (Server.newest_first Date_value) old)).
    { etransitivity; [exact Hnew|].
      etransitivity; [symmetry; apply Permutation_cons_append|].
      constructor. now symmetry. }
    split; [exact Hperm|]. split.
    + eapply Permutation_in; [symmetry; exact Hperm|now left].
    + now rewrite (Permutation_length Hperm).
  - intros Hn1 Hn2.
    assert (E : Server.involves address t = false).
    { apply not_true_is_false. rewrite involves_iff.
      cbn [t Store.fromAddress Store.toAddress]. intros [E|E]; congruence. }
    rewrite E, app_nil_r. reflexivity.
Qed.

Lemma recorded_tip_appears_in_both_histories_witness :
  let body := VObj [ ("fromAddress", VStr Scenario.alice_address);
                     ("toAddress", VStr Scenario.bob_address);
                     ("amount", VStr "0.1");
                     ("txHash", VStr "0xabc123");
                     ("creatorId", VStr "2") ] in
  let w' := snd (Server.post_tips body Scenario.on_shardeum) in
  exists before after,
    Server.get_history (fun _ => JS.of_Z 0)
      "0xaaaaaaaaaaaaaaaaaaaaaaaaaaaaaaaaaaaaaaaa" Scenario.on_shardeum
    = (200, VArr (map Server.tip_json before))
    /\ Server.get_history (fun _ => JS.of_Z 0)
         "0xaaaaaaaaaaaaaaaaaaaaaaaaaaaaaaaaaaaaaaaa" w'
       = (200, VArr (map Server.tip_json after))
    /\ length after = S (length before).
Proof.
  intros body w'.
  destruct (recorded_tip_appears_in_both_histories (fun _ => JS.of_Z 0) body
              Scenario.on_shardeum Scenario.alice_address Scenario.bob_address
              eq_refl ltac:(discriminate) eq_refl ltac:(discriminate)
              eq_refl eq_refl) as (_ & Hhist).
  destruct (Hhist "0xaaaaaaaaaaaaaaaaaaaaaaaaaaaaaaaaaaaaaaaa")
    as (before & after & Hb & Ha & Hin & _).
  exists before, after. split; [exact Hb|]. split; [exact Ha|].
  apply Hin. left. reflexivity.
Defined.

(** ** The routes that ask the chain *)

Lemma with_trace_app (w : world) (a b : list call) :
  with_trace (trace (with_trace (trace w ++ a) w) ++ b)
    (with_trace (trace w ++ a) w)
  = with_trace (trace w ++ (a ++ b)) w.
Proof. unfold with_trace. cbn. now rewrite app_assoc. Qed.

Lemma shardeumRPC_cases (method : string) (params : list value) (w : world) :
  let c := server_call method params in
  let w1 := with_trace (trace w ++ [c]) w in
  (rpc_throws (oracle w (trace w) c) = true
   /\ exists e, Server.shardeumRPC method params w = (Throw e, w1))
  \/ (rpc_throws (oracle w (trace w) c) = false
      /\ exists x, Server.shardeumRPC method params w = (Ret x, w1)).
Proof.
  intros c w1. rewrite shardeumRPC_run. fold (server_call method params).
  fold c. fold w1. unfold rpc_throws.
  destruct (oracle w (trace w) c) as [data|e]; [|left; eauto].
  destruct (Val.get "result" data); [right|left]; eauto.
Qed.

Lemma calls_until_failure_first (o : list call -> call -> response)
    (todo h : list call) (k : nat) (c : call) :
  todo !! k = Some c ->
  rpc_throws (o (h ++ take k todo) c) = true ->
  (forall j c', (j < k)%nat -> todo !! j = Some c' ->
                rpc_throws (o (h ++ take j todo) c') = false) ->
  calls_until_failure o h todo = (take (S k) todo, true).
Proof.
  revert h k. induction todo as [|c0 rest IH]; intros h k Hk Hthrows Hbefore;
    [discriminate|].
  destruct k as [|k]; cbn [calls_until_failure].
  - injection Hk as ->. cbn [take] in Hthrows. rewrite app_nil_r in Hthrows.
    now rewrite Hthrows.
  - pose proof (Hbefore 0%nat c0 ltac:(lia) eq_refl) as H0.
    cbn [take] in H0. rewrite app_nil_r in H0. rewrite H0.
    rewrite (IH (h ++ [c0]) k); [reflexivity|exact Hk| |].
    + rewrite <- app_assoc. exact Hthrows.
    + intros j c' Hj Hc'. rewrite <- app_assoc.
      apply (Hbefore (S j) c'); [lia|exact Hc'].
Qed.

Lemma calls_until_failure_none (o : list call -> call -> response)
    (todo h : list call) :
  (forall k c, todo !! k = Some c ->
               rpc_throws (o (h ++ take k todo) c) = false) ->
  calls_until_failure o h todo = (todo, false).
Proof.
  revert h. induction todo as [|c0 rest IH]; intros h Hnone; [reflexivity|].
  cbn [calls_until_failure].
  pose proof (Hnone 0%nat c0 eq_refl) as H0.
  cbn [take] in H0. rewrite app_nil_r in H0. rewrite H0.
  rewrite (IH (h ++ [c0])); [reflexivity|].
  intros k c Hk. rewrite <- app_assoc. exact (Hnone (S k) c Hk).
Qed.

Lemma calls_until_failure_prefix (o : list call -> call -> response)
    (todo h : list call) :
  fst (calls_until_failure o h todo) `prefix_of` todo
  /\ (todo <> [] -> fst (calls_until_failure o h todo) <> [])
  /\ (snd (calls_until_failure o h todo) = false ->
      fst (calls_until_failure o h todo) = todo).
Proof.
  revert h. induction todo as [|c0 rest IH]; intros h; cbn [calls_until_failure].
  - now repeat split.
  - destruct (rpc_throws (o h c0)).
    + cbn [fst snd]. split; [now exists rest|]. split; [discriminate|discriminate].
    + destruct (IH (h ++ [c0])) as (Hp & _ & Hall).
      destruct (calls_until_failure o (h ++ [c0]) rest) as [cs thrown].
      cbn [fst snd] in *. split; [now apply prefix_cons|].
      split; [discriminate|]. intros ->. now rewrite Hall.
Qed.

(** A route makes its calls up to the first that throws, answers 500
    when there is one, and 200 otherwise; the balance route alone can
    still fail after its call, when the conversion throws. *)
Lemma chain_route_run_until_failure (r : chain_route) (w : world) :
  let cf := calls_until_failure (oracle w) (trace w) (chain_route_calls r) in
  exists resp,
    chain_route_run r w = (Ret resp, with_trace (trace w ++ fst cf) w)
    /\ (snd cf = true -> resp = Server.failed (chain_route_failure r))
    /\ (snd cf = false ->
        match r with
        | BalanceRoute _ =>
            fst resp = 200 \/ resp = Server.failed (chain_route_failure r)
        | _ => fst resp = 200
        end).
Proof.
  destruct r as [|address|address|hash];
    cbn [chain_route_run chain_route_calls chain_route_failure calls_until_failure].
  - unfold Server.get_network, try_catch, bind.
    destruct (shardeumRPC_cases "eth_chainId" [] w) as [(-> & e & ->)|(-> & x & ->)];
      [eexists; split; [reflexivity|now split]|].
    set (w1 := with_trace _ w).
    change (trace w ++ [server_call "eth_chainId" []]) with (trace w1).
    change (oracle w) with (oracle w1).
    destruct (shardeumRPC_cases "eth_blockNumber" [] w1)
      as [(-> & e & ->)|(-> & y & ->)];
      [eexists; split; [unfold w1; now rewrite with_trace_app|now split]|].
    set (w2 := with_trace _ w1).
    change (trace w1 ++ [server_call "eth_blockNumber" []]) with (trace w2).
    change (oracle w1) with (oracle w2).
    destruct (shardeumRPC_cases "eth_gasPrice" [] w2)
      as [(-> & e & ->)|(-> & z & ->)];
      (eexists; split; [unfold ret, w2, w1; now rewrite !with_trace_app|now split]).
  - unfold Server.get_balance, try_catch, bind.
    destruct (shardeumRPC_cases "eth_getBalance" [VStr address; VStr "latest"] w)
      as [(-> & e & ->)|(-> & x & ->)];
      [eexists; split; [reflexivity|now split]|].
    destruct (Units.fromWei x); unfold ret, throw;
      (eexists; split; [reflexivity|split; [discriminate|auto]]).
  - unfold Server.get_nonce, try_catch, bind.
    destruct (shardeumRPC_cases "eth_getTransactionCount"
                [VStr address; VStr "latest"] w)
      as [(-> & e & ->)|(-> & x & ->)];
      (eexists; split; [reflexivity|now split]).
  - unfold Server.get_transaction, try_catch, bind.
    destruct (shardeumRPC_cases "eth_getTransactionByHash" [VStr hash] w)
      as [(-> & e & ->)|(-> & x & ->)];
      [eexists; split; [reflexivity|now split]|].
    set (w1 := with_trace _ w).
    change (trace w ++ [server_call "eth_getTransactionByHash" [VStr hash]])
      with (trace w1).
    change (oracle w) with (oracle w1).
    destruct (shardeumRPC_cases "eth_getTransactionReceipt" [VStr hash] w1)
      as [(-> & e & ->)|(-> & y & ->)];
      (eexists; split; [unfold ret, w1; now rewrite !with_trace_app|now split]).
Qed.

(** X6. The four routes that ask the chain ([/api/network],
    [/api/balance/:address], [/api/nonce/:address] and
    [/api/transaction/:hash]) always answer, after a prefix of their RPC
    calls that is not empty, and leave the creators and the tips of the
    server as they are.  When one of the calls throws (the request is
    rejected, or the answer has no data), the first that does ends the
    route: the calls after it are not made and the answer is 500 with
    the fixed message of the route.  When none throws, all the calls are
    made and the answer is 200; the balance route alone can then still
    answer 500, when the conversion of the balance throws. *)
Theorem chain_routes_answer_200_or_500 (r : chain_route) (w : world) :
  let calls := chain_route_calls r in
  let throws (k : nat) (c : call) :=
    rpc_throws (oracle w (trace w ++ take k calls) c) in
  (exists resp cs,
      chain_route_run r w = (Ret resp, with_trace (trace w ++ cs) w)
      /\ store (snd (chain_route_run r w)) = store w
      /\ cs <> []
      /\ cs `prefix_of` calls
      /\ (fst resp = 200 /\ cs = calls
          \/ resp = Server.failed (chain_route_failure r))
      /\ (forall c e, head calls = Some c ->
                      oracle w (trace w) c = Reject e ->
                      resp = Server.failed (chain_route_failure r) /\ cs = [c]))
  /\ (forall k c,
        calls !! k = Some c -> throws k c = true ->
        (forall j c', (j < k)%nat -> calls !! j = Some c' -> throws j c' = false) ->
        chain_route_run r w
        = (Ret (Server.failed (chain_route_failure r)),
           with_trace (trace w ++ take (S k) calls) w))
  /\ ((forall k c, calls !! k = Some c -> throws k c = false) ->
      exists resp,
        chain_route_run r w = (Ret resp, with_trace (trace w ++ calls) w)
        /\ match r with
           | BalanceRoute _ =>
               fst resp = 200 \/ resp = Server.failed (chain_route_failure r)
           | _ => fst resp = 200
           end).
Proof.
  intros calls throws.
  destruct (chain_route_run_until_failure r w) as (resp & Hrun & Hthrown & Hall).
  fold calls in Hrun, Hthrown, Hall.
  split; [|split].
  - destruct (calls_until_failure_prefix (oracle w) calls (trace w))
      as (Hprefix & Hne & Hcomplete).
    exists resp, (fst (calls_until_failure (oracle w) (trace w) calls)).
    split; [exact Hrun|]. split; [now rewrite Hrun|].
    split; [apply Hne; unfold calls; now destruct r|].
    split; [exact Hprefix|]. split.
    + destruct (snd (calls_until_failure (oracle w) (trace w) calls)) eqn:E;
        [right; now apply Hthrown|].
      specialize (Hall eq_refl). specialize (Hcomplete eq_refl).
      destruct r; try (left; now split); destruct Hall; [left; now split|now right].
    + intros c e Hhead Hrej.
      assert (Hfirst : calls_until_failure (oracle w) (trace w) calls = ([c], true)).
      { destruct calls as [|c0 rest]; [discriminate|]. injection Hhead as ->.
        cbn [calls_until_failure]. now rewrite Hrej. }
      rewrite Hfirst in *. split; [now apply Hthrown|reflexivity].
  - intros k c Hk Hthrows Hbefore.
    rewrite (calls_until_failure_first (oracle w) calls (trace w) k c
               Hk Hthrows Hbefore) in Hrun, Hthrown.
    now rewrite Hrun, (Hthrown eq_refl).
  - intros Hnone.
    rewrite (calls_until_failure_none (oracle w) calls (trace w) Hnone)
      in Hrun, Hall.
    exists resp. split; [exact Hrun|now apply Hall].
Qed.

Lemma chain_routes_answer_200_or_500_witness :
  let w := Scenario.start (Scenario.goes_down_after 1 "0x1f93") in
  Server.get_network w
  = (Ret (Server.failed "Failed to fetch network info"),
     with_trace [ server_call "eth_chainId" []; server_call "eth_blockNumber" [] ] w)
  /\ exists resp,
       fst (Server.get_transaction "0xabc123" Scenario.on_shardeum) = Ret resp
       /\ fst resp = 200.
Proof.
  intros w. split.
  - destruct (chain_routes_answer_200_or_500 NetworkRoute w) as (_ & Hthrows & _).
    apply (Hthrows 1%nat (server_call "eth_blockNumber" []) eq_refl eq_refl).
    intros [|j] c' Hj Hc'; [|lia]. injection Hc' as <-. reflexivity.
  - destruct (chain_routes_answer_200_or_500 (TransactionRoute "0xabc123")
                Scenario.on_shardeum) as (_ & _ & Hnone).
    destruct Hnone as (resp & Hrun & Hok).
    + intros [|[|k]] c Hc; try discriminate Hc; injection Hc as <-; reflexivity.
    + exists resp. split; [|exact Hok].
      cbn [chain_route_run] in Hrun. now rewrite Hrun.
Defined.

(** ** Counting the calls of a run *)

Lemma count_app (q : call -> bool) (l1 l2 : list call) :
  count q (l1 ++ l2) = (count q l1 + count q l2)%nat.
Proof. unfold count. now rewrite filter_app, length_app. Qed.

Lemma at_most_ret {A} (n : nat) (q : call -> bool) (a : A) : at_most n q (ret a).
Proof. intros w. exists []. cbn. rewrite app_nil_r. split; [reflexivity|lia]. Qed.

Lemma at_most_throw {A} (n : nat) (q : call -> bool) (e : js_error) :
  at_most n q (@throw A e).
Proof. intros w. exists []. cbn. rewrite app_nil_r. split; [reflexivity|lia]. Qed.

Lemma at_most_mono {A} (n n' : nat) (q : call -> bool) (m : M A) :
  (n <= n')%nat -> at_most n q m -> at_most n' q m.
Proof.
  intros Hle Hm w. destruct (Hm w) as (cs & Ht & Hc). exists cs. split; [exact Ht|lia].
Qed.

Lemma at_most_await (q : call -> bool) (c : call) : at_most 1 q (await c).
Proof.
  intros w. exists [c]. unfold await.
  split; [now destruct (oracle w (trace w) c)|].
  unfold count. cbn. destruct (q c); cbn; lia.
Qed.

Lemma at_most_await_other (n : nat) (q : call -> bool) (c : call) :
  q c = false -> at_most n q (await c).
Proof.
  intros Hq w. exists [c]. unfold await.
  split; [now destruct (oracle w (trace w) c)|].
  unfold count. cbn. rewrite Hq. cbn. lia.
Qed.

Lemma at_most_bind {A B} (n k : nat) (q : call -> bool) (m : M A) (f : A -> M B) :
  at_most n q m -> (forall a, at_most k q (f a)) -> at_most (n + k) q (bind m f).
Proof.
  intros Hm Hf w. unfold run_shape, bind. destruct (Hm w) as (cs1 & Ht1 & Hc1).
  destruct (m w) as [[a|e] w1]; cbn [fst snd] in *.
  - destruct (Hf a w1) as (cs2 & Ht2 & Hc2). exists (cs1 ++ cs2).
    split; [now rewrite Ht2, Ht1, app_assoc|]. rewrite count_app. lia.
  - exists cs1. split; [exact Ht1|lia].
Qed.

Lemma at_most_try_catch {A} (n k : nat) (q : call -> bool) (m : M A)
    (h : js_error -> M A) :
  at_most n q m -> (forall e, at_most k q (h e)) -> at_most (n + k) q (try_catch m h).
Proof.
  intros Hm Hh w. unfold run_shape, try_catch. destruct (Hm w) as (cs1 & Ht1 & Hc1).
  destruct (m w) as [[a|e] w1]; cbn [fst snd] in *.
  - exists cs1. split; [exact Ht1|lia].
  - destruct (Hh e w1) as (cs2 & Ht2 & Hc2). exists (cs1 ++ cs2).
    split; [now rewrite Ht2, Ht1, app_assoc|]. rewrite count_app. lia.
Qed.

(** A quiet step before, or after, does not add to the count. *)
Lemma at_most_after {A B} (n : nat) (q : call -> bool) (m : M A) (f : A -> M B) :
  at_most 0 q m -> (forall a, at_most n q (f a)) -> at_most n q (bind m f).
Proof. intros Hm Hf. exact (at_most_bind 0 n q m f Hm Hf). Qed.

Lemma at_most_before {A B} (n : nat) (q : call -> bool) (m : M A) (f : A -> M B) :
  at_most n q m -> (forall a, at_most 0 q (f a)) -> at_most n q (bind m f).
Proof.
  intros Hm Hf. apply (at_most_mono (n + 0) n); [lia|]. now apply at_most_bind.
Qed.

Lemma at_most_caught {A} (n : nat) (q : call -> bool) (m : M A)
    (h : js_error -> M A) :
  at_most n q m -> (forall e, at_most 0 q (h e)) -> at_most n q (try_catch m h).
Proof.
  intros Hm Hh. apply (at_most_mono (n + 0) n); [lia|]. now apply at_most_try_catch.
Qed.

Lemma at_most_cond {A} (n : nat) (q : call -> bool) (b : world -> bool)
    (m1 m2 : M A) :
  at_most n q m1 -> at_most n q m2 ->
  at_most n q (fun w => if b w then m1 w else m2 w).
Proof. intros H1 H2 w. unfold run_shape. destruct (b w); [apply H1|apply H2]. Qed.

Lemma at_most_prop (n : nat) (q : call -> bool) (k : string) (v : value) :
  at_most n q (prop k v).
Proof.
  unfold prop. destruct (Val.get k v); [apply at_most_ret|apply at_most_throw].
Qed.

Lemma at_most_ethereum_request (q : call -> bool) (method : string)
    (params : list value) :
  at_most 1 q (ethereum_request method params).
Proof.
  apply (at_most_cond 1 q ethereum (await _) (throw _));
    [apply at_most_await|apply at_most_throw].
Qed.

Lemma at_most_ethereum_request_other (n : nat) (q : call -> bool)
    (method : string) (params : list value) :
  q (EthRequest method params) = false ->
  at_most n q (ethereum_request method params).
Proof.
  intros Hq. apply (at_most_cond n q ethereum (await _) (throw _));
    [now apply at_most_await_other|apply at_most_throw].
Qed.

Lemma at_most_await_bigint_other (n : nat) (q : call -> bool) (c : call) :
  q c = false -> at_most n q (await_bigint c).
Proof.
  intros Hq. unfold await_bigint. apply at_most_after.
  - now apply at_most_await_other.
  - intros v. destruct v; first [apply at_most_ret|apply at_most_throw].
Qed.

Lemma at_most_post (n : nat) (q : call -> bool) (envelope : value) :
  q (Http "POST" ShardeumAPI.rpcUrl envelope) = false ->
  at_most n q (ShardeumAPI.post envelope).
Proof.
  intros Hq w. exists [Http "POST" ShardeumAPI.rpcUrl envelope].
  rewrite post_run. split; [reflexivity|]. unfold count. cbn. rewrite Hq. cbn. lia.
Qed.

Lemma at_most_verifyNetwork (n : nat) (q : call -> bool) :
  q chain_id_call = false -> at_most n q ShardeumAPI.verifyNetwork.
Proof.
  intros Hq. unfold ShardeumAPI.verifyNetwork. apply at_most_caught.
  - apply at_most_after; [now apply at_most_ethereum_request_other|].
    intros chainId. apply at_most_ret.
  - intros _. apply at_most_ret.
Qed.

Lemma at_most_init_provider (n : nat) (q : call -> bool) :
  at_most n q ShardeumAPI.init_provider.
Proof.
  intros w. exists []. unfold ShardeumAPI.init_provider. rewrite app_nil_r.
  split; [now destruct (negb (api_provider w) && ethereum w)|cbn; lia].
Qed.

Lemma at_most_init_signer (n : nat) (q : call -> bool) :
  q GetSigner = false -> at_most n q ShardeumAPI.init_signer.
Proof.
  intros Hq w. unfold run_shape, ShardeumAPI.init_signer.
  destruct (negb (api_signer w) && api_provider w).
  - exists [GetSigner]. unfold await. cbv zeta.
    split; [destruct (oracle w (trace w) GetSigner); reflexivity|].
    unfold count. cbn. rewrite Hq. cbn. lia.
  - exists []. rewrite app_nil_r. split; [reflexivity|cbn; lia].
Qed.

Lemma count_calls_since {A} (n : nat) (q : call -> bool) (m : M A) (w : world) :
  at_most n q m -> (count q (calls_since w (snd (m w))) <= n)%nat.
Proof.
  intros Hm. destruct (Hm w) as (cs & Ht & Hc).
  now rewrite (calls_since_app _ _ _ Ht).
Qed.

(** ** What a send of [ShardeumAPI] can do *)

(** The steps of [sendTransaction] before the submission make no call of
    a kind [q] that none of them is. *)
Lemma sendTransaction_at_most (n : nat) (q : call -> bool)
    (to amount : string) (gasLimit : option Z) :
  q GetSigner = false -> q chain_id_call = false -> q SignerGetAddress = false ->
  (forall envelope, q (Http "POST" ShardeumAPI.rpcUrl envelope) = false
                    \/ (Val.field "method" envelope = VStr "eth_estimateGas"
                        /\ exists g, gasLimit = Some g /\ g <> 0)) ->
  (forall tx, at_most n q (await (SignerSendTransaction tx))) ->
  at_most n q (ShardeumAPI.sendTransaction to amount gasLimit).
Proof.
  intros Hsigner Hchain Haddress Hpost Hsubmit.
  unfold ShardeumAPI.sendTransaction.
  apply at_most_caught; [|intros e; apply at_most_throw].
  apply at_most_after; [apply at_most_init_provider|intros _].
  apply at_most_after; [now apply at_most_init_signer|intros _].
  apply (at_most_cond n q (fun w => negb (api_signer w)) (throw _));
    [apply at_most_throw|].
  apply at_most_after; [now apply at_most_verifyNetwork|intros ok].
  destruct (negb ok); [apply at_most_throw|].
  apply at_most_after; [now apply at_most_await_other|intros fromAddress].
  destruct (Units.toBaseUnits amount) as [value|]; [|apply at_most_throw].
  apply at_most_after.
  { unfold ShardeumAPI.getGasPrice. apply at_most_post.
    destruct (Hpost (ShardeumAPI.envelope "eth_gasPrice" None)) as [H|(H & _)];
      [exact H|discriminate H]. }
  intros gasPrice. apply at_most_after.
  { destruct gasLimit as [[|g|g]|]; try apply at_most_ret;
      unfold ShardeumAPI.estimateGas; apply at_most_post;
      match goal with
      | |- q (Http _ _ ?env) = false =>
          destruct (Hpost env) as [H|(_ & g' & Hg & Hne)];
          [exact H|try discriminate Hg]
      end.
    injection Hg as <-. now destruct Hne. }
  intros finalGasLimit. apply at_most_before; [apply Hsubmit|].
  intros txResponse. apply at_most_prop.
Qed.

Lemma verifyNetwork_run (w : world) :
  ShardeumAPI.verifyNetwork w
  = if ethereum w then
      (Ret match oracle w (trace w) chain_id_call with
           | Resolve chainId => Val.is_string ShardeumAPI.SHARDEUM_CHAIN_ID chainId
           | Reject _ => false
           end,
       with_trace (trace w ++ [chain_id_call]) w)
    else (Ret false, w).
Proof.
  unfold ShardeumAPI.verifyNetwork, try_catch, bind, ethereum_request.
  destruct (ethereum w); [|reflexivity].
  unfold await. fold chain_id_call.
  now destruct (oracle w (trace w) chain_id_call).
Qed.

Lemma init_provider_run (w : world) :
  exists w1,
    ShardeumAPI.init_provider w = (Ret tt, w1)
    /\ trace w1 = trace w /\ oracle w1 = oracle w /\ ethereum w1 = ethereum w
    /\ api_signer w1 = api_signer w.
Proof.
  unfold ShardeumAPI.init_provider.
  destruct (negb (api_provider w) && ethereum w); eexists; split; reflexivity || auto.
Qed.

Lemma init_signer_ret (w w1 : world) (u : unit) :
  ShardeumAPI.init_signer w = (Ret u, w1) ->
  exists signer,
    (signer = [] \/ signer = [GetSigner])
    /\ trace w1 = trace w ++ signer /\ oracle w1 = oracle w
    /\ ethereum w1 = ethereum w.
Proof.
  unfold ShardeumAPI.init_signer.
  destruct (negb (api_signer w) && api_provider w).
  - unfold await. destruct (oracle w (trace w) GetSigner); [|discriminate].
    intros [= _ <-]. exists [GetSigner]. auto.
  - intros [= _ <-]. exists []. rewrite app_nil_r. auto.
Qed.

Lemma post_ret_inv (envelope r : value) (w w' : world) :
  ShardeumAPI.post envelope w = (Ret r, w') ->
  w' = with_trace (trace w ++ [Http "POST" ShardeumAPI.rpcUrl envelope]) w
  /\ exists data,
       oracle w (trace w) (Http "POST" ShardeumAPI.rpcUrl envelope) = Resolve data
       /\ Val.get "result" data = Some r.
Proof.
  rewrite post_run. intros Hrun. injection Hrun as Hr <-. split; [reflexivity|].
  destruct (oracle w (trace w) _) as [data|]; [|discriminate Hr].
  exists data. split; [reflexivity|].
  destruct (Val.get "result" data); [now injection Hr as ->|discriminate Hr].
Qed.

(** What a send that returned a hash has done. *)
Lemma sendTransaction_ret
    (to amount : string) (gasLimit : option Z) (w w' : world) (H : value) :
  ShardeumAPI.sendTransaction to amount gasLimit w = (Ret H, w') ->
  exists signer fromAddress value gasPrice finalGasLimit estimate,
    trace w'
    = trace w ++ signer
      ++ [ chain_id_call; SignerGetAddress;
           Http "POST" ShardeumAPI.rpcUrl (ShardeumAPI.envelope "eth_gasPrice" None) ]
      ++ estimate
      ++ [ SignerSendTransaction
             (VObj [ ("to", VStr to); ("value", VBigInt value);
                     ("gasPrice", gasPrice); ("gasLimit", finalGasLimit) ]) ]
    /\ (signer = [] \/ signer = [GetSigner])
    /\ oracle w (trace w ++ signer) chain_id_call
       = Resolve (VStr ShardeumAPI.SHARDEUM_CHAIN_ID)
    /\ oracle w (trace w ++ signer ++ [chain_id_call]) SignerGetAddress
       = Resolve fromAddress
    /\ Units.toBaseUnits amount = Some value
    /\ api_signer w' = true
    /\ ethereum w = true
    /\ (forall g, gasLimit = Some g -> g <> 0 ->
                  estimate = [] /\ finalGasLimit = VStr ("0x" +:+ JS.hex_string g))
    /\ (gasLimit = None \/ gasLimit = Some 0 ->
        estimate
        = [ Http "POST" ShardeumAPI.rpcUrl
              (ShardeumAPI.envelope "eth_estimateGas"
                 (Some [ VObj [ ("from", fromAddress); ("to", VStr to);
                                ("value", VStr ("0x" +:+ JS.hex_string value));
                                ("gasPrice", gasPrice) ];
                         VStr "latest" ])) ])
    /\ (exists data,
          oracle w (trace w ++ signer ++ [chain_id_call; SignerGetAddress])
            (Http "POST" ShardeumAPI.rpcUrl (ShardeumAPI.envelope "eth_gasPrice" None))
          = Resolve data
          /\ Val.get "result" data = Some gasPrice)
    /\ (gasLimit = None \/ gasLimit = Some 0 ->
        exists data,
          oracle w
            (trace w ++ signer
             ++ [ chain_id_call; SignerGetAddress;
                  Http "POST" ShardeumAPI.rpcUrl
                    (ShardeumAPI.envelope "eth_gasPrice" None) ])
            (Http "POST" ShardeumAPI.rpcUrl
               (ShardeumAPI.envelope "eth_estimateGas"
                  (Some [ VObj [ ("from", fromAddress); ("to", VStr to);
                                 ("value", VStr ("0x" +:+ JS.hex_string value));
                                 ("gasPrice", gasPrice) ];
                          VStr "latest" ])))
          = Resolve data
          /\ Val.get "result" data = Some finalGasLimit).
Proof.
  unfold ShardeumAPI.sendTransaction. rewrite try_catch_rethrow. intros Hrun.
  apply bind_ret_inv in Hrun. destruct Hrun as (? & wa & Ha & Hrun).
  destruct (init_provider_run w) as (wa' & Ha' & Hta & Hoa & Hea & _).
  rewrite Ha' in Ha. injection Ha as _ <-.
  apply bind_ret_inv in Hrun. destruct Hrun as (? & wb & Hb & Hrun).
  apply init_signer_ret in Hb. destruct Hb as (signer & Hsigner & Htb & Hob & Heb).
  cbv beta in Hrun.
  destruct (api_signer wb) eqn:Hsig; [|discriminate]. cbn [negb] in Hrun.
  apply bind_ret_inv in Hrun. destruct Hrun as (ok & wc & Hc & Hrun).
  rewrite verifyNetwork_run in Hc.
  destruct (ethereum wb) eqn:Hethb; [|injection Hc as <- <-; discriminate].
  injection Hc as Hok <-.
  destruct ok; [|discriminate]. cbn [negb] in Hrun.
  apply bind_ret_inv in Hrun. destruct Hrun as (fromAddress & wd & Hd & Hrun).
  apply await_ret_inv in Hd. destruct Hd as (Hfrom & ->).
  cbn [oracle trace with_trace] in Hfrom.
  destruct (Units.toBaseUnits amount) as [value|]; [|discriminate].
  apply bind_ret_inv in Hrun. destruct Hrun as (gasPrice & we & He & Hrun).
  unfold ShardeumAPI.getGasPrice in He. apply post_ret_inv in He.
  destruct He as (-> & Hgas). cbn [oracle trace with_trace] in Hgas.
  apply bind_ret_inv in Hrun. destruct Hrun as (finalGasLimit & wf & Hf & Hrun).
  apply bind_ret_inv in Hrun. destruct Hrun as (txResponse & wg & Hg & Hrun).
  apply await_ret_inv in Hg. destruct Hg as (_ & ->).
  apply prop_ret_inv in Hrun. destruct Hrun as (_ & ->).
  assert (Hwf : exists estimate,
             wf = with_trace (trace wb ++ [chain_id_call; SignerGetAddress;
                                Http "POST" ShardeumAPI.rpcUrl
                                  (ShardeumAPI.envelope "eth_gasPrice" None)]
                              ++ estimate) wb
             /\ (forall g, gasLimit = Some g -> g <> 0 ->
                    estimate = [] /\ finalGasLimit = VStr ("0x" +:+ JS.hex_string g))
             /\ (gasLimit = None \/ gasLimit = Some 0 ->
                 estimate
                 = [ Http "POST" ShardeumAPI.rpcUrl
                       (ShardeumAPI.envelope "eth_estimateGas"
                          (Some [ VObj [ ("from", fromAddress); ("to", VStr to);
                                         ("value", VStr ("0x" +:+ JS.hex_string value));
                                         ("gasPrice", gasPrice) ];
                                  VStr "latest" ])) ])
             /\ (gasLimit = None \/ gasLimit = Some 0 ->
                 exists data,
                   oracle wb
                     (trace wb ++ [ chain_id_call; SignerGetAddress;
                                    Http "POST" ShardeumAPI.rpcUrl
                                      (ShardeumAPI.envelope "eth_gasPrice" None) ])
                     (Http "POST" ShardeumAPI.rpcUrl
                        (ShardeumAPI.envelope "eth_estimateGas"
                           (Some [ VObj [ ("from", fromAddress); ("to", VStr to);
                                          ("value", VStr ("0x" +:+ JS.hex_string value));
                                          ("gasPrice", gasPrice) ];
                                   VStr "latest" ])))
                   = Resolve data
                   /\ Val.get "result" data = Some finalGasLimit)).
  { destruct gasLimit as [[|g|g]|].
    - unfold ShardeumAPI.estimateGas in Hf. apply post_ret_inv in Hf.
      destruct Hf as (-> & Hest). cbn [oracle trace with_trace] in Hest.
      rewrite <- !app_assoc in Hest. eexists [_]. split.
      + unfold with_trace. cbn. now rewrite <- !app_assoc.
      + split; [intros g [= <-] Hg; now destruct Hg|].
        split; [reflexivity|intros _; exact Hest].
    - injection Hf as <- <-. exists []. split.
      + unfold with_trace. cbn. now rewrite <- !app_assoc.
      + split; [intros g' [= <-] _; auto|].
        split; intros [E|E]; discriminate E.
    - injection Hf as <- <-. exists []. split.
      + unfold with_trace. cbn. now rewrite <- !app_assoc.
      + split; [intros g' [= <-] _; auto|].
        split; intros [E|E]; discriminate E.
    - unfold ShardeumAPI.estimateGas in Hf. apply post_ret_inv in Hf.
      destruct Hf as (-> & Hest). cbn [oracle trace with_trace] in Hest.
      rewrite <- !app_assoc in Hest. eexists [_]. split.
      + unfold with_trace. cbn. now rewrite <- !app_assoc.
      + split; [intros g [=]|].
        split; [reflexivity|intros _; exact Hest]. }
  destruct Hwf as (estimate & -> & Hexplicit & Hestimated & Hestimate).
  exists signer, fromAddress, value, gasPrice, finalGasLimit, estimate.
  split.
  { cbn [trace with_trace]. rewrite Htb, Hta. now rewrite <- !app_assoc. }
  split; [exact Hsigner|].
  split.
  { rewrite Hob, Htb, Hoa, Hta in Hok.
    destruct (oracle w (trace w ++ signer) chain_id_call) as [chainId|];
      [|discriminate].
    apply is_string_true in Hok. now subst chainId. }
  split; [now rewrite Hob, Htb, Hoa, Hta, <- app_assoc in Hfrom|].
  split; [reflexivity|]. split; [exact Hsig|].
  split; [congruence|]. split; [assumption|]. split; [assumption|].
  rewrite Hob, Htb, Hoa, Hta, <- !app_assoc in Hgas.
  split; [exact Hgas|].
  intros Hnone. specialize (Hestimate Hnone).
  now rewrite Hob, Htb, Hoa, Hta, <- !app_assoc in Hestimate.
Qed.



Lemma at_most_post_once (q : call -> bool) (envelope : value) :
  at_most 1 q (ShardeumAPI.post envelope).
Proof.
  intros w. exists [Http "POST" ShardeumAPI.rpcUrl envelope].
  rewrite post_run. split; [reflexivity|].
  unfold count. cbn. destruct (q _); cbn; lia.
Qed.

Lemma sendTransaction_gas_requests (to amount : string) (gasLimit : option Z) :
  at_most 2 is_gas_estimation (ShardeumAPI.sendTransaction to amount gasLimit).
Proof.
  unfold ShardeumAPI.sendTransaction.
  apply at_most_caught; [|intros e; apply at_most_throw].
  apply at_most_after; [apply at_most_init_provider|intros _].
  apply at_most_after; [now apply at_most_init_signer|intros _].
  apply (at_most_cond 2 _ (fun w => negb (api_signer w)) (throw _));
    [apply at_most_throw|].
  apply at_most_after; [now apply at_most_verifyNetwork|intros ok].
  destruct (negb ok); [apply at_most_throw|].
  apply at_most_after; [now apply at_most_await_other|intros fromAddress].
  destruct (Units.toBaseUnits amount) as [value|]; [|apply at_most_throw].
  apply (at_most_bind 1 1); [apply at_most_post_once|intros gasPrice].
  apply at_most_before.
  - destruct gasLimit as [[|g|g]|];
      first [apply at_most_post_once|apply at_most_ret].
  - intros finalGasLimit. apply at_most_after; [now apply at_most_await_other|].
    intros txResponse. apply at_most_prop.
Qed.

(** X8. Whatever the wallet and the chain answer, one call of
    [sendTransaction] (and so of [sendTip]) submits at most one
    transaction and asks the chain for gas figures at most twice.  With a
    gas limit other than [0] it never asks for a gas estimate; a gas
    limit of [0] counts as none given. *)
Theorem send_submits_at_most_once
    (to amount : string) (gasLimit : option Z) (w : world) :
  let cs := calls_since w (snd (ShardeumAPI.sendTransaction to amount gasLimit w)) in
  (count is_submission cs <= 1)%nat
  /\ (count is_gas_estimation cs <= 2)%nat
  /\ (forall g, gasLimit = Some g -> g <> 0 -> count is_estimate_gas cs = 0%nat)
  /\ (count is_submission
        (calls_since w (snd (ShardeumAPI.sendTip to amount w))) <= 1)%nat
  /\ ShardeumAPI.sendTransaction to amount (Some 0) w = ShardeumAPI.sendTip to amount w.
Proof.
  assert (Hsub : forall gl,
             at_most 1 is_submission (ShardeumAPI.sendTransaction to amount gl)).
  { intros gl. apply sendTransaction_at_most; try reflexivity.
    - intros envelope. now left.
    - intros tx. apply at_most_await. }
  split; [apply count_calls_since, Hsub|].
  split; [apply count_calls_since, sendTransaction_gas_requests|].
  split; [|split; [apply count_calls_since, Hsub|reflexivity]].
  intros g -> Hg.
  assert (Hquiet : at_most 0 is_estimate_gas
                     (ShardeumAPI.sendTransaction to amount (Some g))).
  { apply sendTransaction_at_most; try reflexivity.
    - intros envelope. cbn [is_estimate_gas].
      destruct (Val.is_string "eth_estimateGas" (Val.field "method" envelope)) eqn:E;
        [right|now left].
      apply is_string_true in E. eauto.
    - intros tx. now apply at_most_await_other. }
  pose proof (count_calls_since 0 _ _ w Hquiet). lia.
Qed.

(** ** What a tip of [Web3Service] can do *)

Lemma at_most_getBalance (n : nat) (q : call -> bool) (address : value) :
  q (Web3GetBalance address) = false ->
  at_most n q (Web3Service.getBalance address).
Proof.
  intros Hq. unfold Web3Service.getBalance.
  apply (at_most_cond n q (fun w => negb (web3 w)) (throw _) (try_catch _ _));
    [apply at_most_throw|].
  apply at_most_caught; [|intros e; apply at_most_throw].
  apply at_most_after; [now apply at_most_await_bigint_other|].
  intros balanceWei. apply at_most_ret.
Qed.

Lemma at_most_first_account (n : nat) (q : call -> bool) (accounts : value) :
  at_most n q (Web3Service.first_account accounts).
Proof.
  destruct accounts as [| | | | |s|l|]; cbn [Web3Service.first_account];
    try apply at_most_ret; try apply at_most_throw.
  - destruct s; [apply at_most_throw|apply at_most_ret].
  - destruct l; [apply at_most_throw|apply at_most_ret].
Qed.

(** The steps of [sendTip] of [Web3Service], when [rest] stands for what
    follows the conversion check. *)
Lemma web3_sendTip_at_most (n : nat) (q : call -> bool) (toAddress amount : string) :
  q chain_id_call = false ->
  q (EthRequest "eth_accounts" []) = false ->
  (forall wei address,
      amount_passes amount wei -> q (Web3GetBalance address) = false) ->
  (forall wei,
      amount_passes amount wei ->
      forall fromAddress,
        at_most n q
          (let* gasEstimate :=
             await_bigint
               (Web3EstimateGas
                  (VObj [ ("from", fromAddress); ("to", VStr toAddress);
                          ("value", VStr (JS.decimal_string wei)) ])) in
           let* gasPrice := await_bigint Web3GetGasPrice in
           ethereum_request "eth_sendTransaction"
             [ VObj [ ("from", fromAddress); ("to", VStr toAddress);
                      ("value", VStr (JS.decimal_string wei));
                      ("gas", VStr ("0x" +:+ JS.hex_string gasEstimate));
                      ("gasPrice", VStr ("0x" +:+ JS.hex_string gasPrice)) ] ])) ->
  at_most n q (Web3Service.sendTip toAddress amount).
Proof.
  intros Hchain Haccounts Hbalance Hrest. unfold Web3Service.sendTip.
  apply (at_most_cond n q (fun w => negb (web3 w) || negb (ethereum w)) (throw _));
    [apply at_most_throw|].
  apply at_most_after.
  { rewrite verifyNetwork_same. now apply at_most_verifyNetwork. }
  intros ok. destruct (negb ok); [apply at_most_throw|].
  apply at_most_caught; [|intros e; apply at_most_throw].
  apply at_most_after; [now apply at_most_ethereum_request_other|intros accounts].
  apply at_most_after; [apply at_most_first_account|intros fromAddress].
  destruct (Web3Service.amount_pattern amount) eqn:Hpattern; cbn [negb]; [|apply at_most_throw].
  destruct (Units.toBaseUnits amount) as [wei|] eqn:Hwei; [|apply at_most_throw].
  destruct (JS.neqb _ _) eqn:Hback; [apply at_most_throw|].
  assert (Hpasses : amount_passes amount wei) by (repeat split; assumption).
  apply at_most_after; [apply at_most_getBalance; eauto|intros balance].
  destruct (JS.ltb _ _); [apply at_most_throw|].
  now apply Hrest.
Qed.

Lemma await_run (c : call) (w : world) :
  await c w
  = (match oracle w (trace w) c with
     | Resolve v => Ret v
     | Reject e => Throw e
     end,
     with_trace (trace w ++ [c]) w).
Proof. unfold await. now destruct (oracle w (trace w) c). Qed.

Lemma await_bigint_ret (c : call) (w w' : world) (z : Z) :
  await_bigint c w = (Ret z, w') ->
  oracle w (trace w) c = Resolve (VBigInt z)
  /\ w' = with_trace (trace w ++ [c]) w.
Proof.
  unfold await_bigint, bind. rewrite await_run.
  destruct (oracle w (trace w) c) as [v|e]; [|discriminate].
  destruct v; try discriminate. now intros [= <- <-].
Qed.

Lemma ethereum_request_ret (method : string) (params : list value)
    (w w' : world) (v : value) :
  ethereum_request method params w = (Ret v, w') ->
  ethereum w = true
  /\ oracle w (trace w) (EthRequest method params) = Resolve v
  /\ w' = with_trace (trace w ++ [EthRequest method params]) w.
Proof.
  unfold ethereum_request. destruct (ethereum w); [|discriminate].
  intros H. apply await_ret_inv in H. tauto.
Qed.

(** One balance request of [Web3Service]: what it returns, and the one
    call it makes. *)
Lemma getBalance_run (address : value) (w : world) :
  web3 w = true ->
  Web3Service.getBalance address w
  = (match oracle w (trace w) (Web3GetBalance address) with
     | Resolve (VBigInt balanceWei) => Ret (Units.fromBaseUnits balanceWei)
     | Resolve _ => Throw (Error "Failed to get balance: invalid number value")
     | Reject e => Throw (Error ("Failed to get balance: " +:+ err_message e))
     end,
     with_trace (trace w ++ [Web3GetBalance address]) w).
Proof.
  intros Hweb3. unfold Web3Service.getBalance. rewrite Hweb3. cbn [negb].
  unfold try_catch, await_bigint, bind. rewrite await_run.
  destruct (oracle w (trace w) (Web3GetBalance address)) as [v|e]; [|reflexivity].
  now destruct v.
Qed.

Lemma getBalance_ret (address : value) (w w' : world) (balance : string) :
  Web3Service.getBalance address w = (Ret balance, w') ->
  exists balanceWei,
    web3 w = true
    /\ oracle w (trace w) (Web3GetBalance address) = Resolve (VBigInt balanceWei)
    /\ balance = Units.fromBaseUnits balanceWei
    /\ w' = with_trace (trace w ++ [Web3GetBalance address]) w.
Proof.
  destruct (web3 w) eqn:Hweb3.
  - rewrite getBalance_run by exact Hweb3.
    destruct (oracle w (trace w) (Web3GetBalance address)) as [v|e]; [|discriminate].
    destruct v; try discriminate. intros [= <- <-]. eauto.
  - unfold Web3Service.getBalance. rewrite Hweb3. discriminate.
Qed.

Lemma first_account_ret (accounts a : value) (w w' : world) :
  Web3Service.first_account accounts w = (Ret a, w') -> w' = w.
Proof.
  destruct accounts as [| | | | |s|l|]; cbn [Web3Service.first_account];
    try discriminate; try (now intros [= _ <-]).
  - destruct s; [discriminate|now intros [= _ <-]].
  - destruct l; [discriminate|now intros [= _ <-]].
Qed.

Lemma try_catch_ret_inv {A} (m : M A) (e0 : js_error -> js_error)
    (w w' : world) (a : A) :
  try_catch m (fun error => throw (e0 error)) w = (Ret a, w') -> m w = (Ret a, w').
Proof.
  unfold try_catch, throw. destruct (m w) as [[x|e] w1]; [auto|discriminate].
Qed.

(** What a tip of [Web3Service] that returned a hash has done. *)
Lemma web3_sendTip_ret (toAddress amount : string) (w w' : world) (H : value) :
  Web3Service.sendTip toAddress amount w = (Ret H, w') ->
  exists accounts fromAddress wei balanceWei gasEstimate gasPrice,
    let estimate :=
      Web3EstimateGas
        (VObj [ ("from", fromAddress); ("to", VStr toAddress);
                ("value", VStr (JS.decimal_string wei)) ]) in
    let submission :=
      EthRequest "eth_sendTransaction"
        [ VObj [ ("from", fromAddress); ("to", VStr toAddress);
                 ("value", VStr (JS.decimal_string wei));
                 ("gas", VStr ("0x" +:+ JS.hex_string gasEstimate));
                 ("gasPrice", VStr ("0x" +:+ JS.hex_string gasPrice)) ] ] in
    let before_balance := [chain_id_call; EthRequest "eth_accounts" []] in
    let before_submission :=
      before_balance ++ [Web3GetBalance fromAddress; estimate; Web3GetGasPrice] in
    w' = with_trace (trace w ++ before_submission ++ [submission]) w
    /\ web3 w = true /\ ethereum w = true
    /\ oracle w (trace w) chain_id_call = Resolve (VStr Web3Service.SHARDEUM_CHAIN_ID)
    /\ oracle w (trace w ++ [chain_id_call]) (EthRequest "eth_accounts" [])
       = Resolve accounts
    /\ Web3Service.first_account accounts w = (Ret fromAddress, w)
    /\ amount_passes amount wei
    /\ oracle w (trace w ++ before_balance) (Web3GetBalance fromAddress)
       = Resolve (VBigInt balanceWei)
    /\ JS.ltb (JS.parseFloat (Units.fromBaseUnits balanceWei)) (JS.parseFloat amount)
       = false
    /\ oracle w (trace w ++ before_balance ++ [Web3GetBalance fromAddress]) estimate
       = Resolve (VBigInt gasEstimate)
    /\ oracle w (trace w ++ before_balance ++ [Web3GetBalance fromAddress; estimate])
         Web3GetGasPrice
       = Resolve (VBigInt gasPrice)
    /\ oracle w (trace w ++ before_submission) submission = Resolve H.
Proof.
  unfold Web3Service.sendTip.
  destruct (web3 w) eqn:Hweb3; [|discriminate].
  destruct (ethereum w) eqn:Heth; [|discriminate]. cbn [negb orb].
  intros Hrun. apply bind_ret_inv in Hrun. destruct Hrun as (ok & w1 & Hv & Hrun).
  rewrite verifyNetwork_same, verifyNetwork_run, Heth in Hv. injection Hv as Hok <-.
  destruct ok; [|discriminate]. cbn [negb] in Hrun.
  apply try_catch_ret_inv in Hrun.
  apply bind_ret_inv in Hrun. destruct Hrun as (accounts & w2 & Ha & Hrun).
  apply ethereum_request_ret in Ha. destruct Ha as (_ & Ha & ->).
  apply bind_ret_inv in Hrun. destruct Hrun as (fromAddress & w3 & Hf & Hrun).
  pose proof (first_account_ret _ _ _ _ Hf) as ->.
  destruct (Web3Service.amount_pattern amount) eqn:Hpattern; [|discriminate].
  cbn [negb] in Hrun.
  destruct (Units.toBaseUnits amount) as [wei|] eqn:Hwei; [|discriminate].
  destruct (JS.neqb _ _) eqn:Hback; [discriminate|].
  apply bind_ret_inv in Hrun. destruct Hrun as (balance & w4 & Hb & Hrun).
  apply getBalance_ret in Hb. destruct Hb as (balanceWei & _ & Hb & -> & ->).
  destruct (JS.ltb _ _) eqn:Hlt; [discriminate|].
  apply bind_ret_inv in Hrun. destruct Hrun as (gasEstimate & w5 & He & Hrun).
  apply await_bigint_ret in He. destruct He as (He & ->).
  apply bind_ret_inv in Hrun. destruct Hrun as (gasPrice & w6 & Hg & Hrun).
  apply await_bigint_ret in Hg. destruct Hg as (Hg & ->).
  apply ethereum_request_ret in Hrun. destruct Hrun as (_ & Hs & ->).
  cbn [oracle trace with_trace] in *.
  exists accounts, fromAddress, wei, balanceWei, gasEstimate, gasPrice.
  cbv zeta. rewrite <- !app_assoc in *. cbn [app] in *.
  split; [reflexivity|]. split; [reflexivity|]. split; [reflexivity|].
  split.
  { destruct (oracle w (trace w) chain_id_call) as [chainId|]; [|discriminate].
    apply is_string_true in Hok. now subst chainId. }
  split; [exact Ha|]. split.
  { destruct accounts as [| | | | |s|l|]; cbn [Web3Service.first_account] in *;
      try discriminate; try (now injection Hf as <-).
    - destruct s; [discriminate|now injection Hf as <-].
    - destruct l; [discriminate|now injection Hf as <-]. }
  split; [repeat split; assumption|].
  split; [exact Hb|]. split; [exact Hlt|].
  split; [exact He|]. split; [exact Hg|exact Hs].
Qed.

Lemma at_most_await_bigint (q : call -> bool) (c : call) :
  at_most 1 q (await_bigint c).
Proof.
  unfold await_bigint. apply at_most_before; [apply at_most_await|].
  intros v. destruct v; first [apply at_most_ret|apply at_most_throw].
Qed.

(** X9. One call of [sendTip] of [Web3Service] reads the balance at most
    once, asks for gas figures at most twice and submits at most one
    transaction.  An amount that fails the pattern of the method, or
    does not convert to base units and back to the same number, is
    refused before the balance is read: the call fails without a balance
    request, a gas request or a submission. *)
Theorem web3_tip_checks_the_amount_first
    (toAddress amount : string) (w : world) :
  let run := Web3Service.sendTip toAddress amount w in
  let cs := calls_since w (snd run) in
  (count is_balance_request cs <= 1)%nat
  /\ (count is_gas_estimation cs <= 2)%nat
  /\ (count is_submission cs <= 1)%nat
  /\ ((forall wei, ~ amount_passes amount wei) ->
      (exists e, fst run = Throw e)
      /\ count is_balance_request cs = 0%nat
      /\ count is_gas_estimation cs = 0%nat
      /\ count is_submission cs = 0%nat).
Proof.
  intros run cs. unfold cs, run. split; [|split; [|split]];
    [| | |intros Hfails; split; [|split; [|split]]].
  - apply count_calls_since. unfold Web3Service.sendTip.
    apply (at_most_cond 1 _ (fun w => negb (web3 w) || negb (ethereum w)) (throw _));
      [apply at_most_throw|].
    apply at_most_after.
    { rewrite verifyNetwork_same. now apply at_most_verifyNetwork. }
    intros ok. destruct (negb ok); [apply at_most_throw|].
    apply at_most_caught; [|intros e; apply at_most_throw].
    apply at_most_after; [now apply at_most_ethereum_request_other|intros accounts].
    apply at_most_after; [apply at_most_first_account|intros fromAddress].
    destruct (negb _); [apply at_most_throw|].
    destruct (Units.toBaseUnits amount) as [wei|]; [|apply at_most_throw].
    destruct (JS.neqb _ _); [apply at_most_throw|].
    apply at_most_before.
    + unfold Web3Service.getBalance.
      apply (at_most_cond 1 _ (fun w => negb (web3 w)) (throw _) (try_catch _ _));
        [apply at_most_throw|].
      apply at_most_caught; [|intros e; apply at_most_throw].
      apply at_most_before; [apply at_most_await_bigint|].
      intros balanceWei. apply at_most_ret.
    + intros balance. destruct (JS.ltb _ _); [apply at_most_throw|].
      apply at_most_after; [now apply at_most_await_bigint_other|intros gasEstimate].
      apply at_most_after; [now apply at_most_await_bigint_other|intros gasPrice].
      now apply at_most_ethereum_request_other.
  - apply count_calls_since. apply web3_sendTip_at_most; try reflexivity.
    intros wei _ fromAddress.
    apply (at_most_bind 1 1); [apply at_most_await_bigint|intros gasEstimate].
    apply at_most_before; [apply at_most_await_bigint|intros gasPrice].
    now apply at_most_ethereum_request_other.
  - apply count_calls_since. apply web3_sendTip_at_most; try reflexivity.
    intros wei _ fromAddress.
    apply at_most_after; [now apply at_most_await_bigint_other|intros gasEstimate].
    apply at_most_after; [now apply at_most_await_bigint_other|intros gasPrice].
    apply at_most_ethereum_request.
  - destruct (Web3Service.sendTip toAddress amount w) as [[H|e] w'] eqn:Hrun;
      [|cbn [fst]; eauto].
    apply web3_sendTip_ret in Hrun.
    destruct Hrun as (? & ? & wei & ? & ? & ? & Hrun). cbv zeta in Hrun.
    now destruct (Hfails wei) as []; apply Hrun.
  - assert (Hq : at_most 0 is_balance_request (Web3Service.sendTip toAddress amount)).
    { apply web3_sendTip_at_most; try reflexivity.
      - intros wei address Hp. now destruct (Hfails wei).
      - intros wei Hp. now destruct (Hfails wei). }
    pose proof (count_calls_since 0 _ _ w Hq). lia.
  - assert (Hq : at_most 0 is_gas_estimation (Web3Service.sendTip toAddress amount)).
    { apply web3_sendTip_at_most; try reflexivity.
      intros wei Hp. now destruct (Hfails wei). }
    pose proof (count_calls_since 0 _ _ w Hq). lia.
  - assert (Hq : at_most 0 is_submission (Web3Service.sendTip toAddress amount)).
    { apply web3_sendTip_at_most; try reflexivity.
      intros wei Hp. now destruct (Hfails wei). }
    pose proof (count_calls_since 0 _ _ w Hq). lia.
Qed.

Lemma web3_tip_checks_the_amount_first_witness :
  let run := Web3Service.sendTip Scenario.bob_address "1e-3" Scenario.on_shardeum in
  (exists e, fst run = Throw e)
  /\ count is_balance_request (calls_since Scenario.on_shardeum (snd run)) = 0%nat
  /\ count is_gas_estimation (calls_since Scenario.on_shardeum (snd run)) = 0%nat
  /\ count is_submission (calls_since Scenario.on_shardeum (snd run)) = 0%nat.
Proof.
  destruct (web3_tip_checks_the_amount_first Scenario.bob_address "1e-3"
              Scenario.on_shardeum) as (_ & _ & _ & Hrefused).
  apply Hrefused. intros wei (Hpattern & _). discriminate Hpattern.
Defined.

(** X10. A tip of [Web3Service] that returns a hash has made exactly six
    calls, in this order: the chain id (answered ['0x1f93']), the
    accounts of the wallet, the balance of the first of the accounts the
    wallet answered, the gas estimate, the gas price, and the submission,
    which is sent from that same account.  The amount had passed
    the pattern and the conversion check, and the balance read was not
    below it.  The submission carries the amount in base units as a
    decimal string and the two gas figures in hexadecimal, and the hash
    is what the wallet answered to it.  Nothing but the calls made
    changes in the page. *)
Theorem successful_web3_tip_call_order
    (toAddress amount : string) (w w' : world) (H : value) :
  Web3Service.sendTip toAddress amount w = (Ret H, w') ->
  exists accounts fromAddress wei balanceWei gasEstimate gasPrice,
    let estimate :=
      Web3EstimateGas
        (VObj [ ("from", fromAddress); ("to", VStr toAddress);
                ("value", VStr (JS.decimal_string wei)) ]) in
    let submission :=
      EthRequest "eth_sendTransaction"
        [ VObj [ ("from", fromAddress); ("to", VStr toAddress);
                 ("value", VStr (JS.decimal_string wei));
                 ("gas", VStr ("0x" +:+ JS.hex_string gasEstimate));
                 ("gasPrice", VStr ("0x" +:+ JS.hex_string gasPrice)) ] ] in
    let before_submission :=
      [ chain_id_call; EthRequest "eth_accounts" []; Web3GetBalance fromAddress;
        estimate; Web3GetGasPrice ] in
    calls_since w w' = before_submission ++ [submission]
    /\ w' = with_trace (trace w ++ before_submission ++ [submission]) w
    /\ oracle w (trace w) chain_id_call = Resolve (VStr Web3Service.SHARDEUM_CHAIN_ID)
    /\ oracle w (trace w ++ [chain_id_call]) (EthRequest "eth_accounts" [])
       = Resolve accounts
    /\ Web3Service.first_account accounts w = (Ret fromAddress, w)
    /\ (forall a rest, accounts = VArr (a :: rest) -> fromAddress = a)
    /\ amount_passes amount wei
    /\ oracle w (trace w ++ [chain_id_call; EthRequest "eth_accounts" []])
         (Web3GetBalance fromAddress)
       = Resolve (VBigInt balanceWei)
    /\ JS.ltb (JS.parseFloat (Units.fromBaseUnits balanceWei)) (JS.parseFloat amount)
       = false
    /\ oracle w (trace w ++ [ chain_id_call; EthRequest "eth_accounts" [];
                             Web3GetBalance fromAddress ]) estimate
       = Resolve (VBigInt gasEstimate)
    /\ oracle w (trace w ++ [ chain_id_call; EthRequest "eth_accounts" [];
                             Web3GetBalance fromAddress; estimate ]) Web3GetGasPrice
       = Resolve (VBigInt gasPrice)
    /\ oracle w (trace w ++ before_submission) submission = Resolve H.
Proof.
  intros Hrun. apply web3_sendTip_ret in Hrun.
  destruct Hrun as (accounts & fromAddress & wei & balanceWei & gasEstimate & gasPrice
                    & Hrun).
  cbv zeta in Hrun. cbn [app] in Hrun.
  destruct Hrun as (-> & _ & _ & Hchain & Haccounts & Hfirst & Hp & Hb & Hlt
                    & He & Hg & Hs).
  exists accounts, fromAddress, wei, balanceWei, gasEstimate, gasPrice.
  cbv zeta. cbn [app].
  split; [now apply calls_since_app|]. split; [reflexivity|].
  split; [exact Hchain|]. split; [exact Haccounts|]. split; [exact Hfirst|].
  split.
  { intros a rest ->. cbn [Web3Service.first_account] in Hfirst.
    now injection Hfirst as <-. }
  repeat split; try assumption; apply Hp.
Qed.

Lemma successful_web3_tip_call_order_witness :
  exists fromAddress wei balanceWei,
    calls_since Scenario.on_shardeum
      (snd (Web3Service.sendTip Scenario.bob_address "0.01" Scenario.on_shardeum))
    = [ chain_id_call; EthRequest "eth_accounts" []; Web3GetBalance fromAddress;
        Web3EstimateGas
          (VObj [ ("from", fromAddress); ("to", VStr Scenario.bob_address);
                  ("value", VStr (JS.decimal_string wei)) ]);
        Web3GetGasPrice;
        EthRequest "eth_sendTransaction"
          [ VObj [ ("from", fromAddress); ("to", VStr Scenario.bob_address);
                   ("value", VStr (JS.decimal_string wei));
                   ("gas", VStr "0x5208"); ("gasPrice", VStr "0x3b9aca00") ] ] ]
    /\ fromAddress = VStr Scenario.alice_address
    /\ Units.toBaseUnits "0.01" = Some wei
    /\ JS.ltb (JS.parseFloat (Units.fromBaseUnits balanceWei)) (JS.parseFloat "0.01")
       = false.
Proof.
  destruct (successful_web3_tip_call_order Scenario.bob_address "0.01"
              Scenario.on_shardeum
              (snd (Web3Service.sendTip Scenario.bob_address "0.01"
                      Scenario.on_shardeum))
              (VStr "0xabc123") eq_refl)
    as (accounts & fromAddress & wei & balanceWei & gasEstimate & gasPrice & Hrun).
  cbv zeta in Hrun.
  destruct Hrun as (Hcalls & _ & _ & Haccounts & _ & Hfirst & Hp & _ & Hlt
                    & He & Hg & _).
  injection He as <-. injection Hg as <-.
  exists fromAddress, wei, balanceWei.
  split; [exact Hcalls|].
  split; [now apply (Hfirst _ []); injection Haccounts as <-|].
  split; [apply Hp|exact Hlt].
Defined.

(** ** Runs under an assumption on the answers *)

Lemma guarded_lift {A} (C : world -> Prop) (n : nat) (q : call -> bool) (m : M A) :
  (forall w w', oracle w' = oracle w -> C w -> C w') ->
  client m -> at_most n q m -> guarded C n q m.
Proof.
  intros HC Hclient Hm w Hw. split; [|apply Hm].
  apply (HC w); [apply Hclient|exact Hw].
Qed.

Lemma guarded_bind {A B} (C : world -> Prop) (R : A -> Prop) (n k : nat)
    (q : call -> bool) (m : M A) (f : A -> M B) :
  guarded C n q m ->
  (forall w a w', C w -> m w = (Ret a, w') -> R a) ->
  (forall a, R a -> guarded C k q (f a)) ->
  guarded C (n + k) q (bind m f).
Proof.
  intros Hm HR Hf w Hw. unfold run_shape, bind.
  destruct (Hm w Hw) as (HC1 & cs1 & Ht1 & Hc1).
  specialize (HR w).
  destruct (m w) as [[a|e] w1]; cbn [fst snd] in *.
  - destruct (Hf a (HR a w1 Hw eq_refl) w1 HC1) as (HC2 & cs2 & Ht2 & Hc2).
    split; [exact HC2|]. exists (cs1 ++ cs2).
    split; [now rewrite Ht2, Ht1, app_assoc|]. rewrite count_app. lia.
  - split; [exact HC1|]. exists cs1. split; [exact Ht1|lia].
Qed.

Lemma guarded_try_catch {A} (C : world -> Prop) (n k : nat) (q : call -> bool)
    (m : M A) (h : js_error -> M A) :
  guarded C n q m -> (forall e, guarded C k q (h e)) ->
  guarded C (n + k) q (try_catch m h).
Proof.
  intros Hm Hh w Hw. unfold run_shape, try_catch.
  destruct (Hm w Hw) as (HC1 & cs1 & Ht1 & Hc1).
  destruct (m w) as [[a|e] w1]; cbn [fst snd] in *.
  - split; [exact HC1|]. exists cs1. split; [exact Ht1|lia].
  - destruct (Hh e w1 HC1) as (HC2 & cs2 & Ht2 & Hc2).
    split; [exact HC2|]. exists (cs1 ++ cs2).
    split; [now rewrite Ht2, Ht1, app_assoc|]. rewrite count_app. lia.
Qed.

Lemma guarded_cond {A} (C : world -> Prop) (n : nat) (q : call -> bool)
    (b : world -> bool) (m1 m2 : M A) :
  guarded C n q m1 -> guarded C n q m2 ->
  guarded C n q (fun w => if b w then m1 w else m2 w).
Proof.
  intros H1 H2 w Hw. unfold run_shape. destruct (b w); [now apply H1|now apply H2].
Qed.

Lemma client_first_account (accounts : value) :
  client (Web3Service.first_account accounts).
Proof.
  destruct accounts as [| | | | |s|l|]; cbn [Web3Service.first_account];
    auto with client.
  - destruct s; auto with client.
  - destruct l; auto with client.
Qed.

Lemma client_getBalance (address : value) : client (Web3Service.getBalance address).
Proof.
  unfold Web3Service.getBalance.
  apply (client_cond (fun w => negb (web3 w)) (throw _) (try_catch _ _));
    [auto with client|].
  apply client_try_catch; [|auto with client].
  apply client_bind; [|auto with client].
  unfold await_bigint. apply client_bind; [auto with client|].
  intros v. destruct v; auto with client.
Qed.

(** X11. When the balance the wallet reports is below the amount, a tip
    of [Web3Service] fails, and it fails without asking for a gas
    estimate or a gas price and without submitting anything, whatever
    else the wallet answers. *)
Theorem web3_tip_needs_the_balance
    (toAddress amount : string) (w : world) (balanceWei : Z) :
  (forall h address,
      oracle w h (Web3GetBalance address) = Resolve (VBigInt balanceWei)) ->
  JS.ltb (JS.parseFloat (Units.fromBaseUnits balanceWei)) (JS.parseFloat amount) = true ->
  let run := Web3Service.sendTip toAddress amount w in
  let cs := calls_since w (snd run) in
  (exists e, fst run = Throw e)
  /\ count is_gas_estimation cs = 0%nat
  /\ count is_submission cs = 0%nat.
Proof.
  intros Hbalance Hbelow run cs. unfold cs, run. split.
  { destruct (Web3Service.sendTip toAddress amount w) as [[H|e] w'] eqn:Hrun;
      [|cbn [fst]; eauto].
    apply web3_sendTip_ret in Hrun.
    destruct Hrun as (? & fromAddress & ? & b & ? & ? & Hrun). cbv zeta in Hrun.
    destruct Hrun as (_ & _ & _ & _ & _ & _ & _ & Hb & Hlt & _).
    rewrite Hbalance in Hb. injection Hb as <-. congruence. }
  set (C := fun w0 : world =>
              forall h address,
                oracle w0 h (Web3GetBalance address) = Resolve (VBigInt balanceWei)).
  assert (HC : forall w0 w1, oracle w1 = oracle w0 -> C w0 -> C w1).
  { intros w0 w1 E H0 h address. rewrite E. apply H0. }
  assert (Hquiet : forall q,
             q chain_id_call = false -> q (EthRequest "eth_accounts" []) = false ->
             (forall address, q (Web3GetBalance address) = false) ->
             guarded C 0 q (Web3Service.sendTip toAddress amount)).
  { intros q Hq1 Hq2 Hq3. unfold Web3Service.sendTip.
    apply (guarded_cond C 0 q (fun w => negb (web3 w) || negb (ethereum w)) (throw _)).
    { apply guarded_lift; [exact HC|apply client_throw|apply at_most_throw]. }
    apply (guarded_bind C (fun _ => True) 0 0); [|auto|intros ok _].
    { rewrite verifyNetwork_same.
      apply guarded_lift;
        [exact HC|apply client_verifyNetwork|now apply at_most_verifyNetwork]. }
    destruct (negb ok).
    { apply guarded_lift; [exact HC|apply client_throw|apply at_most_throw]. }
    apply (guarded_try_catch C 0 0).
    2:{ intros e. apply guarded_lift;
          [exact HC|apply client_throw|apply at_most_throw]. }
    apply (guarded_bind C (fun _ => True) 0 0); [|auto|intros accounts _].
    { apply guarded_lift; [exact HC|apply client_ethereum_request|].
      now apply at_most_ethereum_request_other. }
    apply (guarded_bind C (fun _ => True) 0 0); [|auto|intros fromAddress _].
    { apply guarded_lift;
        [exact HC|apply client_first_account|apply at_most_first_account]. }
    destruct (negb _).
    { apply guarded_lift; [exact HC|apply client_throw|apply at_most_throw]. }
    destruct (Units.toBaseUnits amount) as [wei|].
    2:{ apply guarded_lift; [exact HC|apply client_throw|apply at_most_throw]. }
    destruct (JS.neqb _ _).
    { apply guarded_lift; [exact HC|apply client_throw|apply at_most_throw]. }
    apply (guarded_bind C (fun balance => balance = Units.fromBaseUnits balanceWei) 0 0).
    - apply guarded_lift;
        [exact HC|apply client_getBalance|now apply at_most_getBalance].
    - intros w0 balance w1 H0 Hrun. apply getBalance_ret in Hrun.
      destruct Hrun as (b & _ & Hb & -> & _). rewrite H0 in Hb. now injection Hb as <-.
    - intros balance ->. rewrite Hbelow.
      apply guarded_lift; [exact HC|apply client_throw|apply at_most_throw]. }
  split.
  - destruct (Hquiet is_gas_estimation eq_refl eq_refl (fun _ => eq_refl) w Hbalance)
      as (_ & cs0 & Ht & Hc).
    rewrite (calls_since_app _ _ _ Ht). lia.
  - destruct (Hquiet is_submission eq_refl eq_refl (fun _ => eq_refl) w Hbalance)
      as (_ & cs0 & Ht & Hc).
    rewrite (calls_since_app _ _ _ Ht). lia.
Qed.

Lemma web3_tip_needs_the_balance_witness :
  let run := Web3Service.sendTip Scenario.bob_address "1" Scenario.on_shardeum in
  (exists e, fst run = Throw e)
  /\ count is_gas_estimation (calls_since Scenario.on_shardeum (snd run)) = 0%nat
  /\ count is_submission (calls_since Scenario.on_shardeum (snd run)) = 0%nat.
Proof.
  apply (web3_tip_needs_the_balance Scenario.bob_address "1" Scenario.on_shardeum
           50000000000000000).
  - intros h address. reflexivity.
  - vm_compute. reflexivity.
Defined.

(** ** Connecting the wallet *)

Lemma try_catch_wrapped {A} (m : M A) (wrap : js_error -> js_error)
    (w : world) (e : js_error) :
  fst (try_catch m (fun error => throw (wrap error)) w) = Throw e ->
  exists e0, fst (m w) = Throw e0 /\ e = wrap e0.
Proof.
  unfold try_catch, throw. destruct (m w) as [[a|e0] w1]; cbn [fst];
    [discriminate|]. intros [= <-]. eauto.
Qed.

Lemma requested_account_ret (accounts a : value) (w w' : world) :
  Web3Service.requested_account accounts w = (Ret a, w') -> w' = w.
Proof.
  destruct accounts as [| | | | |s|l|]; cbn [Web3Service.requested_account];
    try discriminate; try (now intros [= _ <-]).
  - destruct s; [discriminate|now intros [= _ <-]].
  - destruct l; [discriminate|now intros [= _ <-]].
Qed.

(** X12. [connectWallet] of [Web3Service].  Without a wallet extension it
    fails with ['MetaMask is not installed'] and asks nothing.  With
    one, every failure is reported as ['Failed to connect wallet: ...'],
    an empty list of accounts as ['... No accounts found'] after the one
    request.  When it succeeds it has asked, in this order, for the
    accounts, for the chain id and for the balance of the first account,
    and it returns that account, the chain id as the wallet gave it, and
    the balance as the decimal string of the base units read, which
    converts back to exactly these base units. *)
Theorem connect_wallet_outcomes (w : world) :
  let run := Web3Service.connectWallet w in
  let request := EthRequest "eth_requestAccounts" [] in
  (ethereum w = false -> run = (Throw (Error "MetaMask is not installed"), w))
  /\ (forall e, ethereum w = true -> fst run = Throw e ->
                exists reason, e = Error ("Failed to connect wallet: " +:+ reason))
  /\ (ethereum w = true -> oracle w (trace w) request = Resolve (VArr []) ->
      run = (Throw (Error "Failed to connect wallet: No accounts found"),
             with_trace (trace w ++ [request]) w))
  /\ (forall state, fst run = Ret state ->
        exists accounts address chainId balanceWei,
          snd run
          = with_trace (trace w ++ [request; chain_id_call; Web3GetBalance address]) w
          /\ oracle w (trace w) request = Resolve accounts
          /\ Web3Service.requested_account accounts w = (Ret address, w)
          /\ oracle w (trace w ++ [request]) chain_id_call = Resolve chainId
          /\ oracle w (trace w ++ [request; chain_id_call]) (Web3GetBalance address)
             = Resolve (VBigInt balanceWei)
          /\ state = VObj [ ("isConnected", VBool true);
                            ("address", address);
                            ("balance", VStr (Units.fromBaseUnits balanceWei));
                            ("chainId", chainId) ]
          /\ Units.toBaseUnits (Units.fromBaseUnits balanceWei) = Some balanceWei).
Proof.
  intros run request. unfold run, Web3Service.connectWallet,
    Web3Service.isMetaMaskInstalled.
  split; [now intros ->|]. split; [|split].
  - intros e -> Hthrow. cbn [negb] in Hthrow.
    apply try_catch_wrapped in Hthrow. destruct Hthrow as (e0 & _ & ->). eauto.
  - intros Heth Hempty. rewrite Heth. cbn [negb].
    unfold try_catch, bind, ethereum_request. rewrite Heth, await_run.
    fold request. now rewrite Hempty.
  - intros state Hret.
    destruct (ethereum w) eqn:Heth; [|discriminate]. cbn [negb] in Hret.
    destruct (try_catch _ _ w) as [r w'] eqn:Hrun. cbn [fst] in Hret. subst r.
    apply try_catch_ret_inv in Hrun.
    apply bind_ret_inv in Hrun. destruct Hrun as (accounts & w1 & Ha & Hrun).
    apply ethereum_request_ret in Ha. destruct Ha as (_ & Ha & ->).
    apply bind_ret_inv in Hrun. destruct Hrun as (address & w2 & Hf & Hrun).
    pose proof (requested_account_ret _ _ _ _ Hf) as ->.
    apply bind_ret_inv in Hrun. destruct Hrun as (chainId & w3 & Hc & Hrun).
    apply ethereum_request_ret in Hc. destruct Hc as (_ & Hc & ->).
    apply bind_ret_inv in Hrun. destruct Hrun as (balance & w4 & Hb & Hrun).
    apply getBalance_ret in Hb. destruct Hb as (balanceWei & _ & Hb & -> & ->).
    injection Hrun as <- <-.
    cbn [oracle trace with_trace] in *. rewrite <- !app_assoc in *. cbn [app] in *.
    exists accounts, address, chainId, balanceWei. cbn [snd].
    split; [reflexivity|]. split; [exact Ha|]. split.
    { destruct accounts as [| | | | |s|l|]; cbn [Web3Service.requested_account] in *;
        try discriminate; try (now injection Hf as <-).
      - destruct s; [discriminate|now injection Hf as <-].
      - destruct l; [discriminate|now injection Hf as <-]. }
    split; [exact Hc|]. split; [exact Hb|]. split; [reflexivity|].
    apply toBaseUnits_fromBaseUnits.
Qed.

Lemma connect_wallet_outcomes_witness :
  let w := Scenario.start (Scenario.unlocked "0x1f93") in
  exists accounts address chainId balanceWei,
    snd (Web3Service.connectWallet w)
    = with_trace [ EthRequest "eth_requestAccounts" []; chain_id_call;
                   Web3GetBalance address ] w
    /\ oracle w [] (EthRequest "eth_requestAccounts" []) = Resolve accounts
    /\ address = VStr Scenario.alice_address
    /\ chainId = VStr "0x1f93"
    /\ Units.fromBaseUnits balanceWei = "0.05".
Proof.
  intros w.
  destruct (connect_wallet_outcomes w) as (_ & _ & _ & Hret).
  destruct (Hret (VObj [ ("isConnected", VBool true);
                         ("address", VStr Scenario.alice_address);
                         ("balance", VStr "0.05");
                         ("chainId", VStr "0x1f93") ]))
    as (accounts & address & chainId & balanceWei & Hw & Ha & Hf & _ & _ & Hstate & _);
    [vm_compute; reflexivity|].
  injection Hstate as <- Hb <-.
  exists accounts, (VStr Scenario.alice_address), (VStr "0x1f93"), balanceWei.
  split; [exact Hw|]. split; [exact Ha|]. repeat split. now symmetry.
Defined.

(** ** The network check and the network badge *)

(** X13. [verifyNetwork] (of both services) never fails and asks the
    wallet at most once; it answers [true] exactly when the wallet is
    there and reports the chain id ['0x1f93'], in exactly this spelling.
    [checkNetwork] of the network badge makes the same request; when the
    wallet answers, its [isCorrect] is the answer of [verifyNetwork], and
    it names the network ['Shardeum Testnet'] exactly when it is correct.
    When the request fails the badge keeps what it showed before, while
    [verifyNetwork] answers [false]. *)
Theorem network_badge_agrees_with_the_send_check
    (networkInfo : NetworkStatus.network_info) (w : world) :
  let answer := oracle w (trace w) chain_id_call in
  exists ok shown,
    ShardeumAPI.verifyNetwork w = (Ret ok, snd (ShardeumAPI.verifyNetwork w))
    /\ Web3Service.verifyNetwork w = ShardeumAPI.verifyNetwork w
    /\ NetworkStatus.checkNetwork networkInfo w
       = (Ret shown, snd (ShardeumAPI.verifyNetwork w))
    /\ calls_since w (snd (ShardeumAPI.verifyNetwork w))
       = (if ethereum w then [chain_id_call] else [])
    /\ (ok = true <->
        ethereum w = true /\ answer = Resolve (VStr "0x1f93"))
    /\ (forall chainId,
           ethereum w = true -> answer = Resolve chainId ->
           NetworkStatus.chainId shown = chainId
           /\ NetworkStatus.isCorrect shown = ok
           /\ (ok = true <-> NetworkStatus.networkName shown = "Shardeum Testnet"))
    /\ (ethereum w = false \/ (exists e, answer = Reject e) ->
        shown = networkInfo /\ ok = false).
Proof.
  intros answer. unfold answer.
  rewrite verifyNetwork_same, verifyNetwork_run.
  unfold NetworkStatus.checkNetwork, try_catch, bind.
  destruct (ethereum w) eqn:Heth.
  - rewrite await_run. fold chain_id_call.
    destruct (oracle w (trace w) chain_id_call) as [chainId|e] eqn:Ho.
    + do 2 eexists. cbn [fst snd ret].
      split; [reflexivity|]. split; [reflexivity|]. split; [reflexivity|].
      split; [now apply calls_since_app|]. split.
      { split.
        - intros Hok. apply is_string_true in Hok. now subst chainId.
        - intros (_ & [= ->]). reflexivity. }
      split.
      { intros chainId' _ [= <-]. cbn [NetworkStatus.chainId NetworkStatus.isCorrect
                                       NetworkStatus.networkName].
        split; [reflexivity|]. split; [reflexivity|].
        unfold NetworkStatus.network_name, NetworkStatus.EXPECTED_CHAIN_ID,
          NetworkStatus.EXPECTED_NETWORK, ShardeumAPI.SHARDEUM_CHAIN_ID.
        destruct chainId as [| | | | |s| |]; cbn [Val.is_string];
          try (split; discriminate).
        destruct (String.eqb_spec s "0x1") as [->|_]; [split; discriminate|].
        destruct (String.eqb_spec s "0x5") as [->|_]; [split; discriminate|].
        destruct (String.eqb_spec s "0x89") as [->|_]; [split; discriminate|].
        destruct (String.eqb_spec s "0x1f93") as [->|_]; [split; reflexivity|].
        split; discriminate. }
      intros [Hno|(e & He)]; discriminate.
    + do 2 eexists. cbn [fst snd ret].
      split; [reflexivity|]. split; [reflexivity|]. split; [reflexivity|].
      split; [now apply calls_since_app|]. split.
      { split; [discriminate|]. intros (_ & E). discriminate E. }
      split; [intros chainId _ E; discriminate E|]. auto.
  - do 2 eexists. cbn [fst snd ret].
    split; [reflexivity|]. split; [reflexivity|]. split; [reflexivity|].
    split; [apply calls_since_refl|]. split.
    { split; [discriminate|]. intros (E & _). discriminate E. }
    split; [intros chainId E; discriminate E|]. auto.
Qed.

(** X14. [isWalletConnected] never fails.  It answers [true] exactly when
    the wallet is there and answers the request for its accounts with a
    list that is not empty; a rejected request, and a missing wallet,
    give [false].  It makes that one request and no other. *)
Theorem wallet_is_connected_iff_it_lists_an_account (w : world) :
  let request := EthRequest "eth_accounts" [] in
  exists connected,
    fst (ShardeumAPI.isWalletConnected w) = Ret connected
    /\ calls_since w (snd (ShardeumAPI.isWalletConnected w))
       = (if ethereum w then [request] else [])
    /\ (connected = true <->
        ethereum w = true
        /\ exists accounts,
             oracle w (trace w) request = Resolve accounts
             /\ ShardeumAPI.not_empty accounts = Some true)
    /\ (forall account rest,
           ethereum w = true ->
           oracle w (trace w) request = Resolve (VArr (account :: rest)) ->
           connected = true)
    /\ (ethereum w = true ->
        oracle w (trace w) request = Resolve (VArr []) -> connected = false).
Proof.
  intros request. unfold ShardeumAPI.isWalletConnected, try_catch, bind,
    ethereum_request.
  destruct (ethereum w) eqn:Heth; cbn [negb].
  - rewrite await_run. fold request.
    destruct (oracle w (trace w) request) as [accounts|e] eqn:Ho.
    + destruct (ShardeumAPI.not_empty accounts) as [b|] eqn:Hne; cbn [fst snd ret throw].
      * exists b. split; [reflexivity|]. split; [now apply calls_since_app|].
        split; [|split].
        -- split; [intros ->; eauto|].
           intros (_ & accounts' & [= <-] & Hb). congruence.
        -- intros account rest _ [= ->]. cbn in Hne. congruence.
        -- intros _ [= ->]. cbn in Hne. congruence.
      * exists false. split; [reflexivity|]. split; [now apply calls_since_app|].
        split; [|split].
        -- split; [discriminate|].
           intros (_ & accounts' & [= <-] & Hb). congruence.
        -- intros account rest _ [= ->]. discriminate Hne.
        -- reflexivity.
    + exists false. cbn [fst snd ret]. split; [reflexivity|].
      split; [now apply calls_since_app|]. split; [|split].
      * split; [discriminate|]. intros (_ & accounts & E & _). discriminate E.
      * intros account rest _ E. discriminate E.
      * reflexivity.
  - exists false. cbn [fst snd]. split; [reflexivity|].
    split; [apply calls_since_refl|]. split; [|split].
    + split; [discriminate|]. intros (E & _). discriminate E.
    + intros account rest E. discriminate E.
    + reflexivity.
Qed.

(** ** A page without a wallet *)

(** X15. On a page without a wallet extension no method of the services
    asks anything of anyone: connecting and switching the network fail
    with ['MetaMask is not installed'], the network check and the
    connection check answer [false], the badge keeps its state, a tip of
    [Web3Service] fails with ['Web3 not initialized'], a send of
    [ShardeumAPI] that has no provider yet fails with the not-connected
    error (with the wrong-network error if a signer was kept), and
    subscribing and unsubscribing do nothing. *)
Theorem without_a_wallet_nothing_is_asked
    (w : world) (to amount : string) (gasLimit : option Z)
    (networkInfo : NetworkStatus.network_info) (callback : handler) :
  ethereum w = false ->
  Web3Service.connectWallet w = (Throw (Error "MetaMask is not installed"), w)
  /\ ShardeumAPI.switchToShardeum w = (Throw (Error "MetaMask is not installed"), w)
  /\ ShardeumAPI.verifyNetwork w = (Ret false, w)
  /\ ShardeumAPI.isWalletConnected w = (Ret false, w)
  /\ NetworkStatus.checkNetwork networkInfo w = (Ret networkInfo, w)
  /\ Web3Service.sendTip to amount w = (Throw Web3Service.not_initialized, w)
  /\ (api_provider w = false ->
      ShardeumAPI.sendTransaction to amount gasLimit w
      = (Throw (if api_signer w then ShardeumAPI.wrong_network
                else ShardeumAPI.not_connected), w))
  /\ ShardeumAPI.onAccountsChanged callback w = w
  /\ ShardeumAPI.onChainChanged callback w = w
  /\ ShardeumAPI.removeAllListeners w = w.
Proof.
  intros Heth.
  split; [unfold Web3Service.connectWallet, Web3Service.isMetaMaskInstalled;
          now rewrite Heth|].
  split; [unfold ShardeumAPI.switchToShardeum; now rewrite Heth|].
  split; [now rewrite verifyNetwork_run, Heth|].
  split; [unfold ShardeumAPI.isWalletConnected, try_catch; now rewrite Heth|].
  split; [unfold NetworkStatus.checkNetwork, try_catch; now rewrite Heth|].
  split; [unfold Web3Service.sendTip; rewrite Heth; cbn [negb];
          now rewrite orb_true_r|].
  split.
  - intros Hprov. unfold ShardeumAPI.sendTransaction. rewrite try_catch_rethrow.
    unfold bind at 1. unfold ShardeumAPI.init_provider.
    rewrite Heth, andb_false_r. unfold bind at 1. unfold ShardeumAPI.init_signer.
    rewrite Hprov, andb_false_r.
    destruct (api_signer w) eqn:Hsig; cbn [negb]; [|reflexivity].
    unfold bind at 1. now rewrite verifyNetwork_run, Heth.
  - unfold ShardeumAPI.onAccountsChanged, ShardeumAPI.onChainChanged,
      ShardeumAPI.removeAllListeners. now rewrite Heth.
Qed.

Lemma without_a_wallet_nothing_is_asked_witness :
  Web3Service.connectWallet Scenario.no_wallet
  = (Throw (Error "MetaMask is not installed"), Scenario.no_wallet)
  /\ ShardeumAPI.sendTransaction Scenario.bob_address "0.01" None Scenario.no_wallet
     = (Throw ShardeumAPI.not_connected, Scenario.no_wallet).
Proof.
  destruct (without_a_wallet_nothing_is_asked Scenario.no_wallet
              Scenario.bob_address "0.01" None NetworkStatus.initial 1%nat eq_refl)
    as (Hconnect & _ & _ & _ & _ & _ & Hsend & _).
  split; [exact Hconnect|]. exact (Hsend eq_refl).
Defined.

(** ** What the tip dialog can do *)




(** ** What the pages show *)

(** X17. The history page marks a tip as sent exactly when its sender,
    compared without regard to letter case, is the address of the
    connected wallet; with no wallet connected every tip is marked as
    received.  So a tip recorded through [POST /api/tips] is marked as
    sent for the wallet that posted it, however that wallet spells its
    address, and a tip to oneself is marked as sent. *)
Theorem recorded_tip_is_marked_as_sent
    (tx : Store.tip) (walletState : TipModal.wallet_state) :
  (TipModal.address walletState = None ->
   TransactionHistory.getTransactionType tx walletState = TransactionHistory.received)
  /\ (forall a,
         TipModal.address walletState = Some a ->
         (TransactionHistory.getTransactionType tx walletState = TransactionHistory.sent
          <-> JS.toLowerCase (Store.fromAddress tx) = JS.toLowerCase a))
  /\ (forall (body : value) (w : world) (from to a : string) (t : Store.tip),
         Val.field "fromAddress" body = VStr from -> from <> "" ->
         Val.field "toAddress" body = VStr to -> to <> "" ->
         Val.truthy (Val.field "amount" body) = true ->
         Val.truthy (Val.field "txHash" body) = true ->
         Store.transactions (store (snd (Server.post_tips body w)))
         = Store.transactions (store w) ++ [t] ->
         TipModal.address walletState = Some a ->
         (TransactionHistory.getTransactionType t walletState = TransactionHistory.sent
          <-> JS.toLowerCase a = JS.toLowerCase from)).
Proof.
  unfold TransactionHistory.getTransactionType. split; [now intros ->|]. split.
  - intros a ->. destruct (String.eqb_spec (JS.toLowerCase (Store.fromAddress tx))
                             (JS.toLowerCase a)); split; congruence.
  - intros body w from to a t Hf Hfne Ht Htne Ha Hh Hstore ->.
    rewrite (post_tips_accepted body w from to Hf Hfne Ht Htne Ha Hh) in Hstore.
    cbn [snd store with_store Store.transactions] in Hstore.
    apply app_inv_head in Hstore. injection Hstore as <-.
    cbn [Store.fromAddress]. rewrite toLowerCase_idempotent.
    destruct (String.eqb_spec (JS.toLowerCase from) (JS.toLowerCase a));
      split; congruence.
Qed.

(** X18. [formatAddress] (the same in both services) gives the empty
    string for the empty string, and otherwise the first six characters,
    three dots and the last four characters of the address.  For an
    address of ten characters or more nothing is shown twice, and the
    result has thirteen characters. *)
Theorem formatAddress_shape (address : string) :
  let cs := list_ascii_of_string address in
  let shown := list_ascii_of_string (ShardeumAPI.formatAddress address) in
  Web3Service.formatAddress address = ShardeumAPI.formatAddress address
  /\ (address = "" -> ShardeumAPI.formatAddress address = "")
  /\ (address <> "" ->
      shown = firstn 6 cs ++ list_ascii_of_string "..." ++ skipn (length cs - 4) cs
      /\ length shown = (Nat.min 6 (length cs) + 3 + Nat.min 4 (length cs))%nat)
  /\ ((10 <= length cs)%nat ->
      length shown = 13%nat
      /\ exists hidden,
           cs = firstn 6 shown ++ hidden ++ skipn 9 shown
           /\ length hidden = (length cs - 10)%nat).
Proof.
  intros cs shown.
  assert (Hshown : address <> "" ->
            shown = firstn 6 cs ++ list_ascii_of_string "..." ++ skipn (length cs - 4) cs).
  { intros Hne. unfold shown, ShardeumAPI.formatAddress.
    destruct (String.eqb_spec address "") as [E|_]; [now destruct Hne|].
    cbv zeta. now rewrite list_ascii_of_string_of_list_ascii. }
  assert (Hlong : (10 <= length cs)%nat ->
            length shown = 13%nat
            /\ exists hidden,
                 cs = firstn 6 shown ++ hidden ++ skipn 9 shown
                 /\ length hidden = (length cs - 10)%nat).
  { intros Hlen.
    assert (Hne : address <> "").
    { intros ->. cbn in Hlen. lia. }
    rewrite (Hshown Hne).
    assert (H6 : length (firstn 6 cs) = 6%nat) by (rewrite length_firstn; lia).
    split.
    - rewrite !length_app, H6, length_skipn. cbn. lia.
    - exists (firstn (length cs - 10) (skipn 6 cs)).
      rewrite firstn_app, H6, firstn_firstn. cbn [Nat.sub Nat.min firstn].
      rewrite app_nil_r.
      rewrite skipn_app, H6.
      replace (skipn 9 (firstn 6 cs)) with (@nil ascii)
        by (symmetry; apply skipn_all2; lia).
      cbn [Nat.sub app list_ascii_of_string skipn].
      split.
      + rewrite <- (firstn_skipn 6 cs) at 1. f_equal.
        rewrite <- (firstn_skipn (length cs - 10) (skipn 6 cs)) at 1. f_equal.
        rewrite skipn_skipn. rewrite skipn_O. f_equal. lia.
      + rewrite length_firstn, length_skipn. apply Nat.min_l. lia. }
  split; [reflexivity|]. split; [now intros ->|]. split; [|exact Hlong].
  - intros Hne. split; [now apply Hshown|]. rewrite (Hshown Hne).
    rewrite !length_app, length_firstn, length_skipn.
    change (length (list_ascii_of_string "...")) with 3%nat. lia.
Qed.

(** ** The signer that [ShardeumAPI] keeps *)

(** X19. A send asks for a signer only when none is kept: with a signer
    it makes no such request, and without one at most one.  A send never
    drops the signer, and a send that returns a hash leaves one.  Without a
    signer [getCurrentAddress] fails with ['Wallet not connected'] and
    asks nothing; with one it asks the signer for its address, and that
    is its only call. *)
Theorem signer_is_requested_once
    (to amount : string) (gasLimit : option Z) (w : world) :
  let run := ShardeumAPI.sendTransaction to amount gasLimit w in
  let cs := calls_since w (snd run) in
  (count is_signer_request cs <= 1)%nat
  /\ (api_signer w = true ->
      count is_signer_request cs = 0%nat /\ api_signer (snd run) = true)
  /\ (forall H, fst run = Ret H -> api_signer (snd run) = true)
  /\ (api_signer w = false ->
      ShardeumAPI.getCurrentAddress w = (Throw (Error "Wallet not connected"), w))
  /\ (api_signer w = true ->
      ShardeumAPI.getCurrentAddress w
      = (match oracle w (trace w) SignerGetAddress with
         | Resolve address => Ret address
         | Reject e => Throw e
         end,
         with_trace (trace w ++ [SignerGetAddress]) w)).
Proof.
  intros run cs. unfold cs, run.
  assert (Hkeep : forall {A} (n : nat) (m : M A),
             (forall w0, api_signer (snd (m w0)) = api_signer w0) ->
             at_most n is_signer_request m ->
             guarded has_signer n is_signer_request m).
  { intros A n m Hsame Hm w0 Hw0. split; [|apply Hm].
    unfold has_signer. now rewrite Hsame. }
  assert (Hawait : forall c w0, api_signer (snd (await c w0)) = api_signer w0)
    by (intros c w0; now rewrite await_run).
  assert (Hpost : forall envelope w0,
             api_signer (snd (ShardeumAPI.post envelope w0)) = api_signer w0)
    by (intros envelope w0; now rewrite post_run).
  assert (Hthrow : forall A e,
             guarded has_signer 0 is_signer_request (@throw A e)).
  { intros A e. apply Hkeep; [reflexivity|apply at_most_throw]. }
  split; [|split; [|split; [|split]]].
  - apply count_calls_since. unfold ShardeumAPI.sendTransaction.
    apply at_most_caught; [|intros e; apply at_most_throw].
    apply at_most_after; [apply at_most_init_provider|intros _].
    apply at_most_before.
    { intros w0. unfold run_shape, ShardeumAPI.init_signer.
      destruct (negb (api_signer w0) && api_provider w0).
      - exists [GetSigner]. rewrite await_run.
        split; [now destruct (oracle w0 (trace w0) GetSigner)|]. cbn. lia.
      - exists []. rewrite app_nil_r. split; [reflexivity|cbn; lia]. }
    intros _.
    apply (at_most_cond 0 _ (fun w => negb (api_signer w)) (throw _));
      [apply at_most_throw|].
    apply at_most_after; [now apply at_most_verifyNetwork|intros ok].
    destruct (negb ok); [apply at_most_throw|].
    apply at_most_after; [now apply at_most_await_other|intros fromAddress].
    destruct (Units.toBaseUnits amount) as [value|]; [|apply at_most_throw].
    apply at_most_after; [now apply at_most_post|intros gasPrice].
    apply at_most_after.
    { destruct gasLimit as [[|g|g]|]; try apply at_most_ret; now apply at_most_post. }
    intros finalGasLimit.
    apply at_most_after; [now apply at_most_await_other|intros txResponse].
    apply at_most_prop.
  - intros Hsig.
    assert (Hrun : guarded has_signer 0 is_signer_request
                     (ShardeumAPI.sendTransaction to amount gasLimit)).
    { unfold ShardeumAPI.sendTransaction.
      apply (guarded_try_catch has_signer 0 0); [|intros e; apply Hthrow].
      apply (guarded_bind has_signer (fun _ => True) 0 0); [|auto|intros _ _].
      { apply Hkeep; [|apply at_most_init_provider].
        intros w0. now destruct (init_provider_run w0) as (w1 & -> & _ & _ & _ & Hs). }
      apply (guarded_bind has_signer (fun _ => True) 0 0); [|auto|intros _ _].
      { intros w0 Hw0. unfold run_shape, ShardeumAPI.init_signer.
        rewrite Hw0. cbn [negb andb snd].
        split; [exact Hw0|]. exists []. rewrite app_nil_r. split; [reflexivity|cbn; lia]. }
      apply (guarded_cond has_signer 0 _ (fun w => negb (api_signer w)) (throw _));
        [apply Hthrow|].
      apply (guarded_bind has_signer (fun _ => True) 0 0); [|auto|intros ok _].
      { apply Hkeep; [|now apply at_most_verifyNetwork].
        intros w0. rewrite verifyNetwork_run. now destruct (ethereum w0). }
      destruct (negb ok); [apply Hthrow|].
      apply (guarded_bind has_signer (fun _ => True) 0 0);
        [|auto|intros fromAddress _].
      { apply Hkeep; [apply Hawait|now apply at_most_await_other]. }
      destruct (Units.toBaseUnits amount) as [value|]; [|apply Hthrow].
      apply (guarded_bind has_signer (fun _ => True) 0 0); [|auto|intros gasPrice _].
      { apply Hkeep; [apply Hpost|now apply at_most_post]. }
      apply (guarded_bind has_signer (fun _ => True) 0 0);
        [|auto|intros finalGasLimit _].
      { destruct gasLimit as [[|g|g]|];
          first [ apply Hkeep; [apply Hpost|now apply at_most_post]
                | apply Hkeep; [reflexivity|apply at_most_ret] ]. }
      apply (guarded_bind has_signer (fun _ => True) 0 0);
        [|auto|intros txResponse _].
      { apply Hkeep; [apply Hawait|now apply at_most_await_other]. }
      apply Hkeep; [|apply at_most_prop].
      intros w0. unfold prop. now destruct (Val.get "hash" txResponse). }
    destruct (Hrun w Hsig) as (Hkept & cs0 & Ht & Hc).
    split; [|exact Hkept]. rewrite (calls_since_app _ _ _ Ht). lia.
  - intros H Hret.
    destruct (ShardeumAPI.sendTransaction to amount gasLimit w) as [r w'] eqn:Hrun.
    cbn [fst snd] in *. subst r.
    apply sendTransaction_ret in Hrun.
    now destruct Hrun as (? & ? & ? & ? & ? & ? & _ & _ & _ & _ & _ & Hsig & _).
  - intros Hsig. unfold ShardeumAPI.getCurrentAddress. now rewrite Hsig.
  - intros Hsig. unfold ShardeumAPI.getCurrentAddress. rewrite Hsig. apply await_run.
Qed.

(** ** Creating a creator from the page *)

(** The route on the body that [createCreator] sends. *)
Lemma post_creators_form (name address description : string) (w : world) :
  Server.post_creators
    (VObj [ ("name", VStr name); ("address", VStr address);
            ("description", VStr description) ]) w
  = if String.eqb name "" || String.eqb address "" || String.eqb description ""
    then (Server.missing_fields, w)
    else
      let c := Store.Creator (JS.decimal_string (date_now w)) (VStr name)
                 (JS.toLowerCase address) (VStr description)
                 ("https://api.dicebear.com/7.x/avataaars/svg?seed=" +:+ name)
                 "0" (JS.of_Z 0) in
      ((201, Server.creator_json c),
       with_store (Store.State (Store.creators (store w) ++ [c])
                     (Store.transactions (store w))) w).
Proof.
  unfold Server.post_creators.
  change (Val.field "name" _) with (VStr name).
  change (Val.field "address" _) with (VStr address).
  change (Val.field "description" _) with (VStr description).
  cbn [Val.truthy Val.toLowerCase Val.ToString]. rewrite !negb_involutive.
  reflexivity.
Qed.

(** X20. [createCreator] posts the three fields of the form once.  When
    the request does not get through it fails with the network error and
    the server keeps its creators.  When a field is empty the server
    refuses, the interceptor turns the refusal into
    ['API Error: Missing required fields'], and the creators are
    unchanged.  Otherwise it returns the new creator, with the address in
    lower case and no tips, and a [getCreators] that gets through
    afterwards lists the earlier creators followed by the new one.
    [recordTip] passes the answer of the server through the same
    interceptor. *)
Theorem created_creator_is_listed
    (name address description : string) (w : world) :
  let creator := VObj [ ("name", VStr name); ("address", VStr address);
                        ("description", VStr description) ] in
  let request := Http "POST" ApiService.creators_url creator in
  let run := ApiService.createCreator name address description w in
  calls_since w (snd run) = [request]
  /\ (forall e, oracle w (trace w) request = Reject e ->
        fst run = Throw (Error "Network Error: Unable to connect to server")
        /\ store (snd run) = store w)
  /\ (forall v, oracle w (trace w) request = Resolve v ->
        name = "" \/ address = "" \/ description = "" ->
        fst run = Throw (Error "API Error: Missing required fields")
        /\ store (snd run) = store w)
  /\ (forall v, oracle w (trace w) request = Resolve v ->
        name <> "" -> address <> "" -> description <> "" ->
        exists c,
          fst run = Ret (Server.creator_json c)
          /\ Store.name c = VStr name
          /\ Store.address c = JS.toLowerCase address
          /\ Store.description c = VStr description
          /\ Store.totalTips c = "0"
          /\ Store.tipCount c = JS.of_Z 0
          /\ Store.creators (store (snd run)) = Store.creators (store w) ++ [c]
          /\ Store.transactions (store (snd run)) = Store.transactions (store w)
          /\ (forall v',
                 oracle w (trace w ++ [request])
                   (Http "GET" ApiService.creators_url VUndefined) = Resolve v' ->
                 fst (ApiService.getCreators (snd run))
                 = Ret (VArr (map Server.creator_json
                                (Store.creators (store w) ++ [c])))))
  /\ (forall tipData v,
        oracle w (trace w) (Http "POST" ApiService.tips_url tipData) = Resolve v ->
        let w1 := with_trace (trace w ++ [Http "POST" ApiService.tips_url tipData]) w in
        ApiService.recordTip tipData w
        = (ApiService.intercept (fst (Server.post_tips tipData w1)),
           snd (Server.post_tips tipData w1))).
Proof.
  intros creator request run.
  assert (Hrecord : forall tipData v,
             oracle w (trace w) (Http "POST" ApiService.tips_url tipData) = Resolve v ->
             let w1 := with_trace (trace w ++ [Http "POST" ApiService.tips_url tipData]) w in
             ApiService.recordTip tipData w
             = (ApiService.intercept (fst (Server.post_tips tipData w1)),
                snd (Server.post_tips tipData w1))).
  { intros tipData v Ho w1. unfold ApiService.recordTip, ApiService.intercept.
    rewrite await_run, Ho. fold w1.
    destruct (Server.post_tips tipData w1) as [[status data] w2]. cbn [fst snd].
    now destruct ((200 <=? status) && (status <? 300)). }
  unfold run, ApiService.createCreator.
  fold creator. fold request. rewrite await_run.
  destruct (oracle w (trace w) request) as [v|e] eqn:Ho.
  - destruct (String.eqb_spec name "") as [Hn|Hn];
      [|destruct (String.eqb_spec address "") as [Ha|Ha];
        [|destruct (String.eqb_spec description "") as [Hd|Hd]]].
    1-3: (unfold creator; rewrite post_creators_form; subst;
          rewrite ?String.eqb_refl;
          repeat match goal with
            | H : ?s <> "" |- _ =>
                apply String.eqb_neq in H; rewrite H; clear H
            end;
          cbn [negb orb fst snd];
          split; [now apply calls_since_app|];
          split; [intros e E; discriminate E|];
          split; [intros _ _ _; split; reflexivity|];
          split; [intros _ _ H1 H2 H3; congruence|exact Hrecord]).
    unfold creator. rewrite post_creators_form.
    pose proof Hn as Hn'. pose proof Ha as Ha'. pose proof Hd as Hd'.
    apply String.eqb_neq in Hn', Ha', Hd'. rewrite Hn', Ha', Hd'.
    cbn [negb orb fst snd].
    split; [now apply calls_since_app|].
    split; [intros e E; discriminate E|].
    split; [intros _ _ [E|[E|E]]; congruence|].
    split; [|exact Hrecord].
    intros _ _ _ _ _. eexists. split; [reflexivity|].
    cbn [Store.name Store.address Store.description Store.totalTips Store.tipCount
         store with_store Store.creators Store.transactions].
    repeat (split; [reflexivity|]).
    intros v' Hget. unfold ApiService.getCreators. rewrite await_run.
    cbn [oracle trace with_store with_trace]. now rewrite Hget.
  - cbn [fst snd].
    split; [now apply calls_since_app|].
    split; [intros _ _; split; reflexivity|].
    split; [intros v E; discriminate E|].
    split; [intros v E; discriminate E|exact Hrecord].
Qed.

Lemma created_creator_is_listed_witness :
  exists c,
    fst (ApiService.createCreator "Eve" "0xABCDEF" "Writer" Scenario.on_shardeum)
    = Ret (Server.creator_json c)
    /\ Store.address c = "0xabcdef"
    /\ Store.creators
         (store (snd (ApiService.createCreator "Eve" "0xABCDEF" "Writer"
                        Scenario.on_shardeum)))
       = Store.creators Store.initial ++ [c].
Proof.
  destruct (created_creator_is_listed "Eve" "0xABCDEF" "Writer" Scenario.on_shardeum)
    as (_ & _ & _ & Hok & _).
  destruct (Hok VNull eq_refl ltac:(discriminate) ltac:(discriminate)
              ltac:(discriminate))
    as (c & Hret & _ & Haddress & _ & _ & _ & Hcreators & _).
  exists c. split; [exact Hret|]. split; [exact Haddress|exact Hcreators].
Defined.

(** ** A switch that the wallet accepts *)

(** X21. With a wallet, [switchToShardeum] (the same in both services)
    asks for the switch exactly once.  When the wallet accepts, that is
    its only request and it returns.  It asks to add the network at most
    once, and exactly when the switch was rejected with code 4902; it
    returns exactly when the switch was accepted, or was rejected with
    4902 and the addition accepted. *)
Theorem switch_asks_once (w : world) :
  ethereum w = true ->
  let run := ShardeumAPI.switchToShardeum w in
  let cs := calls_since w (snd run) in
  let switch := oracle w (trace w) ShardeumAPI.switch_call in
  let add := oracle w (trace w ++ [ShardeumAPI.switch_call]) ShardeumAPI.add_call in
  Web3Service.switchToShardeum w = run
  /\ (forall v, switch = Resolve v ->
        run = (Ret tt, with_trace (trace w ++ [ShardeumAPI.switch_call]) w))
  /\ count is_switch_chain cs = 1%nat
  /\ (count is_add_chain cs <= 1)%nat
  /\ (count is_add_chain cs = 1%nat <->
      exists e, switch = Reject e /\ err_code e = Some 4902)
  /\ (fst run = Ret tt <->
      (exists v, switch = Resolve v)
      \/ (exists e v, switch = Reject e /\ err_code e = Some 4902 /\ add = Resolve v)).
Proof.
  intros Heth run cs switch add. unfold cs, run, switch, add.
  split; [now rewrite switch_same|].
  destruct (oracle w (trace w) ShardeumAPI.switch_call) as [v|e] eqn:Ho.
  - assert (Hrun : ShardeumAPI.switchToShardeum w
                   = (Ret tt, with_trace (trace w ++ [ShardeumAPI.switch_call]) w)).
    { unfold ShardeumAPI.switchToShardeum, try_catch, bind.
      rewrite Heth, await_run, Ho. reflexivity. }
    rewrite Hrun. cbn [fst snd].
    rewrite (calls_since_app w _ [ShardeumAPI.switch_call]) by reflexivity.
    split; [reflexivity|]. split; [reflexivity|]. split; [cbn; lia|].
    split; [split; [discriminate|intros (e & E & _); discriminate E]|].
    split; [eauto|reflexivity].
  - rewrite (switch_steps w e Heth Ho).
    split; [intros v E; discriminate E|].
    case_bool_decide as Hcode; cbn [fst snd].
    + rewrite (calls_since_app w _ [ShardeumAPI.switch_call; ShardeumAPI.add_call])
        by reflexivity.
      split; [reflexivity|]. split; [cbn; lia|]. split; [split; eauto|].
      destruct (oracle w (trace w ++ [ShardeumAPI.switch_call]) ShardeumAPI.add_call)
        as [v|addError].
      * split; [|reflexivity]. intros _. right. eauto.
      * split; [discriminate|].
        intros [(v & E)|(e' & v & _ & _ & E)]; discriminate E.
    + rewrite (calls_since_app w _ [ShardeumAPI.switch_call]) by reflexivity.
      split; [reflexivity|]. split; [cbn; lia|]. split.
      * split; [discriminate|]. intros (e' & [= <-] & E). now destruct Hcode.
      * split; [discriminate|].
        intros [(v & E)|(e' & v & [= <-] & E & _)]; [discriminate E|now destruct Hcode].
Qed.

Lemma switch_asks_once_witness :
  ShardeumAPI.switchToShardeum Scenario.on_mainnet
  = (Ret tt, with_trace [ShardeumAPI.switch_call] Scenario.on_mainnet).
Proof.
  destruct (switch_asks_once Scenario.on_mainnet eq_refl) as (_ & Haccepted & _).
  exact (Haccepted VNull eq_refl).
Defined.

(** ** An amount that is not a number *)

Lemma sendTransaction_without_conversion (n : nat) (q : call -> bool)
    (to amount : string) (gasLimit : option Z) :
  Units.toBaseUnits amount = None ->
  q GetSigner = false -> q chain_id_call = false -> q SignerGetAddress = false ->
  at_most n q (ShardeumAPI.sendTransaction to amount gasLimit).
Proof.
  intros Hnone Hsigner Hchain Haddress. unfold ShardeumAPI.sendTransaction.
  apply at_most_caught; [|intros e; apply at_most_throw].
  apply at_most_after; [apply at_most_init_provider|intros _].
  apply at_most_after; [now apply at_most_init_signer|intros _].
  apply (at_most_cond n q (fun w => negb (api_signer w)) (throw _));
    [apply at_most_throw|].
  apply at_most_after; [now apply at_most_verifyNetwork|intros ok].
  destruct (negb ok); [apply at_most_throw|].
  apply at_most_after; [now apply at_most_await_other|intros fromAddress].
  rewrite Hnone. apply at_most_throw.
Qed.

(** X22. The form lets through an amount that does not parse as a number:
    [parseFloat] gives [NaN], which is neither [<= 0] nor above the
    balance, so with a valid creator address the form is valid whatever
    the balance.  When such an amount does not convert to base units
    either, the send fails before any gas request and without a
    submission: the dialog shows an error, posts nothing to the server
    and leaves the store as it was. *)
Theorem form_accepts_an_amount_that_is_not_a_number
    (amount : string) (walletState : TipModal.wallet_state)
    (creator : Store.creator) (ui : TipModal.ui_state) (w : world) :
  amount <> "" ->
  JS.parseFloat amount = JS.NaN ->
  ShardeumAPI.isValidAddress (Store.address creator) = true ->
  let ui' := fst (TipModal.handleSendTip amount walletState creator ui w) in
  let w' := snd (TipModal.handleSendTip amount walletState creator ui w) in
  let cs := calls_since w w' in
  TipModal.validateForm amount walletState creator = None
  /\ (Units.toBaseUnits amount = None ->
      (exists msg, TipModal.error ui' = Some msg)
      /\ TipModal.tipSent ui' = TipModal.tipSent ui
      /\ TipModal.txHash ui' = TipModal.txHash ui
      /\ TipModal.isLoading ui' = false
      /\ count is_gas_estimation cs = 0%nat
      /\ count is_submission cs = 0%nat
      /\ count is_tip_record cs = 0%nat
      /\ store w' = store w).
Proof.
  intros Hne Hnan Haddress ui' w' cs.
  assert (Hvalid : TipModal.validateForm amount walletState creator = None).
  { unfold TipModal.validateForm. rewrite Hnan, Haddress. cbn [Val.truthy].
    destruct (String.eqb_spec amount "") as [E|_]; [now destruct Hne|].
    assert (Hgt : forall x, JS.gtb JS.NaN x = false)
      by (intros x; unfold JS.gtb, JS.NaN, SFltb; now destruct x as [[]|[]| |[]]).
    now rewrite Hgt. }
  split; [exact Hvalid|]. intros Hnone.
  unfold cs, w', ui', TipModal.handleSendTip. rewrite Hvalid.
  unfold ShardeumAPI.sendTip.
  pose proof (count_calls_since 0 is_gas_estimation _ w
                (sendTransaction_without_conversion 0 is_gas_estimation
                   (Store.address creator) amount None Hnone eq_refl eq_refl eq_refl))
    as Hgas.
  pose proof (count_calls_since 0 is_submission _ w
                (sendTransaction_without_conversion 0 is_submission
                   (Store.address creator) amount None Hnone eq_refl eq_refl eq_refl))
    as Hsub.
  pose proof (count_calls_since 0 is_tip_record _ w
                (sendTransaction_without_conversion 0 is_tip_record
                   (Store.address creator) amount None Hnone eq_refl eq_refl eq_refl))
    as Hrec.
  pose proof (client_sendTransaction (Store.address creator) amount None w)
    as (_ & Hstore).
  destruct (ShardeumAPI.sendTransaction (Store.address creator) amount None w)
    as [[hash|err] w1] eqn:Hrun; cbn [fst snd] in *.
  - apply sendTransaction_ret in Hrun.
    destruct Hrun as (? & ? & value & ? & ? & ? & _ & _ & _ & _ & Hsome & _).
    congruence.
  - cbn [TipModal.error TipModal.tipSent TipModal.txHash TipModal.isLoading].
    split; [eauto|]. repeat (split; [reflexivity|]).
    split; [lia|]. split; [lia|]. split; [lia|exact Hstore].
Qed.

Lemma form_accepts_an_amount_that_is_not_a_number_witness :
  TipModal.validateForm "abc" (Scenario.session "0.05") Scenario.bob = None
  /\ exists msg,
       TipModal.error
         (fst (TipModal.handleSendTip "abc" (Scenario.session "0.05") Scenario.bob
                 Scenario.fresh_dialog Scenario.on_shardeum))
       = Some msg.
Proof.
  destruct (form_accepts_an_amount_that_is_not_a_number "abc"
              (Scenario.session "0.05") Scenario.bob Scenario.fresh_dialog
              Scenario.on_shardeum ltac:(discriminate) eq_refl eq_refl)
    as (Hvalid & Hfails).
  split; [exact Hvalid|]. now destruct (Hfails eq_refl) as (Hmsg & _).
Defined.

(** ** How [Web3Service] reports a failure *)

Lemma bind_throw_inv {A B} (m : M A) (k : A -> M B) (w : world) (e : js_error) :
  fst (bind m k w) = Throw e ->
  fst (m w) = Throw e
  \/ exists a w1, m w = (Ret a, w1) /\ fst (k a w1) = Throw e.
Proof.
  unfold bind. destruct (m w) as [[a|e0] w1]; cbv beta iota; intros Hthrow.
  - right. eauto.
  - left. cbn [fst] in *. now injection Hthrow as ->.
Qed.

(** X23. A failure inside a method of [Web3Service] reaches the caller as
    a new error whose message is the message of the cause behind the
    prefix of the method, and which has no code, so the code of a wallet
    error (4001 for a refusal by the user) is not passed on.  A rejected
    balance request becomes ['Failed to get balance: ...'], and inside
    [connectWallet] that message is wrapped once more.  [sendTip] fails
    with ['Web3 not initialized'], with the wrong-network error, or with
    ['Failed to send tip: ...']. *)
Theorem web3_failures_are_wrapped
    (w : world) (address : value) (toAddress amount : string) :
  (forall e, web3 w = true ->
     oracle w (trace w) (Web3GetBalance address) = Reject e ->
     fst (Web3Service.getBalance address w)
     = Throw (Error ("Failed to get balance: " +:+ err_message e)))
  /\ (forall e, fst (Web3Service.getBalance address w) = Throw e -> err_code e = None)
  /\ (forall e, fst (Web3Service.getNetworkInfo w) = Throw e ->
        err_code e = None
        /\ (e = Web3Service.not_initialized
            \/ exists reason, e = Error ("Failed to get network info: " +:+ reason)))
  /\ (forall e, fst (Web3Service.sendTip toAddress amount w) = Throw e ->
        err_code e = None
        /\ (e = Web3Service.not_initialized \/ e = Web3Service.wrong_network
            \/ exists reason, e = Error ("Failed to send tip: " +:+ reason)))
  /\ (forall e, fst (Web3Service.connectWallet w) = Throw e -> err_code e = None)
  /\ (forall accounts chainId e,
        ethereum w = true -> web3 w = true ->
        oracle w (trace w) (EthRequest "eth_requestAccounts" []) = Resolve accounts ->
        Web3Service.requested_account accounts w = (Ret address, w) ->
        oracle w (trace w ++ [EthRequest "eth_requestAccounts" []]) chain_id_call
        = Resolve chainId ->
        oracle w (trace w ++ [EthRequest "eth_requestAccounts" []; chain_id_call])
          (Web3GetBalance address) = Reject e ->
        fst (Web3Service.connectWallet w)
        = Throw (Error ("Failed to connect wallet: Failed to get balance: "
                          +:+ err_message e))).
Proof.
  split; [|split; [|split; [|split; [|split]]]].
  - intros e Hweb3 Ho. rewrite getBalance_run by exact Hweb3. now rewrite Ho.
  - intros e. unfold Web3Service.getBalance.
    destruct (web3 w); cbn [negb fst]; [|now intros [= <-]].
    intros Hthrow. apply try_catch_wrapped in Hthrow.
    now destruct Hthrow as (e0 & _ & ->).
  - intros e. unfold Web3Service.getNetworkInfo.
    destruct (web3 w); cbn [negb fst]; [|intros [= <-]; auto].
    intros Hthrow. apply try_catch_wrapped in Hthrow.
    destruct Hthrow as (e0 & _ & ->). split; [reflexivity|eauto].
  - intros e. unfold Web3Service.sendTip.
    destruct (negb (web3 w) || negb (ethereum w)); cbn [fst]; [intros [= <-]; auto|].
    intros Hthrow. apply bind_throw_inv in Hthrow.
    destruct Hthrow as [Hthrow|(ok & w1 & _ & Hthrow)].
    { rewrite verifyNetwork_same, verifyNetwork_run in Hthrow.
      destruct (ethereum w); discriminate Hthrow. }
    destruct (negb ok); [injection Hthrow as <-; auto|].
    apply try_catch_wrapped in Hthrow.
    destruct Hthrow as (e0 & _ & ->). split; [reflexivity|eauto].
  - intros e. unfold Web3Service.connectWallet, Web3Service.isMetaMaskInstalled.
    destruct (ethereum w); cbn [negb fst]; [|now intros [= <-]].
    intros Hthrow. apply try_catch_wrapped in Hthrow.
    now destruct Hthrow as (e0 & _ & ->).
  - intros accounts chainId e Heth Hweb3 Ha Hf Hc Hb.
    unfold Web3Service.connectWallet, Web3Service.isMetaMaskInstalled.
    rewrite Heth. cbn [negb]. unfold try_catch.
    unfold bind at 1. unfold ethereum_request at 1. rewrite Heth, await_run, Ha.
    unfold bind at 1.
    assert (Hf' : forall w0, Web3Service.requested_account accounts w0 = (Ret address, w0)).
    { intros w0. revert Hf. clear.
      destruct accounts as [| | | | |s|l|]; cbn [Web3Service.requested_account];
        try discriminate; try (now intros [= <-]).
      - destruct s; [discriminate|now intros [= <-]].
      - destruct l; [discriminate|now intros [= <-]]. }
    rewrite Hf'. unfold bind at 1. unfold ethereum_request.
    cbn [ethereum with_trace]. rewrite Heth, await_run.
    cbn [oracle trace with_trace]. fold chain_id_call. rewrite Hc.
    unfold bind at 1. rewrite getBalance_run by exact Hweb3.
    cbn [oracle trace with_trace]. rewrite <- app_assoc. cbn [app].
    now rewrite Hb.
Qed.

Lemma web3_failures_are_wrapped_witness :
  let w := Scenario.start
             (fun h c => match c with
                         | Web3GetBalance _ => Reject (JsError (Some 4001) "User denied")
                         | _ => Scenario.unlocked "0x1f93" h c
                         end) in
  fst (Web3Service.connectWallet w)
  = Throw (Error "Failed to connect wallet: Failed to get balance: User denied").
Proof.
  intros w.
  destruct (web3_failures_are_wrapped w (VStr Scenario.alice_address)
              Scenario.bob_address "0.01") as (_ & _ & _ & _ & _ & Hnested).
  exact (Hnested (VArr [VStr Scenario.alice_address]) (VStr "0x1f93")
           (JsError (Some 4001) "User denied")
           eq_refl eq_refl eq_refl eq_refl eq_refl eq_refl).
Defined.

(** ** From the dialog to the history page *)

(** X24. When a press of the send button ends with [onTipSent] called,
    the wallet was connected with an address, and the server holds a tip
    from that address to the address of the creator, both in lower case,
    with the amount as typed and the id of the creator.  The history of
    the wallet's address lists this tip, and the history page marks it as
    sent. *)
Theorem tip_sent_through_the_dialog_is_in_the_history
    (Date_value : string -> JS.number)
    (amount : string) (walletState : TipModal.wallet_state)
    (creator : Store.creator) (ui : TipModal.ui_state) (w : world) :
  TipModal.tipSent ui = false ->
  let ui' := fst (TipModal.handleSendTip amount walletState creator ui w) in
  let w' := snd (TipModal.handleSendTip amount walletState creator ui w) in
  TipModal.tipSent ui' = true ->
  exists a t history,
    TipModal.address walletState = Some a /\ a <> ""
    /\ Store.transactions (store w') = Store.transactions (store w) ++ [t]
    /\ Store.fromAddress t = JS.toLowerCase a
    /\ Store.toAddress t = JS.toLowerCase (Store.address creator)
    /\ Store.amount t = VStr amount
    /\ Store.creatorId t = VStr (Store.id creator)
    /\ Some (Store.txHash t) = TipModal.txHash ui'
    /\ Server.get_history Date_value a w' = (200, VArr (map Server.tip_json history))
    /\ In t history
    /\ TransactionHistory.getTransactionType t walletState = TransactionHistory.sent.
Proof.
  intros Hbefore ui' w'. unfold ui', w', TipModal.handleSendTip.
  destruct (TipModal.validateForm amount walletState creator) as [msg|];
    [cbn [fst TipModal.tipSent]; congruence|].
  pose proof (client_sendTransaction (Store.address creator) amount None w)
    as (_ & Hstore).
  unfold ShardeumAPI.sendTip.
  destruct (ShardeumAPI.sendTransaction (Store.address creator) amount None w)
    as [[hash|err] w1]; [|cbn [fst TipModal.tipSent]; congruence].
  cbn [snd] in Hstore.
  set (data := TipModal.tipData amount walletState creator hash).
  unfold ApiService.recordTip. rewrite await_run.
  destruct (oracle w1 (trace w1) (Http "POST" ApiService.tips_url data)) as [v|e];
    [|cbn [fst TipModal.tipSent]; congruence].
  set (w2 := with_trace (trace w1 ++ [Http "POST" ApiService.tips_url data]) w1).
  destruct (post_tips_cases data w2)
    as [((status & body) & Hrun & Hstatus)
       |(from & to & Hfrom & Hto & Hfne & _ & _ & _ & creators' & Hrun)].
  - rewrite Hrun. cbn [fst] in Hstatus.
    destruct ((200 <=? status) && (status <? 300)) eqn:Hok;
      [|cbn [fst TipModal.tipSent]; congruence].
    exfalso. unfold Server.post_tips in Hrun.
    repeat match type of Hrun with
           | (if ?b then _ else _) = _ => destruct b
           | match ?x with _ => _ end = _ => destruct x
           end; inversion Hrun; subst; try discriminate; try (now apply Hstatus).
  - cbv zeta in Hrun. rewrite Hrun. unfold w2.
    cbn [andb Z.leb Z.ltb Z.compare Pos.compare Pos.compare_cont fst snd
         TipModal.tipSent TipModal.txHash store with_store with_trace
         Store.transactions].
    intros _.
    assert (Ha : TipModal.address walletState = Some from).
    { unfold data, TipModal.tipData in Hfrom. cbn in Hfrom.
      destruct (TipModal.address walletState); congruence. }
    assert (Ht : to = Store.address creator).
    { unfold data, TipModal.tipData in Hto. cbn in Hto. congruence. }
    subst to.
    eexists from, _, _.
    split; [exact Ha|]. split; [exact Hfne|].
    split; [now rewrite Hstore|].
    cbn [Store.fromAddress Store.toAddress Store.amount Store.creatorId Store.txHash].
    do 6 (split; [reflexivity|]). split.
    + eapply Permutation_in; [symmetry; apply sort_permutation|].
      apply filter_In. split; [apply in_or_app; right; now left|].
      apply involves_iff. left. reflexivity.
    + unfold TransactionHistory.getTransactionType. rewrite Ha.
      cbn [Store.fromAddress]. now rewrite toLowerCase_idempotent, String.eqb_refl.
Qed.

Lemma tip_sent_through_the_dialog_is_in_the_history_witness :
  exists t history,
    Server.get_history (fun _ => JS.of_Z 0) Scenario.alice_address
      (snd (TipModal.handleSendTip "0.01" (Scenario.session "0.05") Scenario.bob
              Scenario.fresh_dialog Scenario.on_shardeum))
    = (200, VArr (map Server.tip_json history))
    /\ In t history
    /\ Store.fromAddress t = "0xaaaaaaaaaaaaaaaaaaaaaaaaaaaaaaaaaaaaaaaa"
    /\ Store.amount t = VStr "0.01".
Proof.
  destruct (tip_sent_through_the_dialog_is_in_the_history (fun _ => JS.of_Z 0)
              "0.01" (Scenario.session "0.05") Scenario.bob Scenario.fresh_dialog
              Scenario.on_shardeum eq_refl eq_refl)
    as (a & t & history & Ha & _ & _ & Hfrom & _ & Hamount & _ & _ & Hhistory & Hin & _).
  injection Ha as <-.
  exists t, history. split; [exact Hhistory|]. split; [exact Hin|].
  split; [exact Hfrom|exact Hamount].
Defined.
